(** * Request admission layer of ai-blessing-maker: token service and gateway

    Shallow embedding of

    - [src/lib/auth.ts]                           ([JWT_SECRET], [verifyToken]),
    - [src/app/api/auth/wechat/login/route.ts]    ([generateToken], URL-safe),
    - [src/unnamed/part_001]                      ([JWT_SECRET], [generateToken],
                                                   local [verifyToken]),
    - [src/unnamed/part_003], second document     ([isWeChatMiniProgram],
                                                   [middleware]),
    - [src/app/api/blessing/route.ts]             (admission prefix of [POST],
                                                   and the rest of it),
    - [src/lib/supabase.ts]                       ([userDb], [historyDb]),
    - [src/unnamed/part_006], second document     ([getSupabaseClient],
                                                   [updateUser]),
    - [src/app/api/auth/wechat/login/route.ts]    ([POST], [GET]),
    - [src/app/api/user/profile/route.ts]         ([GET], [PUT]),
    - [src/unnamed/part_003], first document      (history route: [GET],
                                                   [POST], [DELETE]),
    - [src/unnamed/part_002]                      (earlier [GET] of it),
    - [src/wechat-miniprogram/utils/validation.js] ([validateInput],
                                                   [cleanText]),
    - [src/lib/prompt-templates.ts]               (the three prompt makers),

    together with executable models of the Node.js / ECMAScript built-ins
    these functions call ([String.prototype.split], global [replace],
    [Buffer] base64 and UTF-8 conversion, [crypto.createHmac('sha256', _)],
    [JSON.stringify], [JSON.parse], property read, the [<] operator).

    Conventions.
    - A JavaScript string is represented by the bytes of its UTF-8 encoding,
      as a Rocq [string]; this is the form in which [Buffer.from(str)] and
      [hmac.update(str)] consume it. Strings holding unpaired surrogates have
      no such representation and are outside the model.
    - A byte is a [Z] in [0, 256); a 32-bit word is a [Z] in [0, 2^32) with
      the wrap-around written out.
    - [Date.now()] is an explicit integer argument (milliseconds).
    - JSON numbers are kept as exact decimals [m * 10^e]; the rounding to
      binary64 is not modelled, so statements about numbers are made for
      integer values, where both agree below 2^53. *)

From Stdlib Require Import ZArith Ascii String List Lia Bool.
From stdpp Require Import base option list strings gmap.

Import ListNotations.
Local Open Scope string_scope.
Local Open Scope list_scope.
Local Open Scope Z_scope.

(** ** JavaScript string operations on the UTF-8 representation *)
Module JS.

Definition code (c : ascii) : Z := Z.of_N (N_of_ascii c).
Definition chr (z : Z) : ascii := ascii_of_N (Z.to_N (z mod 256)).

Definition dquote : ascii := "034"%char.

Definition bytes_of_string (s : string) : list Z :=
  map code (list_ascii_of_string s).
Definition string_of_bytes (l : list Z) : string :=
  string_of_list_ascii (map chr l).

(** [s.split(c)] for a one-character separator [c]. *)
Fixpoint split (c : ascii) (s : string) : list string :=
  match s with
  | EmptyString => [EmptyString]
  | String a s' =>
      if Ascii.eqb a c then EmptyString :: split c s'
      else match split c s' with
           | [] => [String a EmptyString]
           | p :: ps => String a p :: ps
           end
  end.

(** [s.replace(/c/g, r)] for a one-character pattern [c]. *)
Fixpoint replaceAll (c : ascii) (r : string) (s : string) : string :=
  match s with
  | EmptyString => EmptyString
  | String a s' =>
      if Ascii.eqb a c then r +:+ replaceAll c r s'
      else String a (replaceAll c r s')
  end.

Fixpoint drop (n : nat) (s : string) : string :=
  match n, s with
  | S n', String _ s' => drop n' s'
  | _, _ => s
  end.

(** [s.replace(pat, r)] for a string pattern: first occurrence only. *)
Fixpoint replaceFirst (pat r : string) (s : string) : string :=
  if String.prefix pat s then r +:+ drop (String.length pat) s
  else match s with
       | EmptyString => EmptyString
       | String a s' => String a (replaceFirst pat r s')
       end.

(** [hay.includes(needle)]. *)
Fixpoint includes (needle hay : string) : bool :=
  String.prefix needle hay ||
  match hay with
  | EmptyString => false
  | String _ hay' => includes needle hay'
  end.

(** [s.startsWith(p)]. *)
Definition startsWith (p s : string) : bool := String.prefix p s.

(** [c.repeat(n)]. *)
Fixpoint repeat (c : ascii) (n : nat) : string :=
  match n with
  | O => EmptyString
  | S n' => String c (repeat c n')
  end.

(** [s.length]: the number of UTF-16 code units of the string whose UTF-8
    encoding is [s]. Continuation bytes [10xxxxxx] count for nothing, the
    lead byte of a four-byte sequence counts for two (a surrogate pair). *)
Definition units_of_byte (b : Z) : Z :=
  if (128 <=? b) && (b <? 192) then 0
  else if 240 <=? b then 2
  else 1.

Definition length (s : string) : Z :=
  fold_right (fun b n => units_of_byte b + n) 0 (bytes_of_string s).

(** Decimal digits of a non-negative integer, most significant first. *)
Fixpoint digits_pos (fuel : nat) (n : Z) (acc : string) : string :=
  match fuel with
  | O => acc
  | S fuel' =>
      let acc' := String (chr (48 + n mod 10)) acc in
      if n <? 10 then acc' else digits_pos fuel' (n / 10) acc'
  end.

(** Literals of this file write ['] where the JavaScript text has a
    double quote; [dq] puts the double quotes back. *)
Definition dq (s : string) : string :=
  replaceAll "'" (String dquote EmptyString) s.

(** [n.toString()] and [JSON.stringify(n)] for an integer [n] with
    [|n| < 10^21] (beyond, JavaScript switches to exponent notation). *)
Definition Z_toString (n : Z) : string :=
  if n <? 0 then String "-" (digits_pos (Z.to_nat (Z.log2 (- n)) + 1) (- n) EmptyString)
  else digits_pos (Z.to_nat (Z.log2 n) + 1) n EmptyString.

End JS.

(** ** Base64 as implemented by Node's [Buffer] *)
Module Base64.

Definition alphabet : string :=
  "ABCDEFGHIJKLMNOPQRSTUVWXYZabcdefghijklmnopqrstuvwxyz0123456789+/".

Definition enc (i : Z) : ascii :=
  match String.get (Z.to_nat (i mod 64)) alphabet with
  | Some c => c
  | None => "A"%char
  end.

(** [buf.toString('base64')]: standard alphabet, padded with [=]. *)
Fixpoint encode (l : list Z) : string :=
  match l with
  | [] => EmptyString
  | [a] =>
      String (enc (Z.shiftr a 2))
     (String (enc (Z.shiftl (Z.land a 3) 4))
     (String "=" (String "=" EmptyString)))
  | [a; b] =>
      String (enc (Z.shiftr a 2))
     (String (enc (Z.lor (Z.shiftl (Z.land a 3) 4) (Z.shiftr b 4)))
     (String (enc (Z.shiftl (Z.land b 15) 2))
     (String "=" EmptyString)))
  | a :: b :: c :: rest =>
      String (enc (Z.shiftr a 2))
     (String (enc (Z.lor (Z.shiftl (Z.land a 3) 4) (Z.shiftr b 4)))
     (String (enc (Z.lor (Z.shiftl (Z.land b 15) 2) (Z.shiftr c 6)))
     (String (enc (Z.land c 63))
     (encode rest))))
  end.

(** Node's [unbase64] table: both the standard and the URL-safe alphabet
    are accepted; every other character is illegal. *)
Definition unbase64 (c : ascii) : option Z :=
  let n := JS.code c in
  if (65 <=? n) && (n <=? 90) then Some (n - 65)
  else if (97 <=? n) && (n <=? 122) then Some (n - 71)
  else if (48 <=? n) && (n <=? 57) then Some (n + 4)
  else if (n =? 43) || (n =? 45) then Some 62
  else if (n =? 47) || (n =? 95) then Some 63
  else None.

(** The legal sextets of the input up to the first [=]: the decoder skips
    illegal characters and stops at the first padding character. *)
Fixpoint sextets (s : string) : list Z :=
  match s with
  | EmptyString => []
  | String c s' =>
      if Ascii.eqb c "=" then []
      else match unbase64 c with
           | Some v => v :: sextets s'
           | None => sextets s'
           end
  end.

Fixpoint bytes_of_sextets (l : list Z) : list Z :=
  match l with
  | s0 :: s1 :: s2 :: s3 :: rest =>
      Z.lor (Z.shiftl s0 2) (Z.shiftr s1 4)
      :: Z.lor (Z.shiftl (Z.land s1 15) 4) (Z.shiftr s2 2)
      :: Z.lor (Z.shiftl (Z.land s2 3) 6) s3
      :: bytes_of_sextets rest
  | [s0; s1; s2] =>
      [Z.lor (Z.shiftl s0 2) (Z.shiftr s1 4);
       Z.lor (Z.shiftl (Z.land s1 15) 4) (Z.shiftr s2 2)]
  | [s0; s1] => [Z.lor (Z.shiftl s0 2) (Z.shiftr s1 4)]
  | _ => []
  end.

(** [Buffer.from(s, 'base64')]. *)
Definition decode (s : string) : list Z := bytes_of_sextets (sextets s).

End Base64.

(** ** SHA-256 (FIPS 180-4) and HMAC (RFC 2104) *)
Module SHA256.

Definition w32 (x : Z) : Z := x mod 2 ^ 32.
Definition add32 (x y : Z) : Z := w32 (x + y).
Definition rotr (n x : Z) : Z :=
  Z.lor (Z.shiftr x n) (w32 (Z.shiftl x (32 - n))).

Definition Ch (x y z : Z) : Z :=
  Z.lxor (Z.land x y) (Z.land (Z.lxor x (2 ^ 32 - 1)) z).
Definition Maj (x y z : Z) : Z :=
  Z.lxor (Z.lxor (Z.land x y) (Z.land x z)) (Z.land y z).
Definition Sigma0 (x : Z) : Z :=
  Z.lxor (Z.lxor (rotr 2 x) (rotr 13 x)) (rotr 22 x).
Definition Sigma1 (x : Z) : Z :=
  Z.lxor (Z.lxor (rotr 6 x) (rotr 11 x)) (rotr 25 x).
Definition sigma0 (x : Z) : Z :=
  Z.lxor (Z.lxor (rotr 7 x) (rotr 18 x)) (Z.shiftr x 3).
Definition sigma1 (x : Z) : Z :=
  Z.lxor (Z.lxor (rotr 17 x) (rotr 19 x)) (Z.shiftr x 10).

(** The constants of the standard are fractional parts of roots of the
    first primes: thirty-two bits of the cube roots for the round
    constants, of the square roots for the initial state. *)
Definition is_prime (n : nat) : bool :=
  Nat.leb 2 n && forallb (fun d => negb (Nat.eqb (Nat.modulo n d) 0)) (seq 2 (n - 2)).

Definition primes (k : nat) : list Z :=
  map Z.of_nat (firstn k (filter is_prime (seq 2 400))).

(** Integer cube root, one bit at a time. *)
Definition icbrt (n : Z) : Z :=
  fold_left (fun r i => let r' := r + 2 ^ i in if r' ^ 3 <=? n then r' else r)
            (map Z.of_nat (rev (seq 0 40))) 0.

Definition K : list Z :=
  Eval vm_compute in map (fun p => icbrt (p * 2 ^ 96) mod 2 ^ 32) (primes 64).

Definition H0_words : list Z :=
  Eval vm_compute in map (fun p => Z.sqrt (p * 2 ^ 64) mod 2 ^ 32) (primes 8).

Record state : Type := mkState
  { ha : Z; hb : Z; hc : Z; hd : Z; he : Z; hf : Z; hg : Z; hh : Z }.

Definition H0 : state :=
  match H0_words with
  | [a; b; c; d; e; f; g; h] => mkState a b c d e f g h
  | _ => mkState 0 0 0 0 0 0 0 0
  end.

(** Big-endian bytes of a 32-bit word and back. *)
Definition be4 (x : Z) : list Z :=
  [Z.land (Z.shiftr x 24) 255; Z.land (Z.shiftr x 16) 255;
   Z.land (Z.shiftr x 8) 255; Z.land x 255].

Fixpoint words (l : list Z) : list Z :=
  match l with
  | a :: b :: c :: d :: rest =>
      Z.lor (Z.lor (Z.shiftl a 24) (Z.shiftl b 16)) (Z.lor (Z.shiftl c 8) d)
      :: words rest
  | _ => []
  end.

(** Message: the bytes, then 0x80, zeros up to 56 mod 64, and the bit
    length on eight bytes. *)
Definition pad (msg : list Z) : list Z :=
  let n := Z.of_nat (List.length msg) in
  let zeros := Z.to_nat ((55 - n) mod 64) in
  let bits := 8 * n in
  msg ++ [128] ++ List.repeat 0 zeros
      ++ be4 (Z.shiftr bits 32 mod 2 ^ 32) ++ be4 (bits mod 2 ^ 32).

(** Message schedule, newest word first in the accumulator. *)
Fixpoint extend (n : nat) (rev_w : list Z) : list Z :=
  match n with
  | O => rev_w
  | S n' =>
      let w := add32 (add32 (sigma1 (nth 1 rev_w 0)) (nth 6 rev_w 0))
                     (add32 (sigma0 (nth 14 rev_w 0)) (nth 15 rev_w 0)) in
      extend n' (w :: rev_w)
  end.

Definition schedule (block : list Z) : list Z :=
  rev (extend 48 (rev block)).

Definition round (s : state) (kw : Z * Z) : state :=
  let '(k, w) := kw in
  let t1 := add32 (add32 (add32 (hh s) (Sigma1 (he s)))
                         (add32 (Ch (he s) (hf s) (hg s)) k)) w in
  let t2 := add32 (Sigma0 (ha s)) (Maj (ha s) (hb s) (hc s)) in
  mkState (add32 t1 t2) (ha s) (hb s) (hc s)
          (add32 (hd s) t1) (he s) (hf s) (hg s).

Definition compress (s : state) (block : list Z) : state :=
  let r := fold_left round (combine K (schedule block)) s in
  mkState (add32 (ha s) (ha r)) (add32 (hb s) (hb r))
          (add32 (hc s) (hc r)) (add32 (hd s) (hd r))
          (add32 (he s) (he r)) (add32 (hf s) (hf r))
          (add32 (hg s) (hg r)) (add32 (hh s) (hh r)).

(** Blocks of sixteen words. *)
Fixpoint blocks (n : nat) (ws : list Z) : list (list Z) :=
  match n with
  | O => []
  | S n' => firstn 16 ws :: blocks n' (skipn 16 ws)
  end.

Definition digest (s : state) : list Z :=
  be4 (ha s) ++ be4 (hb s) ++ be4 (hc s) ++ be4 (hd s)
  ++ be4 (he s) ++ be4 (hf s) ++ be4 (hg s) ++ be4 (hh s).

Definition sha256 (msg : list Z) : list Z :=
  let ws := words (pad msg) in
  digest (fold_left compress (blocks (List.length ws / 16) ws) H0).

End SHA256.

Module HMAC.

Definition block_size : nat := 64.

Definition key_block (key : list Z) : list Z :=
  let k := if Nat.ltb block_size (List.length key)
           then SHA256.sha256 key else key in
  k ++ List.repeat 0 (block_size - List.length k).

(** [crypto.createHmac('sha256', key).update(data).digest()]. *)
Definition hmac_sha256 (key data : list Z) : list Z :=
  let k := key_block key in
  SHA256.sha256 (map (Z.lxor 92) k
                 ++ SHA256.sha256 (map (Z.lxor 54) k ++ data)).

End HMAC.

(** ** UTF-8 decoding with replacement: [buf.toString()] *)
Module Utf8.

(** Decoder state: nothing pending, or a sequence under way with the bytes
    seen so far, the number of continuation bytes still needed and the
    range allowed for the next one. *)
Inductive state : Type :=
| Idle
| Pending (seen : list Z) (needed : nat) (lower upper : Z).

Definition replacement : list Z := [239; 191; 189].

Definition start (b : Z) : list Z * state :=
  if b <=? 127 then ([b], Idle)
  else if (194 <=? b) && (b <=? 223) then ([], Pending [b] 1 128 191)
  else if b =? 224 then ([], Pending [b] 2 160 191)
  else if b =? 237 then ([], Pending [b] 2 128 159)
  else if (225 <=? b) && (b <=? 239) then ([], Pending [b] 2 128 191)
  else if b =? 240 then ([], Pending [b] 3 144 191)
  else if b =? 244 then ([], Pending [b] 3 128 143)
  else if (241 <=? b) && (b <=? 243) then ([], Pending [b] 3 128 191)
  else (replacement, Idle).

Definition step (st : state) (b : Z) : list Z * state :=
  match st with
  | Idle => start b
  | Pending seen needed lower upper =>
      if (lower <=? b) && (b <=? upper) then
        match needed with
        | S (S n) => ([], Pending (seen ++ [b]) (S n) 128 191)
        | _ => (seen ++ [b], Idle)
        end
      else
        let '(out, st') := start b in (replacement ++ out, st')
  end.

Fixpoint run (st : state) (l : list Z) : list Z :=
  match l with
  | [] => match st with Idle => [] | Pending _ _ _ _ => replacement end
  | b :: l' => let '(out, st') := step st b in out ++ run st' l'
  end.

(** [buf.toString()]: ill-formed sequences become U+FFFD. *)
Definition toString (l : list Z) : string := JS.string_of_bytes (run Idle l).

(** [Buffer.from(str)]: the UTF-8 bytes of the string. *)
Definition fromString (s : string) : list Z := JS.bytes_of_string s.

(** UTF-8 (generalised to surrogates) of a code unit below 2^16. *)
Definition of_unit (u : Z) : list Z :=
  if u <? 128 then [u]
  else if u <? 2048 then [Z.lor 192 (Z.shiftr u 6); Z.lor 128 (Z.land u 63)]
  else [Z.lor 224 (Z.shiftr u 12); Z.lor 128 (Z.land (Z.shiftr u 6) 63);
        Z.lor 128 (Z.land u 63)].

(** A high surrogate followed by a low surrogate, both in the generalised
    three-byte form, is one supplementary code point on four bytes. *)
Fixpoint join_surrogates (l : list Z) : list Z :=
  match l with
  | [] => []
  | b :: l' =>
      match l' with
      | a1 :: a2 :: b' :: c1 :: c2 :: rest =>
          if (b =? 237) && (160 <=? a1) && (a1 <=? 175)
             && (b' =? 237) && (176 <=? c1) && (c1 <=? 191) then
            let hi := Z.lor (Z.shiftl (Z.land a1 15) 6) (Z.land a2 63) in
            let lo := Z.lor (Z.shiftl (Z.land c1 15) 6) (Z.land c2 63) in
            let cp := 65536 + Z.shiftl hi 10 + lo in
            Z.lor 240 (Z.shiftr cp 18)
            :: Z.lor 128 (Z.land (Z.shiftr cp 12) 63)
            :: Z.lor 128 (Z.land (Z.shiftr cp 6) 63)
            :: Z.lor 128 (Z.land cp 63)
            :: join_surrogates rest
          else b :: join_surrogates l'
      | _ => b :: join_surrogates l'
      end
  end.

End Utf8.

(** ** ECMAScript values as produced by [JSON.parse] *)
Module Value.

(** Numbers: exact decimals [m * 10^e], the infinities and NaN. *)
Inductive number : Type :=
| NaN
| PosInf
| NegInf
| Dec (m e : Z).

Definition int (z : Z) : number := Dec z 0.

(** [x < y] on numbers, for an integer right operand. *)
Definition lt_int (x : number) (y : Z) : bool :=
  match x with
  | NaN => false
  | PosInf => false
  | NegInf => true
  | Dec m e => if 0 <=? e then m * 10 ^ e <? y else m <? y * 10 ^ (- e)
  end.

(** [JFun] stands for a built-in function object reached through a
    prototype (JSON text never denotes one). *)
#[warnings="-register-all"]
Inductive jsval : Type :=
| JUndefined
| JNull
| JBool (b : bool)
| JNum (n : number)
| JStr (s : string)
| JArr (l : list jsval)
| JObj (l : list (string * jsval))
| JFun (name : string).

(** Own property of an object built by [JSON.parse]: a later duplicate
    key overwrites an earlier one. *)
Fixpoint own (k : string) (l : list (string * jsval)) : option jsval :=
  match l with
  | [] => None
  | (k', v) :: l' =>
      match own k l' with
      | Some v' => Some v'
      | None => if String.eqb k k' then Some v else None
      end
  end.

End Value.

(** ** Scanning of numeric literals *)
Module Scan.
Import Value.

Definition is_digit (c : ascii) : bool :=
  (48 <=? JS.code c) && (JS.code c <=? 57).

Fixpoint span (p : ascii -> bool) (s : string) : string * string :=
  match s with
  | EmptyString => (EmptyString, EmptyString)
  | String c s' =>
      if p c then let '(a, b) := span p s' in (String c a, b)
      else (EmptyString, s)
  end.

(** Value of a digit string in the given base (digits beyond 9 are
    letters, either case). *)
Definition digit_value (c : ascii) : Z :=
  let n := JS.code c in
  if n <=? 57 then n - 48 else if n <=? 70 then n - 55 else n - 87.

Fixpoint value_from (base : Z) (acc : Z) (s : string) : Z :=
  match s with
  | EmptyString => acc
  | String c s' => value_from base (base * acc + digit_value c) s'
  end.

Definition value (base : Z) (s : string) : Z := value_from base 0 s.

(** The parts of [int . frac e sign digits]; each may be empty here, the
    two grammars that use the scan impose their own side conditions. *)
Record decimal : Type := mkDecimal
  { d_int : string; d_dot : bool; d_frac : string;
    d_exp : option (bool * string);  (* negative?, digits *)
    d_rest : string }.

Definition scan_exp (s : string) : option (bool * string) * string :=
  match s with
  | String c s1 =>
      if Ascii.eqb c "e" || Ascii.eqb c "E" then
        let '(neg, s2) :=
          match s1 with
          | String "-" s2 => (true, s2)
          | String "+" s2 => (false, s2)
          | _ => (false, s1)
          end in
        let '(ds, rest) := span is_digit s2 in
        (Some (neg, ds), rest)
      else (None, s)
  | EmptyString => (None, s)
  end.

Definition scan_decimal (s : string) : decimal :=
  let '(i, s1) := span is_digit s in
  let '(dot, f, s2) :=
    match s1 with
    | String "." s1' => let '(f, s2) := span is_digit s1' in (true, f, s2)
    | _ => (false, EmptyString, s1)
    end in
  let '(ex, rest) := scan_exp s2 in
  mkDecimal i dot f ex rest.

(** The number denoted by the scanned parts. *)
Definition decimal_number (neg : bool) (d : decimal) : number :=
  let m := value 10 (d_int d +:+ d_frac d) in
  let e := match d_exp d with
           | Some (true, ds) => - value 10 ds
           | Some (false, ds) => value 10 ds
           | None => 0
           end in
  Dec (if neg then - m else m) (e - Z.of_nat (String.length (d_frac d))).

Definition nonempty (s : string) : bool :=
  match s with EmptyString => false | _ => true end.

Definition exp_ok (d : decimal) : bool :=
  match d_exp d with
  | Some (_, ds) => nonempty ds
  | None => true
  end.

End Scan.

(** ** [JSON.stringify] and [JSON.parse] *)
Module JSON.
Import Value.

Definition hex_digit (n : Z) : ascii :=
  match String.get (Z.to_nat n) "0123456789abcdef" with
  | Some c => c
  | None => "0"%char
  end.

(** One character of a quoted string. *)
Definition quote_char (c : ascii) : string :=
  let n := JS.code c in
  if n =? 34 then String "\" (String JS.dquote EmptyString)
  else if n =? 92 then "\\"
  else if n =? 8 then "\b"
  else if n =? 9 then "\t"
  else if n =? 10 then "\n"
  else if n =? 12 then "\f"
  else if n =? 13 then "\r"
  else if n <? 32 then
    "\u00" +:+ String (hex_digit (n / 16)) (String (hex_digit (n mod 16)) EmptyString)
  else String c EmptyString.

Fixpoint quote_body (s : string) : string :=
  match s with
  | EmptyString => EmptyString
  | String c s' => quote_char c +:+ quote_body s'
  end.

(** [QuoteJSONString]. *)
Definition quote (s : string) : string :=
  String JS.dquote (quote_body s) +:+ String JS.dquote EmptyString.

(** Numbers: the integers are printed in decimal; the non-finite ones
    serialise as [null]. The programs embedded here only serialise
    integers ([Date.now()] and sums of integers); for any other decimal
    the text denotes the same number, in scientific notation. *)
Definition number_text (n : number) : string :=
  match n with
  | Dec m 0 => JS.Z_toString m
  | Dec m e => JS.Z_toString m +:+ "e" +:+ JS.Z_toString e
  | _ => "null"
  end.

Fixpoint join (sep : string) (l : list string) : string :=
  match l with
  | [] => EmptyString
  | [x] => x
  | x :: l' => x +:+ sep +:+ join sep l'
  end.

(** [JSON.stringify(v)] for a value stored in an array or an object;
    [None] marks a value that is left out of objects ([undefined] and
    functions) and written [null] in arrays. *)
Fixpoint stringify_opt (v : jsval) : option string :=
  match v with
  | JUndefined => None
  | JFun _ => None
  | JNull => Some "null"
  | JBool true => Some "true"
  | JBool false => Some "false"
  | JNum n => Some (number_text n)
  | JStr s => Some (quote s)
  | JArr l =>
      Some ("[" +:+ join "," (map (fun x => default "null" (stringify_opt x)) l) +:+ "]")
  | JObj l =>
      let member (kv : string * jsval) : list string :=
        match stringify_opt (snd kv) with
        | Some t => [quote (fst kv) +:+ ":" +:+ t]
        | None => []
        end in
      Some ("{" +:+ join "," (flat_map member l) +:+ "}")
  end.

(** [JSON.stringify(v)] of an object literal with distinct keys. *)
Definition stringify (v : jsval) : string := default "undefined" (stringify_opt v).

(** *** Lexical analysis *)

Inductive token : Type :=
| TLBrace | TRBrace | TLBrack | TRBrack | TColon | TComma
| TString (s : string)
| TNumber (n : number)
| TTrue | TFalse | TNull.

(** Lexer modes; accumulators are kept in reverse. *)
Inductive mode : Type :=
| Idle
| InStr (acc : list Z)
| InEsc (acc : list Z)
| InUni (acc : list Z) (hex : list Z)
| InWord (acc : list ascii)
| InNum (acc : list ascii).

Definition is_ws (c : ascii) : bool :=
  let n := JS.code c in (n =? 32) || (n =? 9) || (n =? 10) || (n =? 13).
Definition is_lower (c : ascii) : bool :=
  (97 <=? JS.code c) && (JS.code c <=? 122).
Definition is_num_char (c : ascii) : bool :=
  let n := JS.code c in
  Scan.is_digit c || (n =? 43) || (n =? 45) || (n =? 46) || (n =? 101) || (n =? 69).
Definition hex_value (c : ascii) : option Z :=
  let n := JS.code c in
  if (48 <=? n) && (n <=? 57) then Some (n - 48)
  else if (65 <=? n) && (n <=? 70) then Some (n - 55)
  else if (97 <=? n) && (n <=? 102) then Some (n - 87)
  else None.

(** JSON number: an optional minus sign, an integer part without a
    superfluous leading zero, an optional fraction with at least one
    digit, an optional exponent with at least one digit. *)
Definition split_minus (s : string) : bool * string :=
  match s with
  | String "-" s' => (true, s')
  | _ => (false, s)
  end.

Definition int_part_ok (s : string) : bool :=
  match s with
  | EmptyString => false
  | String "0" (String _ _) => false
  | _ => true
  end.

Definition number_of_text (s : string) : option number :=
  let '(neg, body) := split_minus s in
  let d := Scan.scan_decimal body in
  let frac_ok := negb (Scan.d_dot d) || Scan.nonempty (Scan.d_frac d) in
  if int_part_ok (Scan.d_int d) && frac_ok && Scan.exp_ok d
     && negb (Scan.nonempty (Scan.d_rest d))
  then Some (Scan.decimal_number neg d) else None.

Definition word_token (s : string) : option token :=
  if String.eqb s "true" then Some TTrue
  else if String.eqb s "false" then Some TFalse
  else if String.eqb s "null" then Some TNull
  else None.

Definition text_of (acc : list ascii) : string := string_of_list_ascii (rev acc).

Definition string_token (acc : list Z) : token :=
  TString (JS.string_of_bytes (Utf8.join_surrogates (rev acc))).

(** A character met between tokens. *)
Definition idle_step (c : ascii) : option (list token * mode) :=
  let n := JS.code c in
  if is_ws c then Some ([], Idle)
  else if n =? 123 then Some ([TLBrace], Idle)
  else if n =? 125 then Some ([TRBrace], Idle)
  else if n =? 91 then Some ([TLBrack], Idle)
  else if n =? 93 then Some ([TRBrack], Idle)
  else if n =? 58 then Some ([TColon], Idle)
  else if n =? 44 then Some ([TComma], Idle)
  else if n =? 34 then Some ([], InStr [])
  else if (n =? 45) || Scan.is_digit c then Some ([], InNum [c])
  else if is_lower c then Some ([], InWord [c])
  else None.

(** A run of letters or of number characters ends at the first character
    outside the class; that character is then read between tokens. *)
Definition close_run (t : option token) (c : ascii) : option (list token * mode) :=
  match t, idle_step c with
  | Some t, Some (ts, m) => Some (t :: ts, m)
  | _, _ => None
  end.

Definition lex_step (m : mode) (c : ascii) : option (list token * mode) :=
  let n := JS.code c in
  match m with
  | Idle => idle_step c
  | InStr acc =>
      if n =? 34 then Some ([string_token acc], Idle)
      else if n =? 92 then Some ([], InEsc acc)
      else if n <? 32 then None
      else Some ([], InStr (n :: acc))
  | InEsc acc =>
      if (n =? 34) || (n =? 92) || (n =? 47) then Some ([], InStr (n :: acc))
      else if n =? 98 then Some ([], InStr (8 :: acc))
      else if n =? 102 then Some ([], InStr (12 :: acc))
      else if n =? 110 then Some ([], InStr (10 :: acc))
      else if n =? 114 then Some ([], InStr (13 :: acc))
      else if n =? 116 then Some ([], InStr (9 :: acc))
      else if n =? 117 then Some ([], InUni acc [])
      else None
  | InUni acc hex =>
      match hex_value c with
      | None => None
      | Some v =>
          match hex with
          | [h2; h1; h0] =>
              let u := ((h0 * 16 + h1) * 16 + h2) * 16 + v in
              Some ([], InStr (rev (Utf8.of_unit u) ++ acc))
          | _ => Some ([], InUni acc (v :: hex))
          end
      end
  | InWord acc =>
      if is_lower c then Some ([], InWord (c :: acc))
      else close_run (word_token (text_of acc)) c
  | InNum acc =>
      if is_num_char c then Some ([], InNum (c :: acc))
      else close_run (option_map TNumber (number_of_text (text_of acc))) c
  end.

Definition lex_end (m : mode) : option (list token) :=
  match m with
  | Idle => Some []
  | InWord acc => option_map (fun t => [t]) (word_token (text_of acc))
  | InNum acc => option_map (fun n => [TNumber n]) (number_of_text (text_of acc))
  | _ => None
  end.

Fixpoint lex (m : mode) (s : string) : option (list token) :=
  match s with
  | EmptyString => lex_end m
  | String c s' =>
      match lex_step m c with
      | None => None
      | Some (ts, m') => option_map (app ts) (lex m' s')
      end
  end.

(** *** Syntactic analysis: a stack of open arrays and objects *)

Inductive frame : Type :=
| FArr (items : list jsval)
| FObj (members : list (string * jsval))
| FObjKey (members : list (string * jsval)) (key : string).

Inductive expect : Type :=
| WantValue (may_close : bool)
| WantKey (may_close : bool)
| WantColon (key : string)
| Have (v : jsval).

Definition scalar (t : token) : option jsval :=
  match t with
  | TString s => Some (JStr s)
  | TNumber n => Some (JNum n)
  | TTrue => Some (JBool true)
  | TFalse => Some (JBool false)
  | TNull => Some JNull
  | _ => None
  end.

Definition parse_step (st : list frame * expect) (t : token)
  : option (list frame * expect) :=
  let '(stack, e) := st in
  match e, t, stack with
  | WantValue _, TLBrack, _ => Some (FArr [] :: stack, WantValue true)
  | WantValue _, TLBrace, _ => Some (FObj [] :: stack, WantKey true)
  | WantValue true, TRBrack, FArr [] :: stack' => Some (stack', Have (JArr []))
  | WantValue _, _, _ =>
      match scalar t with
      | Some v => Some (stack, Have v)
      | None => None
      end
  | WantKey _, TString k, _ => Some (stack, WantColon k)
  | WantKey true, TRBrace, FObj [] :: stack' => Some (stack', Have (JObj []))
  | WantColon k, TColon, FObj ms :: stack' =>
      Some (FObjKey ms k :: stack', WantValue false)
  | Have v, TComma, FArr items :: stack' =>
      Some (FArr (v :: items) :: stack', WantValue false)
  | Have v, TRBrack, FArr items :: stack' =>
      Some (stack', Have (JArr (rev (v :: items))))
  | Have v, TComma, FObjKey ms k :: stack' =>
      Some (FObj ((k, v) :: ms) :: stack', WantKey false)
  | Have v, TRBrace, FObjKey ms k :: stack' =>
      Some (stack', Have (JObj (rev ((k, v) :: ms))))
  | _, _, _ => None
  end.

Fixpoint parse_tokens (st : list frame * expect) (ts : list token) : option jsval :=
  match ts with
  | [] => match st with
          | ([], Have v) => Some v
          | _ => None
          end
  | t :: ts' =>
      match parse_step st t with
      | Some st' => parse_tokens st' ts'
      | None => None
      end
  end.

(** [JSON.parse(text)]; [None] is a [SyntaxError]. *)
Definition parse (text : string) : option jsval :=
  match lex Idle text with
  | Some ts => parse_tokens ([], WantValue false) ts
  | None => None
  end.

End JSON.

(** ** Exceptions, and the calls a run makes to its collaborators *)
Module Eff.

Inductive exn : Type :=
| SyntaxError
| TypeError
| Failure (msg : string).

Inductive result (A : Type) : Type :=
| Ret (a : A)
| Throw (e : exn).
Arguments Ret {A} a.
Arguments Throw {A} e.

(** What a run asks of the libraries and services around it, in order. *)
Inductive call : Type :=
| HmacSha256 (key data : string)
| Base64Decode (text : string)
| JsonParse (text : string)
| GetClientIP
| CheckRateLimit (ip : string)
| VerifyToken (token : string)
| ConsoleError (msg : string).

(** A computation: the calls made, then a value or an exception. *)
Definition M (A : Type) : Type := list call * result A.

Definition ret {A} (a : A) : M A := ([], Ret a).
Definition throw {A} (e : exn) : M A := ([], Throw e).
Definition tell (c : call) : M unit := ([c], Ret tt).
Definition lift {A} (r : result A) : M A := ([], r).

Definition bind {A B} (m : M A) (f : A -> M B) : M B :=
  match m with
  | (l, Ret a) => let '(l', r) := f a in (l ++ l', r)
  | (l, Throw e) => (l, Throw e)
  end.

(** [try { m } catch (e) { h e }]. *)
Definition try_catch {A} (m : M A) (h : exn -> M A) : M A :=
  match m with
  | (l, Throw e) => let '(l', r) := h e in (l ++ l', r)
  | _ => m
  end.

Definition calls {A} (m : M A) : list call := fst m.
Definition outcome {A} (m : M A) : result A := snd m.

End Eff.

Notation "'let*' x ':=' m 'in' k" := (Eff.bind m (fun x => k))
  (at level 10, x name, m at level 100, k at level 200, only parsing).
Notation "'run!' m 'in' k" := (Eff.bind m (fun _ => k))
  (at level 10, m at level 100, k at level 200, only parsing).

(** ** Coercions used by the relational operator *)
Module Coerce.
Import Value Eff.

Definition ws1 (b : Z) : bool :=
  (b =? 9) || (b =? 10) || (b =? 11) || (b =? 12) || (b =? 13) || (b =? 32).
(** U+00A0. *)
Definition ws2 (b c : Z) : bool := (b =? 194) && (c =? 160).
(** U+1680, U+2000..U+200A, U+2028, U+2029, U+202F, U+205F, U+3000,
    U+FEFF. *)
Definition ws3 (b c d : Z) : bool :=
  ((b =? 225) && (c =? 154) && (d =? 128))
  || ((b =? 226) && (c =? 128)
      && (((128 <=? d) && (d <=? 138)) || (d =? 168) || (d =? 169) || (d =? 175)))
  || ((b =? 226) && (c =? 129) && (d =? 159))
  || ((b =? 227) && (c =? 128) && (d =? 128))
  || ((b =? 239) && (c =? 187) && (d =? 191)).

(** Strips white space and line terminators from the front; [back] reads
    the multi-byte forms right to left, for use on a reversed list. *)
Fixpoint strip (back : bool) (l : list Z) : list Z :=
  match l with
  | [] => []
  | b :: l1 =>
      if ws1 b then strip back l1
      else match l1 with
           | [] => l
           | c :: l2 =>
               if (if back then ws2 c b else ws2 b c) then strip back l2
               else match l2 with
                    | [] => l
                    | d :: l3 =>
                        if (if back then ws3 d c b else ws3 b c d)
                        then strip back l3 else l
                    end
           end
  end.

Definition trim (s : string) : string :=
  JS.string_of_bytes (rev (strip true (rev (strip false (JS.bytes_of_string s))))).

Definition all_in (p : ascii -> bool) (s : string) : bool :=
  Scan.nonempty s && negb (Scan.nonempty (snd (Scan.span p s))).

Definition is_hex (c : ascii) : bool :=
  match JSON.hex_value c with Some _ => true | None => false end.
Definition is_octal (c : ascii) : bool := (48 <=? JS.code c) && (JS.code c <=? 55).
Definition is_binary (c : ascii) : bool := (48 <=? JS.code c) && (JS.code c <=? 49).

Definition radix_literal (base : Z) (p : ascii -> bool) (digits : string) : number :=
  if all_in p digits then Dec (Scan.value base digits) 0 else NaN.

Definition decimal_literal (s : string) : number :=
  let '(neg, body) := match s with
                      | String "-" s' => (true, s')
                      | String "+" s' => (false, s')
                      | _ => (false, s)
                      end in
  if String.eqb body "Infinity" then (if neg then NegInf else PosInf)
  else
    let d := Scan.scan_decimal body in
    if (Scan.nonempty (Scan.d_int d) || Scan.nonempty (Scan.d_frac d))
       && Scan.exp_ok d && negb (Scan.nonempty (Scan.d_rest d))
    then Scan.decimal_number neg d else NaN.

(** [StringToNumber]. *)
Definition StringToNumber (s : string) : number :=
  match trim s with
  | EmptyString => Dec 0 0
  | String "0" (String "x" ds) | String "0" (String "X" ds) => radix_literal 16 is_hex ds
  | String "0" (String "o" ds) | String "0" (String "O" ds) => radix_literal 8 is_octal ds
  | String "0" (String "b" ds) | String "0" (String "B" ds) => radix_literal 2 is_binary ds
  | t => decimal_literal t
  end.

Definition has_own (k : string) (l : list (string * jsval)) : bool :=
  match own k l with Some _ => true | None => false end.

(** Conversion of a parsed value to a string fails exactly when it meets
    an object whose own [toString] (never callable, coming from JSON)
    hides [Object.prototype.toString]; [Array.prototype.join] converts
    the elements in order. *)
Fixpoint ToString_throws (v : jsval) : bool :=
  match v with
  | JObj l => has_own "toString" l
  | JArr l => existsb ToString_throws l
  | _ => false
  end.

(** [ToNumber(ToPrimitive(v, number))] for a parsed value. An object
    without own [toString] gives ["[object Object]"], an array the join of
    its elements with commas: the empty array gives the empty string, a
    one-element array the text of its element ([null] gives the empty
    string), and a longer one a text with a comma, which is no numeric
    literal. The text of a number converts back to that number. *)
Fixpoint ToNumber (v : jsval) : result number :=
  match v with
  | JUndefined => Ret NaN
  | JNull => Ret (Dec 0 0)
  | JBool b => Ret (Dec (if b then 1 else 0) 0)
  | JNum n => Ret n
  | JStr s => Ret (StringToNumber s)
  | JFun _ => Ret NaN
  | JObj l => if has_own "toString" l then Throw TypeError else Ret NaN
  | JArr l =>
      match l with
      | [] => Ret (Dec 0 0)
      | [x] =>
          match x with
          | JUndefined | JNull => Ret (Dec 0 0)
          | JBool _ => Ret NaN
          | _ => ToNumber x
          end
      | _ => if existsb ToString_throws l then Throw TypeError else Ret NaN
      end
  end.

(** [v < y] for a number [y] that is an integer. *)
Definition lessThan (v : jsval) (y : Z) : result bool :=
  match ToNumber v with
  | Ret n => Ret (lt_int n y)
  | Throw e => Throw e
  end.

(** Inherited properties. Of the names read by the embedded programs
    ([exp], [sub], [openid]) one is found on a prototype:
    [String.prototype.sub]. *)
Definition inherited (v : jsval) (name : string) : jsval :=
  match v with
  | JStr _ => if String.eqb name "sub" then JFun "sub" else JUndefined
  | _ => JUndefined
  end.

(** Property read [v.name], for a name that is neither an index nor
    [length]. *)
Definition Get (v : jsval) (name : string) : result jsval :=
  match v with
  | JUndefined | JNull => Throw TypeError
  | JObj l =>
      match own name l with
      | Some x => Ret x
      | None => Ret (inherited v name)
      end
  | _ => Ret (inherited v name)
  end.

End Coerce.

(** ** The Node.js library calls, as computations *)
Module Node.
Import Value Eff.

(** [crypto.createHmac('sha256', key).update(data).digest('base64')]. *)
Definition createHmac_sha256_base64 (key data : string) : M string :=
  run! tell (HmacSha256 key data) in
  ret (Base64.encode (HMAC.hmac_sha256 (Utf8.fromString key) (Utf8.fromString data))).

(** [Buffer.from(text, 'base64')]. *)
Definition Buffer_from_base64 (text : string) : M (list Z) :=
  run! tell (Base64Decode text) in ret (Base64.decode text).

(** [Buffer.from(str).toString('base64')]. *)
Definition base64_of_string (str : string) : string :=
  Base64.encode (Utf8.fromString str).

(** [JSON.parse(text)]. *)
Definition JSON_parse (text : string) : M jsval :=
  run! tell (JsonParse text) in
  match JSON.parse text with
  | Some v => ret v
  | None => throw SyntaxError
  end.

(** [process.env]. *)
Definition env_t : Type := gmap string string.

(** [process.env.NAME || fallback]: an unset or empty variable is falsy. *)
Definition env_or (env : env_t) (name fallback : string) : string :=
  match env !! name with
  | Some EmptyString | None => fallback
  | Some v => v
  end.

End Node.

(** ** [src/lib/auth.ts] *)
Module Auth.
Import Value Eff Node.

Definition JWT_SECRET (env : env_t) : string :=
  env_or env "JWT_SECRET" "default-secret-change-in-production".

(** [interface TokenPayload { userId: string; openid: string }]: at run
    time the fields hold whatever the decoded payload has under [sub] and
    [openid]. *)
Record TokenPayload : Type := mkTokenPayload
  { userId : jsval; openid : jsval }.

(** The local function [fromBase64Url], lines 25-31. *)
Definition fromBase64Url (str : string) : string :=
  let base64 := JS.replaceAll "_" "/" (JS.replaceAll "-" "+" str) in
  let padding := JS.length base64 mod 4 in
  base64 +:+ JS.repeat "=" (if padding =? 0 then 0%nat else Z.to_nat (4 - padding)).

(** The three replacements applied to the digest text, lines 37-39. *)
Definition toUrlSafe (digest : string) : string :=
  JS.replaceAll "=" EmptyString
    (JS.replaceAll "/" "_" (JS.replaceAll "+" "-" digest)).

(** [verifyToken(token)], with [process.env] at module load and the value
    of [Date.now()]; [None] is JavaScript's [null]. *)
Definition verifyToken (env : env_t) (now : Z) (token : string)
  : M (option TokenPayload) :=
  try_catch
    (let parts := JS.split "." token in
     if negb (List.length parts =? 3)%nat then ret None
     else
       let header := nth 0 parts EmptyString in
       let payload := nth 1 parts EmptyString in
       let signature := nth 2 parts EmptyString in
       let* digest :=
         createHmac_sha256_base64 (JWT_SECRET env) (header +:+ "." +:+ payload) in
       let expectedSignature := toUrlSafe digest in
       if negb (String.eqb signature expectedSignature) then ret None
       else
         let decodedPayload := fromBase64Url payload in
         let* buf := Buffer_from_base64 decodedPayload in
         let* decoded := JSON_parse (Utf8.toString buf) in
         let* exp := lift (Coerce.Get decoded "exp") in
         let* expired := lift (Coerce.lessThan exp now) in
         if expired then ret None
         else
           let* sub := lift (Coerce.Get decoded "sub") in
           let* oid := lift (Coerce.Get decoded "openid") in
           ret (Some (mkTokenPayload sub oid)))
    (fun _ => ret None).

End Auth.

(** ** [src/app/api/auth/wechat/login/route.ts] *)
Module LoginRoute.
Import Value Eff Node.

Definition seven_days : Z := 7 * 24 * 60 * 60 * 1000.

Definition toBase64Url (str : string) : string :=
  JS.replaceAll "=" EmptyString
    (JS.replaceAll "/" "_" (JS.replaceAll "+" "-" (base64_of_string str))).

(** [generateToken(userId, openid)]; [now_iat] and [now_exp] are the two
    readings of [Date.now()], in the order of evaluation. *)
Definition generateToken (env : env_t) (now_iat now_exp : Z)
    (userId openid : string) : M string :=
  let JWT_SECRET := env_or env "JWT_SECRET" "default-secret-change-in-production" in
  let header :=
    toBase64Url (JSON.stringify (JObj [("alg", JStr "HS256"); ("typ", JStr "JWT")])) in
  let payload :=
    toBase64Url (JSON.stringify (JObj
      [("sub", JStr userId);
       ("openid", JStr openid);
       ("iat", JNum (int now_iat));
       ("exp", JNum (int (now_exp + seven_days)))])) in
  let* digest := createHmac_sha256_base64 JWT_SECRET (header +:+ "." +:+ payload) in
  let signature :=
    JS.replaceAll "=" EmptyString
      (JS.replaceAll "/" "_" (JS.replaceAll "+" "-" digest)) in
  ret (header +:+ "." +:+ payload +:+ "." +:+ signature).

End LoginRoute.

(** ** [src/unnamed/part_001]: the login route with standard base64 *)
Module Part001.
Import Value Eff Node.

Definition JWT_SECRET (env : env_t) : string :=
  env_or env "JWT_SECRET" "default-secret-change-in-production".

Definition seven_days : Z := 7 * 24 * 60 * 60 * 1000.

(** [generateToken(userId, openid)], lines 171-187. *)
Definition generateToken (env : env_t) (now_iat now_exp : Z)
    (userId openid : string) : M string :=
  let header :=
    base64_of_string (JSON.stringify (JObj [("alg", JStr "HS256"); ("typ", JStr "JWT")])) in
  let payload :=
    base64_of_string (JSON.stringify (JObj
      [("sub", JStr userId);
       ("openid", JStr openid);
       ("iat", JNum (int now_iat));
       ("exp", JNum (int (now_exp + seven_days)))])) in
  let* signature :=
    createHmac_sha256_base64 (JWT_SECRET env) (header +:+ "." +:+ payload) in
  ret (header +:+ "." +:+ payload +:+ "." +:+ signature).

(** The file's own [verifyToken(token)], lines 192-218. *)
Definition verifyToken (env : env_t) (now : Z) (token : string)
  : M (option Auth.TokenPayload) :=
  try_catch
    (let parts := JS.split "." token in
     if negb (List.length parts =? 3)%nat then ret None
     else
       let header := nth 0 parts EmptyString in
       let payload := nth 1 parts EmptyString in
       let signature := nth 2 parts EmptyString in
       let* expectedSignature :=
         createHmac_sha256_base64 (JWT_SECRET env) (header +:+ "." +:+ payload) in
       if negb (String.eqb signature expectedSignature) then ret None
       else
         let* buf := Buffer_from_base64 payload in
         let* decoded := JSON_parse (Utf8.toString buf) in
         let* exp := lift (Coerce.Get decoded "exp") in
         let* expired := lift (Coerce.lessThan exp now) in
         if expired then ret None
         else
           let* sub := lift (Coerce.Get decoded "sub") in
           let* oid := lift (Coerce.Get decoded "openid") in
           ret (Some (Auth.mkTokenPayload sub oid)))
    (fun _ => ret None).

End Part001.

(** ** Requests and responses of the web framework *)
Module Http.
Import Value.

Definition lower_char (c : ascii) : ascii :=
  let n := JS.code c in
  if (65 <=? n) && (n <=? 90) then JS.chr (n + 32) else c.

Fixpoint lower (s : string) : string :=
  match s with
  | EmptyString => EmptyString
  | String c s' => String (lower_char c) (lower s')
  end.

(** [NextRequest]: header names are kept in lower case, as [Headers]
    does; [pathname] is [req.nextUrl.pathname]; [cookies] maps a cookie
    name to its value. *)
Record NextRequest : Type := mkRequest
  { headers : gmap string string;
    pathname : string;
    cookies : gmap string string }.

(** [req.headers.get(name)]: the lookup ignores case. *)
Definition header (req : NextRequest) (name : string) : option string :=
  headers req !! lower name.

(** [NextResponse.next()] lets the request through to the route handler;
    [NextResponse.json(body, { status })] answers it. *)
Inductive disposition : Type :=
| Forward
| Reply (status : Z) (body : jsval).

Record NextResponse : Type := mkResponse
  { disp : disposition;
    response_headers : gmap string string }.

Definition next : NextResponse := mkResponse Forward ∅.

Definition json (body : jsval) (status : Z) : NextResponse :=
  mkResponse (Reply status body) {[ "content-type" := "application/json" ]}.

(** [response.headers.set(name, value)]. *)
Definition set_header (name value : string) (r : NextResponse) : NextResponse :=
  mkResponse (disp r) (<[ lower name := value ]> (response_headers r)).

(** [response.headers.get(name)]. *)
Definition get_header (r : NextResponse) (name : string) : option string :=
  response_headers r !! lower name.

Definition status_of (r : NextResponse) : option Z :=
  match disp r with
  | Reply st _ => Some st
  | Forward => None
  end.

Definition forwarded (r : NextResponse) : bool :=
  match disp r with
  | Forward => true
  | Reply _ _ => false
  end.

(** [a || b] on optional strings: the empty string is falsy. *)
Definition or_else (a : option string) (b : option string) : option string :=
  match a with
  | Some EmptyString | None => b
  | Some _ => a
  end.

Definition or_default (a : option string) (b : string) : string :=
  match a with
  | Some EmptyString | None => b
  | Some v => v
  end.

End Http.

(** ** [src/unnamed/part_003], second document: the gateway middleware *)
Module Middleware.
Import Value Eff Http.

(** What [checkRateLimit] of [@/lib/rate-limit] resolves to. The module
    is not part of the sources at hand; the fields are those the
    middleware reads. *)
Record LimitResult : Type := mkLimitResult
  { success : bool;
    error : option string;
    limit : Z;
    remaining : Z;
    resetTime : Z }.

Definition isWeChatMiniProgram (userAgent : string) : bool :=
  JS.includes "MicroMessenger" userAgent.

Section Collaborators.

(** The two imports from [@/lib/rate-limit], by their outcome: a value,
    or an exception (for [checkRateLimit], a rejected promise). *)
Variable getClientIP : NextRequest -> result string.
Variable checkRateLimit : string -> result LimitResult.

Definition middleware (req : NextRequest) : M NextResponse :=
  let userAgent := or_default (header req "user-agent") EmptyString in
  if negb (isWeChatMiniProgram userAgent) then
    ret (json (JObj [("error", JStr "此应用仅支持微信小程序访问，请在微信中打开")]) 403)
  else if negb (JS.startsWith "/api/blessing" (pathname req)) then
    ret next
  else
    try_catch
      (let* clientIP := (run! tell GetClientIP in lift (getClientIP req)) in
       let* limitResult :=
         (run! tell (CheckRateLimit clientIP) in lift (checkRateLimit clientIP)) in
       if negb (success limitResult) then
         let response :=
           json (JObj [("error", JStr (or_default (error limitResult) "请求太频繁"));
                       ("resetTime", JNum (int (resetTime limitResult)));
                       ("limit", JNum (int (limit limitResult)))])
                429 in
         let response :=
           set_header "X-RateLimit-Limit" (JS.Z_toString (limit limitResult)) response in
         let response :=
           set_header "X-RateLimit-Remaining" (JS.Z_toString (remaining limitResult))
                      response in
         let response :=
           set_header "X-RateLimit-Reset" (JS.Z_toString (resetTime limitResult))
                      response in
         ret response
       else
         let response := next in
         let response :=
           set_header "X-RateLimit-Limit" (JS.Z_toString (limit limitResult)) response in
         let response :=
           set_header "X-RateLimit-Remaining" (JS.Z_toString (remaining limitResult))
                      response in
         let response :=
           set_header "X-RateLimit-Reset" (JS.Z_toString (resetTime limitResult))
                      response in
         ret response)
      (fun error =>
         run! tell (ConsoleError "中间件错误:") in
         ret (json (JObj [("error", JStr "服务暂时不可用，请稍后重试")]) 503)).

End Collaborators.

End Middleware.

(** ** [src/app/api/blessing/route.ts]: the admission steps of [POST] *)
Module BlessingRoute.
Import Value Eff Http.

Section Handler.

Variable env : Node.env_t.
(** Lines 69-141: body validation, generation, history, and the outer
    [catch] that answers 500. *)
Variable generate : NextRequest -> Auth.TokenPayload -> M NextResponse.

Definition POST (now : Z) (req : NextRequest) : M NextResponse :=
  let userAgent := or_default (header req "user-agent") EmptyString in
  if negb (JS.includes "MicroMessenger" userAgent) then
    ret (json (JObj [("error", JStr "此应用仅支持微信小程序访问，请在微信中打开")]) 403)
  else
    let token :=
      or_else (cookies req !! "auth_token")
              (option_map (JS.replaceFirst "Bearer " EmptyString)
                          (header req "Authorization")) in
    match token with
    | None | Some EmptyString =>
        ret (json (JObj [("error", JStr "用户未登录")]) 401)
    | Some token =>
        let* decoded :=
          (run! tell (VerifyToken token) in Auth.verifyToken env now token) in
        match decoded with
        | None => ret (json (JObj [("error", JStr "登录已过期")]) 401)
        | Some decoded => generate req decoded
        end
    end.

End Handler.

End BlessingRoute.

(** ** Vocabulary of the statements *)
Module Spec.
Import Value Eff.

Fixpoint all_chars (p : ascii -> bool) (s : string) : bool :=
  match s with
  | EmptyString => true
  | String c s' => p c && all_chars p s'
  end.

Definition is_not (c : ascii) : ascii -> bool := fun a => negb (Ascii.eqb a c).

(** [c] occurs in [s]. *)
Definition occurs (c : ascii) (s : string) : bool := negb (all_chars (is_not c) s).

(** The alphabet of [base64url] without padding: letters, digits, [-]
    and [_]. *)
Definition url_safe (c : ascii) : bool :=
  let n := JS.code c in
  ((65 <=? n) && (n <=? 90)) || ((97 <=? n) && (n <=? 122))
  || ((48 <=? n) && (n <=? 57)) || (n =? 45) || (n =? 95).

(** The standard alphabet with its padding character. *)
Definition standard_base64 (c : ascii) : bool :=
  let n := JS.code c in
  ((65 <=? n) && (n <=? 90)) || ((97 <=? n) && (n <=? 122))
  || ((48 <=? n) && (n <=? 57)) || (n =? 43) || (n =? 47) || (n =? 61).

(** The signature [verifyToken] of [src/lib/auth.ts] expects for the two
    first sections. *)
Definition expected_signature (env : Node.env_t) (header payload : string) : string :=
  Auth.toUrlSafe
    (Base64.encode
       (HMAC.hmac_sha256 (Utf8.fromString (Auth.JWT_SECRET env))
                         (Utf8.fromString (header +:+ "." +:+ payload)))).

(** A token of three sections whose third is the expected signature. *)
Definition well_signed (env : Node.env_t) (token : string) : bool :=
  match JS.split "." token with
  | [header; payload; signature] =>
      String.eqb signature (expected_signature env header payload)
  | _ => false
  end.

(** What the second section of a token decodes to. *)
Definition payload_of (token : string) : option jsval :=
  match JS.split "." token with
  | [_; payload; _] =>
      JSON.parse (Utf8.toString (Base64.decode (Auth.fromBase64Url payload)))
  | _ => None
  end.

(** A value of the declared type [TokenPayload]: both fields strings. *)
Definition is_TokenPayload (p : Auth.TokenPayload) : bool :=
  match Auth.userId p, Auth.openid p with
  | JStr _, JStr _ => true
  | _, _ => false
  end.

Definition hex_of_bytes (l : list Z) : string :=
  fold_right (fun b acc =>
                String (JSON.hex_digit (b / 16)) (String (JSON.hex_digit (b mod 16)) acc))
             EmptyString l.

(** What the run does after the signature check succeeded. *)
Definition after_signature (now : Z) (payload : string) : result (option Auth.TokenPayload) :=
  match JSON.parse (Utf8.toString (Base64.decode (Auth.fromBase64Url payload))) with
  | None => Ret None
  | Some decoded =>
      match Coerce.Get decoded "exp" with
      | Throw _ => Ret None
      | Ret exp =>
          match Coerce.lessThan exp now with
          | Throw _ | Ret true => Ret None
          | Ret false =>
              match Coerce.Get decoded "sub", Coerce.Get decoded "openid" with
              | Ret sub, Ret oid => Ret (Some (Auth.mkTokenPayload sub oid))
              | _, _ => Ret None
              end
          end
      end
  end.

(** The three sections of the token of [src/unnamed/part_001], as its
    [generateToken] computes them. *)
Definition part001_header : string :=
  Node.base64_of_string
    (JSON.stringify (JObj [("alg", JStr "HS256"); ("typ", JStr "JWT")])).

Definition part001_payload (now_iat now_exp : Z) (userId openid : string) : string :=
  Node.base64_of_string
    (JSON.stringify (JObj [("sub", JStr userId); ("openid", JStr openid);
                           ("iat", JNum (int now_iat));
                           ("exp", JNum (int (now_exp + Part001.seven_days)))])).

Definition part001_signature (env : Node.env_t) (now_iat now_exp : Z)
    (userId openid : string) : string :=
  Base64.encode
    (HMAC.hmac_sha256 (Utf8.fromString (Part001.JWT_SECRET env))
       (Utf8.fromString
          (part001_header +:+ "." +:+ part001_payload now_iat now_exp userId openid))).

(** A correctly signed token whose payload is the empty object. *)
Definition token_empty_object : string :=
  "eyJhbGciOiJIUzI1NiIsInR5cCI6IkpXVCJ9.e30.WLGkOB33bRUmktIyTDiE9PM3DG4OS4gNkCfjSStQ0FE".

(** A correctly signed token with [iat = exp = 1000]. *)
Definition token_expiring_at_1000 : string :=
  "eyJhbGciOiJIUzI1NiIsInR5cCI6IkpXVCJ9"
  +:+ ".eyJzdWIiOiJ1MSIsIm9wZW5pZCI6Im8xIiwiaWF0IjoxMDAwLCJleHAiOjEwMDB9"
  +:+ ".z-m1OC-tsu3DP6qtme5X3s1uJ5-8vwBC_mvNTEyyYVE".

(** The text used as key when the environment has none. *)
Definition built_in_secret : string := "default-secret-change-in-production".

(** A request the limiter applies to: the supported client, a path under
    [/api/blessing]. *)
Definition rate_limited (req : Http.NextRequest) : bool :=
  Middleware.isWeChatMiniProgram (Http.or_default (Http.header req "user-agent") EmptyString)
  && JS.startsWith "/api/blessing" (Http.pathname req).

(** A request of the supported client for the blessing route. *)
Definition blessing_request : Http.NextRequest :=
  Http.mkRequest
    {[ "user-agent" := "Mozilla/5.0 (iPhone) MicroMessenger/8.0.40 MiniProgramEnv/Mac" ]}
    "/api/blessing" ∅.

(** A desktop browser presenting a valid token in its cookie. *)
Definition browser_request : Http.NextRequest :=
  Http.mkRequest
    {[ "user-agent" := "Mozilla/5.0 (X11; Linux x86_64) Chrome/120.0" ]}
    "/api/blessing"
    {[ "auth_token" := token_expiring_at_1000 ]}.

(** A check that found the ceiling exceeded. *)
Definition denied_result : Middleware.LimitResult :=
  Middleware.mkLimitResult false None 5 0 1730000060000.

(** A check that passed. *)
Definition allowed_result : Middleware.LimitResult :=
  Middleware.mkLimitResult true None 5 4 1730000060000.

(** Strings of seven-bit characters. *)
Definition is_ascii (s : string) : bool := all_chars (fun c => JS.code c <? 128) s.

(** The integers from 0 below [n]. *)
Definition below (n : nat) : list Z := map Z.of_nat (seq 0 n).

(** Bit identities behind the base64 round trip, as decidable checks on
    one or two bytes. *)
Definition sextet_check (i : Z) : bool :=
  match Base64.unbase64 (Base64.enc i) with
  | Some v => (v =? i) && negb (Ascii.eqb (Base64.enc i) "=")
  | None => false
  end.

Definition group_check (a b : Z) : bool :=
  let v0 := Z.shiftr a 2 mod 64 in
  let v1 := Z.lor (Z.shiftl (Z.land a 3) 4) (Z.shiftr b 4) mod 64 in
  let w1 := Z.shiftl (Z.land a 3) 4 mod 64 in
  let v2 := Z.lor (Z.shiftl (Z.land a 15) 2) (Z.shiftr b 6) mod 64 in
  let w2 := Z.shiftl (Z.land a 15) 2 mod 64 in
  let v3 := Z.land b 63 mod 64 in
  (Z.lor (Z.shiftl v0 2) (Z.shiftr v1 4) =? a)
  && (Z.lor (Z.shiftl v0 2) (Z.shiftr w1 4) =? a)
  && (Z.land v1 15 =? Z.shiftr b 4)
  && (Z.shiftr v2 2 =? Z.land a 15)
  && (Z.shiftr w2 2 =? Z.land a 15)
  && (Z.lor (Z.shiftl (Z.shiftr a 4) 4) (Z.land a 15) =? a)
  && (Z.lor (Z.shiftl (Z.land v2 3) 6) v3 =? b).

(** The text [generateToken] serialises as payload, and the three sections
    of the token of [src/app/api/auth/wechat/login/route.ts]. *)
Definition payload_text (iat exp : Z) (userId openid : string) : string :=
  JSON.stringify (JObj [("sub", JStr userId); ("openid", JStr openid);
                        ("iat", JNum (int iat)); ("exp", JNum (int exp))]).

Definition login_header : string :=
  LoginRoute.toBase64Url
    (JSON.stringify (JObj [("alg", JStr "HS256"); ("typ", JStr "JWT")])).

Definition login_payload (now_iat now_exp : Z) (userId openid : string) : string :=
  LoginRoute.toBase64Url
    (payload_text now_iat (now_exp + LoginRoute.seven_days) userId openid).

Definition login_signature (env : Node.env_t) (now_iat now_exp : Z)
    (userId openid : string) : string :=
  expected_signature env login_header (login_payload now_iat now_exp userId openid).

(** Well-formed UTF-8: the decoder, started in state [st], reads the bytes
    without meeting an ill-formed sequence and ends between characters.
    Every JavaScript string without unpaired surrogates is represented by
    such bytes. *)
Definition clean (st : Utf8.state) (b : Z) : bool :=
  match st with
  | Utf8.Idle =>
      (0 <=? b) &&
      ((b <=? 127)
       || match snd (Utf8.start b) with
          | Utf8.Pending _ _ _ _ => true
          | Utf8.Idle => false
          end)
  | Utf8.Pending _ _ lower upper => (lower <=? b) && (b <=? upper)
  end.

Fixpoint well_formed_from (st : Utf8.state) (l : list Z) : bool :=
  match l with
  | [] => match st with Utf8.Idle => true | Utf8.Pending _ _ _ _ => false end
  | b :: l' => clean st b && well_formed_from (snd (Utf8.step st b)) l'
  end.

Definition well_formed (s : string) : bool :=
  well_formed_from Utf8.Idle (JS.bytes_of_string s).

(** The continuation range of a pending state lies within [0x80, 0xBF]. *)
Definition good_state (st : Utf8.state) : Prop :=
  match st with
  | Utf8.Idle => True
  | Utf8.Pending _ _ lower upper => 128 <= lower /\ upper <= 191
  end.

(** The bytes consumed by a pending state and not yet written. *)
Definition pending_bytes (st : Utf8.state) : list Z :=
  match st with
  | Utf8.Idle => []
  | Utf8.Pending seen _ _ _ => seen
  end.

(** The three headers the middleware sets from the result of the check. *)
Definition rate_limit_headers (l : Middleware.LimitResult) (r : Http.NextResponse)
  : Http.NextResponse :=
  Http.set_header "X-RateLimit-Reset" (JS.Z_toString (Middleware.resetTime l))
    (Http.set_header "X-RateLimit-Remaining" (JS.Z_toString (Middleware.remaining l))
       (Http.set_header "X-RateLimit-Limit" (JS.Z_toString (Middleware.limit l)) r)).

End Spec.

(** ** JavaScript values in conditions and object literals *)
Module Js.
Import Value.

(** [ToBoolean]. *)
Definition truthy (v : jsval) : bool :=
  match v with
  | JUndefined | JNull => false
  | JBool b => b
  | JNum NaN => false
  | JNum (Dec m _) => negb (m =? 0)
  | JNum _ => true
  | JStr s => Scan.nonempty s
  | JArr _ | JObj _ | JFun _ => true
  end.

(** [v !== undefined], negated. *)
Definition is_undefined (v : jsval) : bool :=
  match v with
  | JUndefined => true
  | _ => false
  end.

(** [a || b], both operands already evaluated. *)
Definition or (a b : jsval) : jsval := if truthy a then a else b.

(** [v === 'text']. *)
Definition is_text (v : jsval) (text : string) : bool :=
  match v with
  | JStr s => String.eqb s text
  | _ => false
  end.

(** [v?.name]. The names read through it are on no prototype. *)
Definition get_opt (v : jsval) (name : string) : Eff.result jsval :=
  match v with
  | JUndefined | JNull => Eff.Ret JUndefined
  | _ => Coerce.Get v name
  end.

(** Objects by their own properties. [prop] reads one, [undefined] when
    absent; [set] assigns, keeping the place of a property that exists;
    [delete] removes. *)
Definition prop (l : list (string * jsval)) (name : string) : jsval :=
  default JUndefined (own name l).

Definition set (name : string) (v : jsval) (l : list (string * jsval))
  : list (string * jsval) :=
  if Coerce.has_own name l
  then map (fun kv => if String.eqb (fst kv) name then (fst kv, v) else kv) l
  else l ++ [(name, v)].

Definition delete (name : string) (l : list (string * jsval)) : list (string * jsval) :=
  List.filter (fun kv => negb (String.eqb (fst kv) name)) l.

(** [process.env.NAME] inside a template literal. *)
Definition env_text (env : Node.env_t) (name : string) : string :=
  match env !! name with
  | Some v => v
  | None => "undefined"
  end.

(** [parseInt(s, 10)]: leading white space, a sign, then the longest run
    of decimal digits; [NaN] without a digit. *)
Definition parseInt10 (s : string) : number :=
  let t := JS.string_of_bytes (Coerce.strip false (JS.bytes_of_string s)) in
  let '(neg, body) := match t with
                      | String "-" t' => (true, t')
                      | String "+" t' => (false, t')
                      | _ => (false, t)
                      end in
  let digits := fst (Scan.span Scan.is_digit body) in
  if Scan.nonempty digits
  then Dec (if neg then - Scan.value 10 digits else Scan.value 10 digits) 0
  else NaN.

End Js.

(** ** Queries of the Supabase client *)
Module Query.
Import Value.

(** The calls of the query builder, in the order the source chains them.
    [Select None] is [.select()], [SelectCount] is
    [.select(columns, { count: 'exact', head: true })]. *)
Inductive step : Type :=
| From (table : string)
| Select (columns : option string)
| SelectCount (columns : string)
| Insert (row : jsval)
| Update (changes : jsval)
| Delete
| Eq (column : string) (value : jsval)
| Gte (column : string) (value : jsval)
| Lte (column : string) (value : jsval)
| Order (column : string) (ascending : bool)
| Limit (count : jsval)
| Single
| Rpc (procedure : string) (params : jsval).

Definition query : Type := list step.

(** What an awaited query resolves to. *)
Record reply : Type := mkReply
  { data : jsval; error : jsval; count : jsval }.

End Query.

(** ** Computations of the route handlers *)
Module Io.
Import Value.

(** An exception: one of the language or a library, or a value the
    program throws itself ([throw error]). *)
Inductive exn : Type :=
| Native (e : Eff.exn)
| Thrown (v : jsval).

Inductive result (A : Type) : Type :=
| Ret (a : A)
| Throw (e : exn).
Arguments Ret {A} a.
Arguments Throw {A} e.

Inductive level : Type := Log | Warn | Error.

(** What a handler asks of the world around it, in order: the calls of
    the token service, the request body, the WeChat API, the database,
    the console and the text generation service. *)
Inductive event : Type :=
| Lib (c : Eff.call)
| RequestJson
| Fetch (url : string)
| Ask (q : Query.query)
| Console (lv : level) (label : string)
| GenerateBlessing (prompt : string).

Definition M (A : Type) : Type := list event * result A.

Definition ret {A} (a : A) : M A := ([], Ret a).
Definition throw {A} (e : exn) : M A := ([], Throw e).
Definition tell (ev : event) : M unit := ([ev], Ret tt).
Definition lift {A} (r : result A) : M A := ([], r).

Definition bind {A B} (m : M A) (f : A -> M B) : M B :=
  match m with
  | (l, Ret a) => let '(l', r) := f a in (l ++ l', r)
  | (l, Throw e) => (l, Throw e)
  end.

(** [try { m } catch (e) { h e }]. *)
Definition try_catch {A} (m : M A) (h : exn -> M A) : M A :=
  match m with
  | (l, Throw e) => let '(l', r) := h e in (l ++ l', r)
  | _ => m
  end.

Definition events {A} (m : M A) : list event := fst m.
Definition outcome {A} (m : M A) : result A := snd m.

Definition of_result {A} (r : Eff.result A) : result A :=
  match r with
  | Eff.Ret a => Ret a
  | Eff.Throw e => Throw (Native e)
  end.

(** A computation of the token service inside a handler. *)
Definition of_eff {A} (m : Eff.M A) : M A :=
  (map Lib (fst m), of_result (snd m)).

(** [v.name]. *)
Definition get (v : jsval) (name : string) : M jsval :=
  lift (of_result (Coerce.Get v name)).

(** [v?.name]. *)
Definition get_opt (v : jsval) (name : string) : M jsval :=
  lift (of_result (Js.get_opt v name)).

End Io.

Notation "'let+' x ':=' m 'in' k" := (Io.bind m (fun x => k))
  (at level 10, x name, m at level 100, k at level 200, only parsing).
Notation "'run+' m 'in' k" := (Io.bind m (fun _ => k))
  (at level 10, m at level 100, k at level 200, only parsing).

(** ** [src/lib/supabase.ts] *)
Module Supabase.
Import Value Query Io.

Section Client.

(** The client made by [createClient], by what an awaited query resolves
    to, or the exception of a rejected one. *)
Variable client : query -> result reply.

Definition ask (q : query) : M reply :=
  run+ tell (Ask q) in lift (client q).

(** [userDb.getUserByOpenid(openid)], lines 86-98. *)
Definition getUserByOpenid (openid : jsval) : M jsval :=
  let+ r := ask [From "users"; Select (Some "*"); Eq "openid" openid; Single] in
  if Js.truthy (error r) then
    let+ code := get (error r) "code" in
    if negb (Js.is_text code "PGRST116") then throw (Thrown (error r))
    else ret (data r)
  else ret (data r).

(** [userDb.createUser(userData)], lines 103-122. *)
Definition createUser (userData : jsval) : M jsval :=
  let+ openid := get userData "openid" in
  let+ unionid := get userData "unionid" in
  let+ nickname := get userData "nickname" in
  let+ avatar_url := get userData "avatar_url" in
  let+ r := ask [From "users";
                 Insert (JObj [("openid", openid); ("unionid", unionid);
                               ("nickname", nickname); ("avatar_url", avatar_url)]);
                 Select None; Single] in
  if Js.truthy (error r) then throw (Thrown (error r)) else ret (data r).

(** [userDb.updateUser(openid, updates)], lines 127-149; [updates] is an
    object, given by its own properties, and [iso_now] is
    [new Date().toISOString()]. *)
Definition updateUser (iso_now : string) (openid : jsval)
    (updates : list (string * jsval)) : M jsval :=
  let updateData := updates in
  let updateData :=
    if Js.truthy (Js.prop updates "last_login_at")
    then Js.delete "last_login_at" (Js.set "last_login_at" (JStr iso_now) updateData)
    else updateData in
  let+ r := ask [From "users"; Update (JObj updateData); Eq "openid" openid;
                 Select None; Single] in
  if Js.truthy (error r) then throw (Thrown (error r)) else ret (data r).

(** [userDb.incrementBlessingCount(openid)], lines 154-161. *)
Definition incrementBlessingCount (openid : jsval) : M jsval :=
  let+ r := ask [Rpc "increment_blessing_count" (JObj [("openid_param", openid)])] in
  if Js.truthy (error r) then throw (Thrown (error r)) else ret (data r).

(** [historyDb.getUserHistory(userId, limit = 50)], lines 171-181: the
    default applies to an argument that is [undefined]. *)
Definition getUserHistory (userId limit : jsval) : M jsval :=
  let limit := match limit with JUndefined => JNum (int 50) | _ => limit end in
  let+ r := ask [From "user_history"; Select (Some "*"); Eq "user_id" userId;
                 Order "created_at" false; Limit limit] in
  if Js.truthy (error r) then throw (Thrown (error r))
  else ret (Js.or (data r) (JArr [])).

(** [historyDb.addHistory(historyData)], lines 186-201. *)
Definition addHistory (historyData : jsval) : M jsval :=
  let+ r := ask [From "user_history"; Insert historyData; Select None; Single] in
  if Js.truthy (error r) then throw (Thrown (error r)) else ret (data r).

(** [historyDb.deleteHistory(historyId, userId)], lines 206-215. *)
Definition deleteHistory (historyId userId : jsval) : M jsval :=
  let+ r := ask [From "user_history"; Delete; Eq "id" historyId; Eq "user_id" userId] in
  if Js.truthy (error r) then throw (Thrown (error r)) else ret (JBool true).

(** [historyDb.clearUserHistory(userId)], lines 220-228. *)
Definition clearUserHistory (userId : jsval) : M jsval :=
  let+ r := ask [From "user_history"; Delete; Eq "user_id" userId] in
  if Js.truthy (error r) then throw (Thrown (error r)) else ret (JBool true).

End Client.

End Supabase.

(** ** [src/unnamed/part_006], second document: [updateUser] of the other
    version of the database module *)
Module Part006.
Import Value Query Io.

Section Client.

Variable env : Node.env_t.
Variable client : query -> result reply.

(** [getSupabaseClient()], lines 114-123, by what it adds to the run:
    without the two settings it throws; [created] tells whether an
    earlier call made the client already. *)
Definition getSupabaseClient (created : bool) : M unit :=
  if created then ret tt
  else
    match env !! "SUPABASE_URL", env !! "SUPABASE_SERVICE_KEY" with
    | Some (String _ _), Some (String _ _) => ret tt
    | _, _ =>
        throw (Native (Eff.Failure
          ("Supabase configuration is missing. "
           +:+ "Please set SUPABASE_URL and SUPABASE_SERVICE_KEY environment variables.")))
    end.

(** [userDb.updateUser(openid, updates)], lines 187-209. *)
Definition updateUser (created : bool) (iso_now : string) (openid : jsval)
    (updates : list (string * jsval)) : M jsval :=
  let copy (name : string) (updateData : list (string * jsval)) :=
    if Js.is_undefined (Js.prop updates name) then updateData
    else Js.set name (Js.prop updates name) updateData in
  let updateData := [] in
  let updateData := copy "nickname" updateData in
  let updateData := copy "avatar_url" updateData in
  let updateData := copy "total_blessings_generated" updateData in
  let updateData :=
    if Js.truthy (Js.prop updates "last_login_at")
    then Js.set "last_login_at" (JStr iso_now) updateData
    else updateData in
  run+ getSupabaseClient created in
  let+ r := (run+ tell (Ask [From "users"; Update (JObj updateData); Eq "openid" openid;
                             Select None; Single]) in
             lift (client [From "users"; Update (JObj updateData); Eq "openid" openid;
                           Select None; Single])) in
  if Js.truthy (error r) then throw (Thrown (error r)) else ret (data r).

End Client.

End Part006.

(** ** [src/app/api/auth/wechat/login/route.ts]: the two handlers *)
Module LoginHandlers.
Import Value Query Io Http.

(** [generateToken(userId, openid)], lines 165-194, at arguments of any
    type; at two strings it is [LoginRoute.generateToken]. *)
Definition generateToken (env : Node.env_t) (now_iat now_exp : Z)
    (userId openid : jsval) : Eff.M string :=
  let JWT_SECRET := Node.env_or env "JWT_SECRET" "default-secret-change-in-production" in
  let header :=
    LoginRoute.toBase64Url
      (JSON.stringify (JObj [("alg", JStr "HS256"); ("typ", JStr "JWT")])) in
  let payload :=
    LoginRoute.toBase64Url (JSON.stringify (JObj
      [("sub", userId);
       ("openid", openid);
       ("iat", JNum (int now_iat));
       ("exp", JNum (int (now_exp + LoginRoute.seven_days)))])) in
  let* digest :=
    Node.createHmac_sha256_base64 JWT_SECRET (header +:+ "." +:+ payload) in
  let signature :=
    JS.replaceAll "=" EmptyString
      (JS.replaceAll "/" "_" (JS.replaceAll "+" "-" digest)) in
  Eff.ret (header +:+ "." +:+ payload +:+ "." +:+ signature).

(** The [user] member of the two answers, lines 74-83 and 142-151. *)
Definition user_view (user : jsval) : M jsval :=
  let+ id := get user "id" in
  let+ openid := get user "openid" in
  let+ unionid := get user "unionid" in
  let+ nickname := get user "nickname" in
  let+ avatar_url := get user "avatar_url" in
  let+ created_at := get user "created_at" in
  let+ last_login_at := get user "last_login_at" in
  let+ total := get user "total_blessings_generated" in
  ret (JObj [("id", id); ("openid", openid); ("unionid", unionid);
             ("nickname", nickname); ("avatarUrl", avatar_url);
             ("createdAt", created_at); ("lastLoginAt", last_login_at);
             ("totalBlessingsGenerated", Js.or total (JNum (int 0)))]).

Section Handlers.

Variable env : Node.env_t.
(** The conversion to text inside a template literal. *)
Variable ToString : jsval -> result string.
(** [await request.json()]. *)
Variable request_json : result jsval.
(** [fetch(url, ...)] followed by [.json()] on the response. *)
Variable fetch_json : string -> result jsval.
Variable client : query -> result reply.
(** [new Date().toISOString()]. *)
Variable iso_now : string.

(** [POST], lines 11-103; [now_iat] and [now_exp] are the two readings of
    [Date.now()] in [generateToken]. *)
Definition POST (now_iat now_exp : Z) : M NextResponse :=
  try_catch
    (let+ body := (run+ tell RequestJson in lift request_json) in
     let+ code := get body "code" in
     let+ userInfo := get body "userInfo" in
     if negb (Js.truthy code) then
       ret (json (JObj [("error", JStr "缺少微信登录凭证 code")]) 400)
     else
       let+ code_text := lift (ToString code) in
       let url :=
         "https://api.weixin.qq.com/sns/jscode2session?appid="
         +:+ Js.env_text env "WECHAT_APP_ID"
         +:+ "&secret=" +:+ Js.env_text env "WECHAT_APP_SECRET"
         +:+ "&js_code=" +:+ code_text
         +:+ "&grant_type=authorization_code" in
       let+ wechatData := (run+ tell (Fetch url) in lift (fetch_json url)) in
       let+ errcode := get wechatData "errcode" in
       if Js.truthy errcode then
         run+ tell (Console Error "微信登录失败:") in
         let+ errmsg := get wechatData "errmsg" in
         let+ errmsg_text := lift (ToString errmsg) in
         ret (json (JObj [("error", JStr ("微信登录失败: " +:+ errmsg_text))]) 400)
       else
         let+ openid := get wechatData "openid" in
         let+ unionid := get wechatData "unionid" in
         let+ expires_in := get wechatData "expires_in" in
         let+ found := Supabase.getUserByOpenid client openid in
         let+ user :=
           (if negb (Js.truthy found) then
              let+ nickName := get_opt userInfo "nickName" in
              let+ avatarUrl := get_opt userInfo "avatarUrl" in
              let+ created :=
                Supabase.createUser client
                  (JObj [("openid", openid);
                         ("unionid", Js.or unionid JUndefined);
                         ("nickname", Js.or nickName (JStr "微信用户"));
                         ("avatar_url", Js.or avatarUrl JUndefined)]) in
              let+ id := get created "id" in
              run+ tell (Console Log "新用户创建成功:") in
              ret created
            else
              let+ nickName := get_opt userInfo "nickName" in
              let+ nickname :=
                (if Js.truthy nickName then ret nickName else get found "nickname") in
              let+ avatarUrl := get_opt userInfo "avatarUrl" in
              let+ avatar_url :=
                (if Js.truthy avatarUrl then ret avatarUrl else get found "avatar_url") in
              run+ Supabase.updateUser client iso_now openid
                     [("nickname", nickname); ("avatar_url", avatar_url);
                      ("last_login_at", JBool true)] in
              let+ id := get found "id" in
              run+ tell (Console Log "用户登录更新:") in
              ret found) in
         let+ id := get user "id" in
         let+ token := of_eff (generateToken env now_iat now_exp id openid) in
         let+ view := user_view user in
         let response :=
           JObj [("success", JBool true); ("user", view); ("token", JStr token)] in
         let+ expires_text := lift (ToString expires_in) in
         let cookieOptions :=
           "Path=/; HttpOnly; SameSite=Lax; Max-Age=" +:+ expires_text in
         ret (set_header "Set-Cookie" ("auth_token=" +:+ token +:+ "; " +:+ cookieOptions)
                (json response 200)))
    (fun _ =>
       run+ tell (Console Error "登录处理错误:") in
       ret (json (JObj [("error", JStr "登录失败，请稍后重试")]) 500)).

(** [GET], lines 109-160. *)
Definition GET (now : Z) (request : NextRequest) : M NextResponse :=
  try_catch
    (match cookies request !! "auth_token" with
     | None | Some EmptyString =>
         ret (json (JObj [("error", JStr "未登录")]) 401)
     | Some token =>
         let+ decoded :=
           of_eff (run! Eff.tell (Eff.VerifyToken token) in
                   Auth.verifyToken env now token) in
         match decoded with
         | None => ret (json (JObj [("error", JStr "登录已过期")]) 401)
         | Some decoded =>
             let+ user := Supabase.getUserByOpenid client (Auth.openid decoded) in
             if negb (Js.truthy user) then
               ret (json (JObj [("error", JStr "用户不存在")]) 404)
             else
               let+ view := user_view user in
               ret (json (JObj [("user", view)]) 200)
         end
     end)
    (fun _ =>
       run+ tell (Console Error "验证用户失败:") in
       ret (json (JObj [("error", JStr "验证失败")]) 500)).

End Handlers.

End LoginHandlers.

(** ** [src/app/api/user/profile/route.ts] *)
Module ProfileRoute.
Import Value Query Io Http.

Definition columns : string :=
  "id, openid, unionid, nickname, avatar_url, created_at, last_login_at, "
  +:+ "total_blessings_generated".

(** The [user] member of the two answers, lines 47-56 and 146-155. *)
Definition user_view (user : jsval) : M jsval :=
  let+ id := get user "id" in
  let+ openid := get user "openid" in
  let+ unionid := get user "unionid" in
  let+ nickname := get user "nickname" in
  let+ avatar_url := get user "avatar_url" in
  let+ created_at := get user "created_at" in
  let+ last_login_at := get user "last_login_at" in
  let+ total := get user "total_blessings_generated" in
  ret (JObj [("id", id); ("openid", openid); ("unionid", unionid);
             ("nickname", nickname); ("avatarUrl", avatar_url);
             ("createdAt", created_at); ("lastLoginAt", last_login_at);
             ("totalBlessingsGenerated", total)]).

Section Handlers.

Variable env : Node.env_t.
Variable request_json : result jsval.
Variable client : query -> result reply.

(** Lines 12-29 and 74-91, common to both handlers: the token from the
    cookie or the [authorization] header, then its verification; the
    answer 401, or the decoded payload. *)
Definition authenticate (now : Z) (request : NextRequest)
  : M (NextResponse + Auth.TokenPayload) :=
  let token :=
    or_else (cookies request !! "auth_token")
            (option_map (JS.replaceFirst "Bearer " EmptyString)
                        (header request "authorization")) in
  match token with
  | None | Some EmptyString =>
      ret (inl (json (JObj [("error", JStr "用户未登录")]) 401))
  | Some token =>
      let+ decoded :=
        of_eff (run! Eff.tell (Eff.VerifyToken token) in
                Auth.verifyToken env now token) in
      match decoded with
      | None => ret (inl (json (JObj [("error", JStr "登录已过期")]) 401))
      | Some decoded => ret (inr decoded)
      end
  end.

(** [GET], lines 9-65. *)
Definition GET (now : Z) (request : NextRequest) : M NextResponse :=
  try_catch
    (let+ admitted := authenticate now request in
     match admitted with
     | inl response => ret response
     | inr decoded =>
         let+ r := Supabase.ask client
                     [From "users"; Select (Some columns);
                      Eq "openid" (Auth.openid decoded); Single] in
         if Js.truthy (error r) || negb (Js.truthy (data r)) then
           ret (json (JObj [("error", JStr "用户不存在")]) 404)
         else
           let+ view := user_view (data r) in
           ret (json (JObj [("success", JBool true); ("user", view)]) 200)
     end)
    (fun _ =>
       run+ tell (Console Error "获取用户资料失败:") in
       ret (json (JObj [("error", JStr "获取用户资料失败")]) 500)).

(** The two checks of lines 97 and 104. *)
Definition nickname_refused (nickname : jsval) : bool :=
  match nickname with
  | JUndefined => false
  | JStr s => (JS.length (Coerce.trim s) =? 0) || (100 <? JS.length s)
  | _ => true
  end.

Definition avatarUrl_refused (avatarUrl : jsval) : bool :=
  match avatarUrl with
  | JUndefined => false
  | JStr s => 500 <? JS.length s
  | _ => true
  end.

(** [nickname.trim()] at line 114, reached with a string. *)
Definition trimmed (nickname : jsval) : jsval :=
  match nickname with
  | JStr s => JStr (Coerce.trim s)
  | v => v
  end.

(** [PUT], lines 71-164. *)
Definition PUT (now : Z) (request : NextRequest) : M NextResponse :=
  try_catch
    (let+ admitted := authenticate now request in
     match admitted with
     | inl response => ret response
     | inr decoded =>
         let+ body := (run+ tell RequestJson in lift request_json) in
         let+ nickname := get body "nickname" in
         let+ avatarUrl := get body "avatarUrl" in
         if nickname_refused nickname then
           ret (json (JObj [("error", JStr "昵称不能为空且长度不能超过100个字符")]) 400)
         else if avatarUrl_refused avatarUrl then
           ret (json (JObj [("error", JStr "头像URL长度不能超过500个字符")]) 400)
         else
           let updateData := [] in
           let updateData :=
             if Js.is_undefined nickname then updateData
             else Js.set "nickname" (trimmed nickname) updateData in
           let updateData :=
             if Js.is_undefined avatarUrl then updateData
             else Js.set "avatar_url" avatarUrl updateData in
           if (List.length updateData =? 0)%nat then
             ret (json (JObj [("error", JStr "没有要更新的字段")]) 400)
           else
             let+ r := Supabase.ask client
                         [From "users"; Update (JObj updateData);
                          Eq "openid" (Auth.openid decoded);
                          Select (Some columns); Single] in
             if Js.truthy (error r) then
               run+ tell (Console Error "更新用户资料失败:") in
               ret (json (JObj [("error", JStr "更新用户资料失败")]) 500)
             else
               let+ view := user_view (data r) in
               ret (json (JObj [("success", JBool true); ("user", view)]) 200)
     end)
    (fun _ =>
       run+ tell (Console Error "更新用户资料失败:") in
       ret (json (JObj [("error", JStr "更新用户资料失败")]) 500)).

End Handlers.

End ProfileRoute.

(** ** [src/unnamed/part_003], first document: the history route, and the
    [GET] of its earlier version in [src/unnamed/part_002] *)
Module HistoryRoute.
Import Value Query Io Http.

(** [items.map(f)] for a callback that reads properties. *)
Fixpoint mapM {A B : Type} (f : A -> M B) (l : list A) : M (list B) :=
  match l with
  | [] => ret []
  | x :: l' =>
      let+ y := f x in
      let+ ys := mapM f l' in
      ret (y :: ys)
  end.

(** The callback of [history.map], lines 94-101. *)
Definition item_view (item : jsval) : M jsval :=
  let+ id := get item "id" in
  let+ blessing := get item "blessing" in
  let+ occasion := get item "occasion" in
  let+ targetPerson := get item "targetPerson" in
  let+ style := get item "style" in
  let+ createdAt := get item "createdAt" in
  ret (JObj [("id", id); ("blessing", blessing); ("occasion", occasion);
             ("targetPerson", targetPerson); ("style", style);
             ("createdAt", createdAt)]).

(** [value.map(callback)]: defined on arrays; on anything else reached
    here the method is missing, or the value has no properties. *)
Definition map_items (value : jsval) : M jsval :=
  match value with
  | JArr items => let+ views := mapM item_view items in ret (JArr views)
  | _ => throw (Native Eff.TypeError)
  end.

Section Handlers.

Variable env : Node.env_t.
Variable request_json : result jsval.
Variable client : query -> result reply.
(** [new URL(request.url).searchParams.get(name)]. *)
Variable search : string -> option string.
(** The first and the last instant of the current month, as
    [toISOString()] writes them. *)
Variables startOfMonth endOfMonth : string.
(** [Math.ceil(total / pageSize)]. *)
Variable ceil_quotient : jsval -> number -> result number.

(** Lines 14-31, the same text as in the profile route. *)
Definition authenticate (now : Z) (request : NextRequest)
  : M (NextResponse + Auth.TokenPayload) :=
  let token :=
    or_else (cookies request !! "auth_token")
            (option_map (JS.replaceFirst "Bearer " EmptyString)
                        (header request "authorization")) in
  match token with
  | None | Some EmptyString =>
      ret (inl (json (JObj [("error", JStr "用户未登录")]) 401))
  | Some token =>
      let+ decoded :=
        of_eff (run! Eff.tell (Eff.VerifyToken token) in
                Auth.verifyToken env now token) in
      match decoded with
      | None => ret (inl (json (JObj [("error", JStr "登录已过期")]) 401))
      | Some decoded => ret (inr decoded)
      end
  end.

(** The query of lines 40-44, 155-159 and 235-239. *)
Definition find_user (decoded : Auth.TokenPayload) : M reply :=
  Supabase.ask client
    [From "users"; Select (Some "id"); Eq "openid" (Auth.openid decoded); Single].

(** [GET], lines 11-116. The call at line 90 passes three arguments to
    [historyDb.getUserHistory], which takes two: the third is dropped. *)
Definition GET (now : Z) (request : NextRequest) : M NextResponse :=
  try_catch
    (let+ admitted := authenticate now request in
     match admitted with
     | inl response => ret response
     | inr decoded =>
         let page := Js.parseInt10 (or_default (search "page") "1") in
         let pageSize :=
           Js.parseInt10
             (or_default (or_else (search "pageSize") (search "limit")) "10") in
         let isStatsRequest :=
           match search "stats" with
           | Some s => String.eqb s "true"
           | None => false
           end in
         let+ r := find_user decoded in
         let users := data r in
         if Js.truthy (error r) || negb (Js.truthy users) then
           ret (json (JObj [("error", JStr "用户不存在")]) 404)
         else if isStatsRequest then
           let+ id := get users "id" in
           let+ total :=
             Supabase.ask client
               [From "user_history"; SelectCount "*"; Eq "user_id" id] in
           if Js.truthy (error total) then throw (Thrown (error total))
           else
             let+ id := get users "id" in
             let+ monthly :=
               Supabase.ask client
                 [From "user_history"; SelectCount "*"; Eq "user_id" id;
                  Gte "created_at" (JStr startOfMonth);
                  Lte "created_at" (JStr endOfMonth)] in
             if Js.truthy (error monthly) then throw (Thrown (error monthly))
             else
               ret (json (JObj
                      [("success", JBool true);
                       ("stats",
                        JObj [("total", Js.or (count total) (JNum (int 0)));
                              ("monthly", Js.or (count monthly) (JNum (int 0)))])])
                      200)
         else
           let+ id := get users "id" in
           let+ result := Supabase.getUserHistory client id (JNum page) in
           let+ history := get result "data" in
           let+ total := get result "total" in
           let+ views := map_items history in
           let+ totalPages := lift (ceil_quotient total pageSize) in
           ret (json (JObj
                  [("success", JBool true);
                   ("data", views);
                   ("pagination",
                    JObj [("page", JNum page); ("pageSize", JNum pageSize);
                          ("total", total); ("totalPages", JNum totalPages)])])
                  200)
     end)
    (fun _ =>
       run+ tell (Console Error "获取历史记录失败:") in
       ret (json (JObj [("error", JStr "获取历史记录失败")]) 500)).

(** [POST], lines 122-195. *)
Definition POST (now : Z) (request : NextRequest) : M NextResponse :=
  try_catch
    (let+ admitted := authenticate now request in
     match admitted with
     | inl response => ret response
     | inr decoded =>
         let+ body := (run+ tell RequestJson in lift request_json) in
         let+ blessing := get body "blessing" in
         let+ occasion := get body "occasion" in
         let+ targetPerson := get body "targetPerson" in
         let+ style := get body "style" in
         if negb (Js.truthy blessing) then
           ret (json (JObj [("error", JStr "缺少祝福语内容")]) 400)
         else
           let+ r := find_user decoded in
           let user := data r in
           if Js.truthy (error r) || negb (Js.truthy user) then
             ret (json (JObj [("error", JStr "用户不存在")]) 404)
           else
             let+ id := get user "id" in
             let+ historyItem :=
               Supabase.addHistory client
                 (JObj [("user_id", id); ("blessing", blessing);
                        ("occasion", occasion); ("target_person", targetPerson);
                        ("style", Js.or style (JStr "传统"))]) in
             let+ h_id := get historyItem "id" in
             let+ h_blessing := get historyItem "blessing" in
             let+ h_occasion := get historyItem "occasion" in
             let+ h_target := get historyItem "target_person" in
             let+ h_style := get historyItem "style" in
             let+ h_created := get historyItem "created_at" in
             ret (json (JObj
                    [("success", JBool true);
                     ("historyItem",
                      JObj [("id", h_id); ("blessing", h_blessing);
                            ("occasion", h_occasion); ("targetPerson", h_target);
                            ("style", h_style); ("createdAt", h_created)])])
                    200)
     end)
    (fun _ =>
       run+ tell (Console Error "保存历史记录失败:") in
       ret (json (JObj [("error", JStr "保存历史记录失败")]) 500)).

(** [DELETE], lines 201-262. *)
Definition DELETE (now : Z) (request : NextRequest) : M NextResponse :=
  try_catch
    (let+ admitted := authenticate now request in
     match admitted with
     | inl response => ret response
     | inr decoded =>
         match search "id" with
         | None | Some EmptyString =>
             ret (json (JObj [("error", JStr "缺少历史记录 ID")]) 400)
         | Some historyId =>
             let+ r := find_user decoded in
             let user := data r in
             if negb (Js.truthy user) then
               ret (json (JObj [("error", JStr "用户不存在")]) 404)
             else
               let+ id := get user "id" in
               run+ Supabase.deleteHistory client (JStr historyId) id in
               ret (json (JObj [("success", JBool true);
                                ("message", JStr "删除成功")]) 200)
         end
     end)
    (fun _ =>
       run+ tell (Console Error "删除历史记录失败:") in
       ret (json (JObj [("error", JStr "删除历史记录失败")]) 500)).

(** [GET] of [src/unnamed/part_002], lines 61-121; the [verifyToken] of
    that file has the text of the one in [src/lib/auth.ts]. *)
Definition GET_part002 (now : Z) (request : NextRequest) : M NextResponse :=
  try_catch
    (let+ admitted := authenticate now request in
     match admitted with
     | inl response => ret response
     | inr decoded =>
         let limit := Js.parseInt10 (or_default (search "limit") "50") in
         let+ r := find_user decoded in
         let users := data r in
         if Js.truthy (error r) || negb (Js.truthy users) then
           ret (json (JObj [("error", JStr "用户不存在")]) 404)
         else
           let+ id := get users "id" in
           let+ history := Supabase.getUserHistory client id (JNum limit) in
           let+ views := map_items history in
           ret (json (JObj [("success", JBool true); ("history", views)]) 200)
     end)
    (fun _ =>
       run+ tell (Console Error "获取历史记录失败:") in
       ret (json (JObj [("error", JStr "获取历史记录失败")]) 500)).

End Handlers.

End HistoryRoute.

(** ** [src/wechat-miniprogram/utils/validation.js] *)
Module Validation.
Import Value.

(** The regular expressions of the file are sequences of literal
    characters and white space classes, all with the flag [i]. *)
Inductive atom : Type :=
| Lit (c : ascii)
| Space.

Inductive item : Type :=
| One (a : atom)
| Plus (a : atom)
| Star (a : atom).

Definition pattern : Type := list item.

Definition lit (s : string) : pattern :=
  map (fun c => One (Lit c)) (list_ascii_of_string s).

(** [Canonicalize] under the flag [i], without the flag [u]: a letter of
    [a-z] becomes its capital; a character outside ASCII never becomes an
    ASCII one, so the bytes of such a character stay as they are. *)
Definition upper_char (c : ascii) : ascii :=
  let n := JS.code c in
  if (97 <=? n) && (n <=? 122) then JS.chr (n - 32) else c.

(** One character matched by an atom at the head of the text: the rest of
    the text. The class [\s] is that of [Coerce.ws1], [ws2] and [ws3]. *)
Definition eat (a : atom) (s : string) : option string :=
  match a with
  | Lit c =>
      match s with
      | String b s' =>
          if Ascii.eqb (upper_char b) (upper_char c) then Some s' else None
      | EmptyString => None
      end
  | Space =>
      match s with
      | String b s1 =>
          if Coerce.ws1 (JS.code b) then Some s1
          else match s1 with
               | String c s2 =>
                   if Coerce.ws2 (JS.code b) (JS.code c) then Some s2
                   else match s2 with
                        | String d s3 =>
                            if Coerce.ws3 (JS.code b) (JS.code c) (JS.code d)
                            then Some s3 else None
                        | EmptyString => None
                        end
               | EmptyString => None
               end
      | EmptyString => None
      end
  end.

(** [a*] followed by the rest of the pattern [k], by backtracking. *)
Fixpoint star (fuel : nat) (a : atom) (k : string -> bool) (s : string) : bool :=
  match fuel with
  | O => k s
  | S fuel' =>
      match eat a s with
      | Some s' => star fuel' a k s' || k s
      | None => k s
      end
  end.

(** The pattern matches a prefix of the text. *)
Fixpoint match_here (p : pattern) (s : string) : bool :=
  match p with
  | [] => true
  | One a :: p' =>
      match eat a s with
      | Some s' => match_here p' s'
      | None => false
      end
  | Plus a :: p' =>
      match eat a s with
      | Some s' => star (String.length s) a (match_here p') s'
      | None => false
      end
  | Star a :: p' => star (String.length s) a (match_here p') s
  end.

(** [pattern.test(s)]: the pattern matches somewhere in the text. *)
Fixpoint test (p : pattern) (s : string) : bool :=
  match_here p s ||
  match s with
  | EmptyString => false
  | String _ s' => test p s'
  end.

(** Lines 7-26. *)
Definition BLOCKED_PATTERNS : list pattern :=
  [ lit "ignore" ++ [Plus Space] ++ lit "previous";
    lit "disregard" ++ [Plus Space] ++ lit "instructions";
    lit "override" ++ [Plus Space] ++ lit "instructions";
    lit "system" ++ [Plus Space] ++ lit "prompt";
    lit "you" ++ [Plus Space] ++ lit "are" ++ [Plus Space] ++ lit "an"
      ++ [Plus Space] ++ lit "AI";
    lit "<script";
    lit "javascript:";
    lit "onerror";
    lit "onload";
    lit "onclick";
    lit "'" ++ [Star Space] ++ lit "or" ++ [Star Space] ++ lit "1=1";
    [One (Lit JS.dquote)] ++ [Star Space] ++ lit "or" ++ [Star Space] ++ lit "1=1";
    lit "drop" ++ [Plus Space] ++ lit "table";
    lit "delete" ++ [Plus Space] ++ lit "from";
    lit "insert" ++ [Plus Space] ++ lit "into" ].

(** What [validateInput] returns: [{ valid: true }] or
    [{ valid: false, error }]. *)
Inductive verdict : Type :=
| Valid
| Invalid (error : string).

Definition blocked (s : string) : bool :=
  existsb (fun p => test p s) BLOCKED_PATTERNS.

Section Conversions.

(** [ToString] of a value that is not a string, as [RegExp.prototype.test]
    applies it to its argument. *)
Variable ToString : jsval -> Eff.result string.

Definition text (v : jsval) : Eff.result string :=
  match v with
  | JStr s => Eff.Ret s
  | _ => ToString v
  end.

(** [v && pattern.test(v)] for an optional member. *)
Definition optional_test (p : pattern) (v : jsval) : Eff.result bool :=
  if Js.truthy v then
    match text v with
    | Eff.Ret t => Eff.Ret (test p t)
    | Eff.Throw e => Eff.Throw e
    end
  else Eff.Ret false.

(** The loop of lines 69-75. *)
Fixpoint scan (ps : list pattern) (scenario targetPerson : string)
    (style festival : jsval) : Eff.result verdict :=
  match ps with
  | [] => Eff.Ret Valid
  | p :: ps' =>
      if test p scenario || test p targetPerson
      then Eff.Ret (Invalid "输入内容包含不安全的字符或模式")
      else
        match optional_test p style with
        | Eff.Throw e => Eff.Throw e
        | Eff.Ret true => Eff.Ret (Invalid "输入内容包含不安全的字符或模式")
        | Eff.Ret false =>
            match optional_test p festival with
            | Eff.Throw e => Eff.Throw e
            | Eff.Ret true => Eff.Ret (Invalid "输入内容包含不安全的字符或模式")
            | Eff.Ret false => scan ps' scenario targetPerson style festival
            end
        end
  end.

(** [validateInput(body)], lines 33-79. Reading a member of [null] or
    [undefined] throws; past the first read the others succeed. *)
Definition validateInput (body : jsval) : Eff.result verdict :=
  match Coerce.Get body "useSmartMode", Coerce.Get body "customDescription",
        Coerce.Get body "scenario", Coerce.Get body "targetPerson",
        Coerce.Get body "style", Coerce.Get body "festival" with
  | Eff.Ret useSmartMode, Eff.Ret customDescription, Eff.Ret scenario,
    Eff.Ret targetPerson, Eff.Ret style, Eff.Ret festival =>
      match useSmartMode with
      | JBool true =>
          match customDescription with
          | JStr (String c s) =>
              let description := Coerce.trim (String c s) in
              if JS.length description <? 5
              then Eff.Ret (Invalid "描述至少需要5个字符")
              else if 300 <? JS.length description
              then Eff.Ret (Invalid "描述不能超过300个字符")
              else if blocked description
              then Eff.Ret (Invalid "输入内容包含不安全的字符或模式")
              else Eff.Ret Valid
          | _ => Eff.Ret (Invalid "请提供祝福语描述")
          end
      | _ =>
          match scenario with
          | JStr (String c s) =>
              match targetPerson with
              | JStr (String c' s') =>
                  scan BLOCKED_PATTERNS (String c s) (String c' s') style festival
              | _ => Eff.Ret (Invalid "请选择目标人群")
              end
          | _ => Eff.Ret (Invalid "请选择祝福场景")
          end
      end
  | _, _, _, _, _, _ => Eff.Throw Eff.TypeError
  end.

End Conversions.

(** The characters of the first replacement of [cleanText], line 92. *)
Definition is_control (c : ascii) : bool :=
  let n := JS.code c in
  (n <=? 8) || (n =? 11) || (n =? 12) || ((14 <=? n) && (n <=? 31)) || (n =? 127).

Fixpoint remove_controls (s : string) : string :=
  match s with
  | EmptyString => EmptyString
  | String c s' =>
      if is_control c then remove_controls s' else String c (remove_controls s')
  end.

(** The second replacement, line 94: every maximal run of white space
    becomes one space. [in_run] tells that the run at hand has been
    written already. *)
Fixpoint squeeze (in_run : bool) (l : list Z) : list Z :=
  let space (rest : list Z) := if in_run then rest else 32 :: rest in
  match l with
  | [] => []
  | b :: l1 =>
      if Coerce.ws1 b then space (squeeze true l1)
      else match l1 with
           | [] => [b]
           | c :: l2 =>
               if Coerce.ws2 b c then space (squeeze true l2)
               else match l2 with
                    | [] => b :: squeeze false l1
                    | d :: l3 =>
                        if Coerce.ws3 b c d then space (squeeze true l3)
                        else b :: squeeze false l1
                    end
           end
  end.

(** [cleanText(text)], lines 87-96. *)
Definition cleanText (text : jsval) : string :=
  match text with
  | JStr s =>
      Coerce.trim
        (JS.string_of_bytes (squeeze false (JS.bytes_of_string (remove_controls s))))
  | _ => EmptyString
  end.

End Validation.

(** ** [src/lib/prompt-templates.ts] *)
Module PromptTemplates.
Import Value.

Section Templates.

(** [ToString] of a value that is not a string, inside a template
    literal. *)
Variable ToString : jsval -> Eff.result string.

Definition text (v : jsval) : Eff.result string :=
  match v with
  | JStr s => Eff.Ret s
  | _ => ToString v
  end.

Definition newline : string := String (JS.chr 10) EmptyString.

Definition role : string :=
  "# Role" +:+ newline
  +:+ "你是一位精通中文社交礼仪与情感表达的文案专家，"
  +:+ "擅长根据不同人际关系捕捉最恰当的语气，创作既真诚又不落俗套的祝福语。"
  +:+ newline.

Definition smart_head : string :=
  newline +:+ role +:+ newline
  +:+ "# Task" +:+ newline
  +:+ "请根据以下描述生成一段个性化的祝福语：" +:+ newline +:+ newline
  +:+ "用户描述：".

Definition smart_tail : string :=
  newline +:+ newline
  +:+ "请生成一段真诚、个性化、符合情境的祝福语。要求：" +:+ newline
  +:+ "1. 深度理解用户描述中的所有细节：人物关系、具体情况、情感背景等" +:+ newline
  +:+ "2. 自动识别并恰当使用文中提到的姓名、称呼、关系" +:+ newline
  +:+ "3. 根据描述的场景和情境选择最合适的语气和风格" +:+ newline
  +:+ "4. 体现对具体情况的理解和针对性关怀" +:+ newline
  +:+ "5. 长度适中（50-100字），真诚自然，避免套话模板" +:+ newline
  +:+ "6. 语言温暖有力，富有个人色彩和情感共鸣" +:+ newline
  +:+ "7. 如果描述中包含特殊背景，要巧妙地体现出来" +:+ newline
  +:+ "8. 避免使用敏感词汇" +:+ newline +:+ newline
  +:+ "# Output" +:+ newline
  +:+ "请直接返回祝福语内容，不需要其他说明。".

(** [createSmartPrompt(options)], lines 23-47. *)
Definition createSmartPrompt (options : jsval) : Eff.result string :=
  match Coerce.Get options "customDescription" with
  | Eff.Throw e => Eff.Throw e
  | Eff.Ret customDescription =>
      match text customDescription with
      | Eff.Throw e => Eff.Throw e
      | Eff.Ret description => Eff.Ret (smart_head +:+ description +:+ smart_tail)
      end
  end.

Definition template_tail : string :=
  newline +:+ newline
  +:+ "# Requirements" +:+ newline
  +:+ "1. 身份对齐：根据“祝福对象”自动调整称呼（如敬语“您”或亲昵称呼）和社交距离，确保不突兀。"
  +:+ newline
  +:+ "2. 内容结构：建议包含【对现状的肯定/赞美】+【核心祝愿】+【对未来的美好期许】。"
  +:+ newline
  +:+ "3. 语言去水：避免空洞的成语堆砌，优先使用口语化但有质感的表达，字数严格控制在 50-80 字之间。"
  +:+ newline
  +:+ "4. 情感共鸣：内容要积极正面，文字要有温度，读起来像是由衷而发而非模板生成。"
  +:+ newline +:+ newline
  +:+ "# Output" +:+ newline
  +:+ "请直接输出祝福语正文，无需任何开头语或解释。" +:+ newline.

(** [createTemplatePrompt(options)], lines 55-77: the default of [style]
    applies to [undefined] only. *)
Definition createTemplatePrompt (options : jsval) : Eff.result string :=
  match Coerce.Get options "occasion", Coerce.Get options "targetPerson",
        Coerce.Get options "style" with
  | Eff.Ret occasion, Eff.Ret targetPerson, Eff.Ret style =>
      let style := if Js.is_undefined style then JStr "温馨" else style in
      match text occasion with
      | Eff.Throw e => Eff.Throw e
      | Eff.Ret occasion_text =>
          match text targetPerson with
          | Eff.Throw e => Eff.Throw e
          | Eff.Ret target_text =>
              match text style with
              | Eff.Throw e => Eff.Throw e
              | Eff.Ret style_text =>
                  Eff.Ret
                    (newline +:+ role +:+ newline
                     +:+ "# Task" +:+ newline
                     +:+ "请根据以下变量，为我撰写一段地道的中文祝福语：" +:+ newline
                     +:+ "- 祝福场合：" +:+ occasion_text +:+ newline
                     +:+ "- 祝福对象：" +:+ target_text
                     +:+ "（请考虑与此人的亲疏关系）" +:+ newline
                     +:+ "- 期望风格：" +:+ style_text
                     +:+ template_tail)
              end
          end
      end
  | _, _, _ => Eff.Throw Eff.TypeError
  end.

(** [options.customDescription?.trim()] as a condition: a missing
    description is falsy, a string counts when it is not blank, any other
    value has no method [trim]. *)
Definition has_description (customDescription : jsval) : Eff.result bool :=
  match customDescription with
  | JUndefined | JNull => Eff.Ret false
  | JStr s => Eff.Ret (Scan.nonempty (Coerce.trim s))
  | _ => Eff.Throw Eff.TypeError
  end.

(** [createBlessingPrompt(options)], lines 85-93. *)
Definition createBlessingPrompt (options : jsval) : Eff.result string :=
  match Coerce.Get options "useSmartMode" with
  | Eff.Throw e => Eff.Throw e
  | Eff.Ret useSmartMode =>
      if Js.truthy useSmartMode then
        match Coerce.Get options "customDescription" with
        | Eff.Throw e => Eff.Throw e
        | Eff.Ret customDescription =>
            match has_description customDescription with
            | Eff.Throw e => Eff.Throw e
            | Eff.Ret true => createSmartPrompt options
            | Eff.Ret false => createTemplatePrompt options
            end
        end
      else createTemplatePrompt options
  end.

End Templates.

End PromptTemplates.

(** ** [src/app/api/blessing/route.ts]: the rest of [POST], lines 69-141 *)
Module BlessingRouteBody.
Import Value Query Io Http.

Section Handler.

(** The conversion to text inside the template literals of
    [src/lib/prompt-templates.ts]. *)
Variable ToString : jsval -> Eff.result string.
(** [await req.json()]. *)
Variable request_json : result jsval.
(** The two imports from [@/lib/validation] and the one from
    [@/lib/ai-service], modules that are not among the sources at hand,
    by what a call returns or throws. *)
Variable validateInput : jsval -> result jsval.
Variable cleanText : jsval -> result jsval.
Variable generateBlessing : string -> result jsval.
Variable client : query -> result reply.
(** The tests of lines 129-135 on the exception caught:
    [axios.isAxiosError(error)], [error.response?.status === n], and
    [error instanceof Error && error.message.includes('429')]. *)
Variable isAxiosError : exn -> bool.
Variable response_status_is : exn -> Z -> bool.
Variable message_includes_429 : exn -> bool.

(** Lines 82-84: [body.customDescription = cleanText(...)], reached for
    an object only (no other value has a truthy [customDescription]). *)
Definition assign_description (body cleaned : jsval) : jsval :=
  match body with
  | JObj members => JObj (Js.set "customDescription" cleaned members)
  | v => v
  end.

(** Lines 69-90: body, validation, cleaning, prompt and generation. The
    answer 400, or the body and the blessing. *)
Definition generate : M (NextResponse + jsval * jsval) :=
  let+ body := (run+ tell RequestJson in lift request_json) in
  let+ validation := lift (validateInput body) in
  let+ valid := get validation "valid" in
  if negb (Js.truthy valid) then
    let+ error := get validation "error" in
    ret (inl (json (JObj [("error", error)]) 400))
  else
    let+ customDescription := get body "customDescription" in
    let+ body :=
      (if Js.truthy customDescription then
         let+ cleaned := lift (cleanText customDescription) in
         ret (assign_description body cleaned)
       else ret body) in
    let+ prompt := lift (of_result (PromptTemplates.createBlessingPrompt ToString body)) in
    let+ blessing := (run+ tell (GenerateBlessing prompt) in
                      lift (generateBlessing prompt)) in
    ret (inr (body, blessing)).

(** Lines 92-120: the user, the history record, the answer. *)
Definition record (decoded : Auth.TokenPayload) (body blessing : jsval)
  : M NextResponse :=
  let+ r := Supabase.ask client
              [From "users"; Select (Some "id");
               Eq "openid" (Auth.openid decoded); Single] in
  let user := data r in
  if Js.truthy (error r) || negb (Js.truthy user) then
    run+ tell (Console Warn "用户不存在，无法插入历史记录:") in
    ret (json (JObj [("blessing", blessing)]) 200)
  else
    run+ try_catch
           (let+ id := get user "id" in
            let+ occasion := get body "occasion" in
            let+ targetPerson := get body "targetPerson" in
            let+ style := get body "style" in
            run+ Supabase.addHistory client
                   (JObj [("user_id", id); ("blessing", blessing);
                          ("occasion", occasion); ("target_person", targetPerson);
                          ("style", Js.or style (JStr "传统"))]) in
            ret tt)
           (fun _ => tell (Console Error "插入历史记录失败:")) in
    ret (json (JObj [("blessing", blessing)]) 200).

(** Lines 126-137. *)
Definition errorMessage (error : exn) : string :=
  if isAxiosError error then
    if response_status_is error 429 then "请求太频繁，请稍后再试"
    else if response_status_is error 401 || response_status_is error 403
    then "服务暂时不可用"
    else "生成失败，请重试"
  else if message_includes_429 error then "请求太频繁，请稍后再试"
  else "生成失败，请重试".

(** Lines 69-141, for the payload of an accepted token. *)
Definition serve (decoded : Auth.TokenPayload) : M NextResponse :=
  try_catch
    (let+ generated := generate in
     match generated with
     | inl response => ret response
     | inr (body, blessing) => record decoded body blessing
     end)
    (fun error =>
       run+ tell (Console Error "生成祝福语失败:") in
       ret (json (JObj [("error", JStr (errorMessage error))]) 500)).

End Handler.

End BlessingRouteBody.
(** ** Further vocabulary *)
Module Vocabulary.
Import Value Eff.

(** The calls that read the payload section of a token. *)
Definition reads_payload (c : call) : bool :=
  match c with
  | Base64Decode _ | JsonParse _ => true
  | _ => false
  end.

(** The token made of a header, a payload section and the signature
    [verifyToken] of [src/lib/auth.ts] expects for them. *)
Definition signed_token (env : Node.env_t) (header payload : string) : string :=
  header +:+ "." +:+ payload +:+ "." +:+ Spec.expected_signature env header payload.

(** Correctly signed tokens whose payload sections are the base64url forms
    of the texts [null] and [not json]. *)
Definition token_null_payload : string :=
  Eval vm_compute in signed_token ∅ Spec.login_header (LoginRoute.toBase64Url "null").

Definition token_not_json : string :=
  Eval vm_compute in signed_token ∅ Spec.login_header (LoginRoute.toBase64Url "not json").

(** The statuses the middleware answers with. *)
Definition middleware_status (st : Z) : bool := (st =? 403) || (st =? 429) || (st =? 503).

(** The token [POST] of the blessing route reads from a request: the
    cookie, or else the [Authorization] header without its first
    [Bearer ]. *)
Definition presented_token (req : Http.NextRequest) : option string :=
  Http.or_else (Http.cookies req !! "auth_token")
    (option_map (JS.replaceFirst "Bearer " EmptyString) (Http.header req "Authorization")).

(** A request of the WeChat client carrying [token] in its cookie, and one
    carrying it in the [Authorization] header. *)
Definition wechat_agent : string :=
  "Mozilla/5.0 (iPhone) MicroMessenger/8.0.40 MiniProgramEnv/Mac".

(** The token of the login route for [u1], [o1], minted at time 1000 under
    the built-in secret. *)
Definition login_token_u1 : string :=
  "eyJhbGciOiJIUzI1NiIsInR5cCI6IkpXVCJ9"
  +:+ ".eyJzdWIiOiJ1MSIsIm9wZW5pZCI6Im8xIiwiaWF0IjoxMDAwLCJleHAiOjYwNDgwMTAwMH0"
  +:+ ".VCktQEZ74kU6TXwyIBhtN8rn968eVl0qfYnk3r-UVHQ".

Definition cookie_request (token : string) : Http.NextRequest :=
  Http.mkRequest {[ "user-agent" := wechat_agent ]} "/api/blessing"
    {[ "auth_token" := token ]}.

Definition bearer_request (token : string) : Http.NextRequest :=
  Http.mkRequest {[ "user-agent" := wechat_agent; "authorization" := "Bearer " +:+ token ]}
    "/api/blessing" ∅.

(** A request that carries no token, or one [verifyToken] of
    [src/lib/auth.ts] refuses at time [now]. *)
Definition unauthenticated (env : Node.env_t) (now : Z) (req : Http.NextRequest) : Prop :=
  match presented_token req with
  | None | Some EmptyString => True
  | Some token => Eff.outcome (Auth.verifyToken env now token) = Eff.Ret None
  end.

End Vocabulary.

(** ** Vocabulary of the statements about handlers *)
Module Handlers.
Import Value Query Io.

(** An event of the token service, as opposed to the request body, the
    WeChat API, the database, the console and the generation service. *)
Definition is_lib (ev : event) : bool :=
  match ev with
  | Lib _ => true
  | _ => false
  end.

(** A run that answers 401 and touches nothing but the token service. *)
Definition refuses (h : M Http.NextResponse) : Prop :=
  exists response,
    outcome h = Ret response
    /\ Http.status_of response = Some 401
    /\ forallb is_lib (events h) = true.

(** What the decoder answers for the tests of the witnesses: a string is
    its own text. *)
Definition text_of (v : jsval) : result string :=
  match v with
  | JStr s => Ret s
  | _ => Ret "undefined"
  end.

Definition text_of_value (v : jsval) : Eff.result string :=
  match v with
  | JStr s => Eff.Ret s
  | _ => Eff.Ret "undefined"
  end.

(** A row of the table [users], and a client that answers every query
    with it. *)
Definition user_u1 : jsval :=
  JObj [("id", JStr "u1"); ("openid", JStr "o1"); ("nickname", JStr "n1")].

Definition client_u1 (q : query) : result reply :=
  Ret (mkReply user_u1 JNull JUndefined).

(** Rows of the table [user_history] have the columns of its definition
    in [src/lib/supabase.ts], lines 55-63; in particular no member is
    named [targetPerson] or [createdAt]. *)
Definition stored_row (row : jsval) : Prop :=
  exists members,
    row = JObj members
    /\ own "targetPerson" members = None
    /\ own "createdAt" members = None.

(** What a query without [.single()] resolves to: rows, or [null]. *)
Definition rows_or_null (v : jsval) : bool :=
  match v with
  | JArr _ | JNull => true
  | _ => false
  end.

(** A query on the table [user_history]. *)
Definition on_history (q : query) : bool :=
  existsb (fun s => match s with
                    | From table => String.eqb table "user_history"
                    | _ => false
                    end) q.

(** A client that answers the queries on [user_history] with [rows] and
    every other query with the row of [u1]. *)
Definition client_rows (rows : list jsval) (q : query) : result reply :=
  if on_history q then Ret (mkReply (JArr rows) JNull JUndefined)
  else Ret (mkReply user_u1 JNull JUndefined).

(** A client that finds the user and rejects every insertion. *)
Definition client_insert_fails (q : query) : result reply :=
  if existsb (fun s => match s with Insert _ => true | _ => false end) q
  then Throw (Native (Eff.Failure "insert failed"))
  else Ret (mkReply user_u1 JNull JUndefined).

(** A validation that passes every body. *)
Definition validate_any (body : jsval) : result jsval :=
  Ret (JObj [("valid", JBool true)]).

(** A stored row of [user_history]. *)
Definition row_h1 : jsval :=
  JObj [("id", JStr "h1"); ("user_id", JStr "u1"); ("blessing", JStr "b1");
        ("occasion", JStr "birthday"); ("target_person", JStr "friend");
        ("style", JStr "warm"); ("created_at", JStr "2024-01-01T00:00:00Z")].

(** A request of the WeChat client with the token of [u1] in its cookie. *)
Definition request_u1 : Http.NextRequest :=
  Http.mkRequest {[ "user-agent" := Vocabulary.wechat_agent ]} "/api/user"
    {[ "auth_token" := Vocabulary.login_token_u1 ]}.

(** The answer of a run, [NextResponse.next()] standing for none. *)
Definition answer_of (m : M Http.NextResponse) : Http.NextResponse :=
  match outcome m with
  | Ret response => response
  | Throw _ => Http.next
  end.

(** A login of [u1]: the body carries a code, the WeChat API answers with
    the openid [o1], the row exists. *)
Definition login_u1 : M Http.NextResponse :=
  LoginHandlers.POST ∅ text_of (Ret (JObj [("code", JStr "c1")]))
    (fun _ => Ret (JObj [("openid", JStr "o1")])) client_u1
    "2024-01-01T00:00:00.000Z" 1000 1000.

(** The query parameters of a request for the record [h1]. *)
Definition search_h1 (name : string) : option string :=
  if String.eqb name "id" then Some "h1" else None.

End Handlers.

(** ** Vocabulary of the statements about texts *)
Module Texts.
Import Value.

(** A character that is neither a control character of ASCII (tab and
    the line breaks included) nor DEL. *)
Definition printable (c : ascii) : bool :=
  (32 <=? JS.code c) && negb (JS.code c =? 127).

(** The same, of a byte. *)
Definition printable_byte (b : Z) : Prop := 32 <= b < 256 /\ b <> 127.

(** A byte that the first replacement of [cleanText] keeps. *)
Definition kept_byte (b : Z) : Prop :=
  0 <= b < 256
  /\ (b = 9 \/ b = 10 \/ b = 13 \/ (32 <= b /\ b <> 127)).

(** Lower case of a byte, as [Http.lower_char] of a character. *)
Definition lower_byte (b : Z) : Z :=
  if (65 <=? b) && (b <=? 90) then b + 32 else b.

(** A body in smart mode with the description [s]. *)
Definition smart_body (s : string) : jsval :=
  JObj [("useSmartMode", JBool true); ("customDescription", JStr s)].

(** The three messages of the answers 500 of the blessing route. *)
Definition error_messages : list string :=
  ["生成失败，请重试"; "请求太频繁，请稍后再试"; "服务暂时不可用"].

End Texts.

(** * Properties *)

Import Spec.

(** ** The library models against published test vectors *)

Example sha256_abc :
  Spec.hex_of_bytes (SHA256.sha256 (JS.bytes_of_string "abc"))
  = "ba7816bf8f01cfea414140de5dae2223b00361a396177a9cb410ff61f20015ad".
Proof. vm_compute. reflexivity. Qed.

Example sha256_two_blocks :
  Spec.hex_of_bytes (SHA256.sha256 (JS.bytes_of_string
    "abcdbcdecdefdefgefghfghighijhijkijkljklmklmnlmnomnopnopq"))
  = "248d6a61d20638b8e5c026930c3e6039a33ce45964ff2167f6ecedd419db06c1".
Proof. vm_compute. reflexivity. Qed.

(** RFC 4231, test case 2. *)
Example hmac_rfc4231_2 :
  Spec.hex_of_bytes (HMAC.hmac_sha256 (JS.bytes_of_string "Jefe")
                       (JS.bytes_of_string "what do ya want for nothing?"))
  = "5bdcc146bf60754e6a042426089575c75a003f089d2739839dec58b964ec3843".
Proof. vm_compute. reflexivity. Qed.

(** RFC 4648, section 10. *)
Example base64_rfc4648 :
  map Node.base64_of_string ["f"; "fo"; "foo"; "foob"; "fooba"; "foobar"]
  = ["Zg=="; "Zm8="; "Zm9v"; "Zm9vYg=="; "Zm9vYmE="; "Zm9vYmFy"].
Proof. reflexivity. Qed.

Example base64_decode_lenient :
  map (fun s => JS.string_of_bytes (Base64.decode s))
      ["Zm9vYg=="; "Zm9vYg"; "Zm9v Yg"; "Zm9v=Yg"; "-_-_"; "Z"]
  = ["foob"; "foob"; "foob"; "foo"; JS.string_of_bytes [251; 255; 191]; EmptyString].
Proof. reflexivity. Qed.

Example json_parse_payload :
  JSON.parse (JS.dq "{'sub':'u1','openid':'o\n1','iat':1000,'exp':6.048e8}")
  = Some (Value.JObj [("sub", Value.JStr "u1");
                      ("openid", Value.JStr (String "o" (String "010" "1")));
                      ("iat", Value.JNum (Value.Dec 1000 0));
                      ("exp", Value.JNum (Value.Dec 6048 5))]).
Proof. reflexivity. Qed.

Example json_parse_rejects :
  map (fun t => JSON.parse (JS.dq t))
      ["[1,]"; "{'a':1,}"; "[1 2]"; "{'a' 1}"; "["; "]"; EmptyString; "01"; "1.";
       "tru"; "{1:2}"; "'a"; "'\x'"; "nul l"; "[}"; "+1"; ".5"; "1 2"]
  = List.repeat None 18.
Proof. reflexivity. Qed.

Example json_parse_escapes :
  JSON.parse (JS.dq "'\ud83d\ude00\u00e9\t\/'")
  = Some (Value.JStr (JS.string_of_bytes [240; 159; 152; 128; 195; 169; 9; 47])).
Proof. reflexivity. Qed.

Example utf8_replacement :
  Utf8.run Utf8.Idle [97; 240; 159; 152; 128; 226; 40; 192; 175; 237; 160; 128; 240; 159]
  = [97; 240; 159; 152; 128] ++ Utf8.replacement ++ [40]
    ++ Utf8.replacement ++ Utf8.replacement
    ++ Utf8.replacement ++ Utf8.replacement ++ Utf8.replacement
    ++ Utf8.replacement.
Proof. reflexivity. Qed.

(** [v < 10] for parsed values [v]. *)
Example relational_coercions :
  map (fun t => option_map (fun v => Coerce.lessThan v 10) (JSON.parse (JS.dq t)))
      ["5"; "'5'"; "' 0x5 '"; "null"; "true"; "[]"; "[5]"; "['5']"; "9.99";
       "[5,6]"; "{}"; "'abc'"; "10"; "1e1"; "'Infinity'";
       "{'toString':1}"; "[[{'toString':0}]]"]
  = List.repeat (Some (Eff.Ret true)) 9
    ++ List.repeat (Some (Eff.Ret false)) 6
    ++ List.repeat (Some (Eff.Throw Eff.TypeError)) 2.
Proof. reflexivity. Qed.

(** Reads of [sub], [openid] and [exp] on values that are not objects. *)
Example property_reads :
  (Coerce.Get (Value.JStr "hello") "sub", Coerce.Get (Value.JStr "hello") "exp",
   Coerce.Get (Value.JNum (Value.int 5)) "sub", Coerce.Get Value.JNull "exp")
  = (Eff.Ret (Value.JFun "sub"), Eff.Ret Value.JUndefined,
     Eff.Ret Value.JUndefined, Eff.Throw Eff.TypeError).
Proof. reflexivity. Qed.

(** ** Characters of strings *)

Section Chars.
Import Spec.

Lemma all_chars_app (p : ascii -> bool) (a b : string) :
  all_chars p (a +:+ b) = all_chars p a && all_chars p b.
Proof.
  induction a as [|c a IH]; simpl; [reflexivity|].
  rewrite IH. apply andb_assoc.
Qed.

Lemma all_chars_weaken (p q : ascii -> bool) (s : string) :
  (forall c, p c = true -> q c = true) ->
  all_chars p s = true -> all_chars q s = true.
Proof.
  intros Hpq. induction s as [|c s IH]; simpl; [reflexivity|].
  intros [Hc Hs]%andb_prop. rewrite (Hpq _ Hc). simpl. auto.
Qed.

Lemma all_chars_get (p : ascii -> bool) (s : string) (n : nat) (c : ascii) :
  all_chars p s = true -> String.get n s = Some c -> p c = true.
Proof.
  revert n. induction s as [|a s IH]; intros n; simpl; [discriminate|].
  intros [Ha Hs]%andb_prop. destruct n as [|n].
  - intros [= <-]. exact Ha.
  - apply IH. exact Hs.
Qed.

Lemma occurs_app_r (c : ascii) (a b : string) :
  occurs c b = true -> occurs c (a +:+ b) = true.
Proof.
  unfold occurs. rewrite all_chars_app.
  destruct (all_chars (is_not c) b); [discriminate|].
  rewrite andb_false_r. reflexivity.
Qed.

(** A string without the separator is a single part. *)
Lemma split_single (c : ascii) (s : string) :
  all_chars (is_not c) s = true -> JS.split c s = [s].
Proof.
  induction s as [|a s IH]; simpl; [reflexivity|].
  unfold is_not at 1. intros [Ha Hs]%andb_prop.
  apply negb_true_iff in Ha. rewrite Ha, (IH Hs). reflexivity.
Qed.

(** The first part ends at the first separator. *)
Lemma split_first (c : ascii) (a rest : string) :
  all_chars (is_not c) a = true ->
  JS.split c (a +:+ String c rest) = a :: JS.split c rest.
Proof.
  induction a as [|x a IH]; simpl.
  - intros _. rewrite Ascii.eqb_refl. reflexivity.
  - unfold is_not at 1. intros [Hx Ha]%andb_prop.
    apply negb_true_iff in Hx. rewrite Hx, (IH Ha). reflexivity.
Qed.

Lemma split_three (c : ascii) (a b d : string) :
  all_chars (is_not c) a = true ->
  all_chars (is_not c) b = true ->
  all_chars (is_not c) d = true ->
  JS.split c (a +:+ String c (b +:+ String c d)) = [a; b; d].
Proof.
  intros Ha Hb Hd.
  rewrite (split_first _ _ _ Ha), (split_first _ _ _ Hb), (split_single _ _ Hd).
  reflexivity.
Qed.

(** Global replacement by the empty string leaves no occurrence. *)
Lemma replaceAll_erases (c : ascii) (s : string) :
  all_chars (is_not c) (JS.replaceAll c EmptyString s) = true.
Proof.
  induction s as [|a s IH]; simpl; [reflexivity|].
  destruct (Ascii.eqb a c) eqn:E; simpl; [exact IH|].
  unfold is_not at 1. rewrite E. simpl. exact IH.
Qed.

(** Global replacement maps a string over [p] plus the replaced
    character to a string over [p], when the replacement is over [p]. *)
Lemma replaceAll_all_chars (p : ascii -> bool) (c : ascii) (r s : string) :
  all_chars p r = true ->
  all_chars (fun a => Ascii.eqb a c || p a) s = true ->
  all_chars p (JS.replaceAll c r s) = true.
Proof.
  intros Hr. induction s as [|a s IH]; simpl; [reflexivity|].
  intros [Ha Hs]%andb_prop. destruct (Ascii.eqb a c) eqn:E.
  - rewrite all_chars_app, Hr. simpl. auto.
  - simpl in Ha. simpl. rewrite Ha. simpl. auto.
Qed.

End Chars.

(** ** Base64 text and digests *)

Section Encoding.
Import Spec.

Lemma list_ind3 {A : Type} (P : list A -> Prop) :
  P [] -> (forall a, P [a]) -> (forall a b, P [a; b]) ->
  (forall a b c l, P l -> P (a :: b :: c :: l)) ->
  forall l, P l.
Proof.
  intros H0 H1 H2 H3.
  fix IH 1. intros [|a [|b [|c l]]];
    [exact H0 | apply H1 | apply H2 | apply H3, IH].
Qed.

Lemma enc_all_chars (p : ascii -> bool) (i : Z) :
  all_chars p Base64.alphabet = true -> p (Base64.enc i) = true.
Proof.
  intros Hp. unfold Base64.enc.
  destruct (String.get _ _) as [c|] eqn:E.
  - exact (all_chars_get _ _ _ _ Hp E).
  - apply (all_chars_get p Base64.alphabet 0 "A"%char Hp). reflexivity.
Qed.

(** The output of the encoder is over the alphabet and the padding. *)
Lemma encode_all_chars (p : ascii -> bool) (l : list Z) :
  all_chars p Base64.alphabet = true -> p "="%char = true ->
  all_chars p (Base64.encode l) = true.
Proof.
  intros Hp Heq. induction l as [|a|a b|a b c l IH] using list_ind3;
    cbn [Base64.encode all_chars];
    rewrite ?(enc_all_chars p _ Hp), ?Heq, ?IH; reflexivity.
Qed.

Lemma encode_standard (l : list Z) :
  all_chars standard_base64 (Base64.encode l) = true.
Proof. apply encode_all_chars; reflexivity. Qed.

Lemma encode_no_dot (l : list Z) :
  all_chars (is_not ".") (Base64.encode l) = true.
Proof. apply encode_all_chars; reflexivity. Qed.

(** Unless the length is a multiple of three, the text is padded. *)
Lemma encode_padded (l : list Z) :
  (List.length l mod 3 <> 0)%nat -> occurs "=" (Base64.encode l) = true.
Proof.
  induction l as [|a|a b|a b c l IH] using list_ind3; intros Hlen.
  - exfalso. apply Hlen. reflexivity.
  - unfold occurs. cbn [Base64.encode all_chars].
    rewrite !andb_false_r. reflexivity.
  - unfold occurs. cbn [Base64.encode all_chars].
    rewrite !andb_false_r. reflexivity.
  - change (Base64.encode (a :: b :: c :: l))
      with (String (Base64.enc (Z.shiftr a 2))
             (String (Base64.enc (Z.lor (Z.shiftl (Z.land a 3) 4) (Z.shiftr b 4)))
             (String (Base64.enc (Z.lor (Z.shiftl (Z.land b 15) 2) (Z.shiftr c 6)))
             (String (Base64.enc (Z.land c 63)) EmptyString))) +:+ Base64.encode l).
    apply occurs_app_r, IH.
    intros H. apply Hlen.
    change (List.length (a :: b :: c :: l)) with (3 + List.length l)%nat.
    rewrite <- Nat.Div0.add_mod_idemp_l. exact H.
Qed.

Lemma sha256_length (msg : list Z) : List.length (SHA256.sha256 msg) = 32%nat.
Proof. unfold SHA256.sha256. destruct (fold_left _ _ _). reflexivity. Qed.

Lemma hmac_length (key data : list Z) :
  List.length (HMAC.hmac_sha256 key data) = 32%nat.
Proof. apply sha256_length. Qed.

(** A digest of thirty-two bytes always carries one padding character. *)
Lemma digest_text_padded (key data : list Z) :
  occurs "=" (Base64.encode (HMAC.hmac_sha256 key data)) = true.
Proof. apply encode_padded. rewrite hmac_length. discriminate. Qed.

Lemma toUrlSafe_no_pad (s : string) : occurs "=" (Auth.toUrlSafe s) = false.
Proof.
  unfold occurs, Auth.toUrlSafe. rewrite replaceAll_erases. reflexivity.
Qed.

(** Stripping changes every digest text. *)
Lemma digest_text_not_url_safe (key data : list Z) :
  String.eqb (Base64.encode (HMAC.hmac_sha256 key data))
             (Auth.toUrlSafe (Base64.encode (HMAC.hmac_sha256 key data))) = false.
Proof.
  apply String.eqb_neq. intros H.
  pose proof (digest_text_padded key data) as Hp.
  rewrite H, toUrlSafe_no_pad in Hp. discriminate.
Qed.

End Encoding.

(** ** Computations *)

Section Computations.
Import Eff.

Lemma outcome_bind_ret {A B : Type} (l : list call) (a : A) (f : A -> M B) :
  outcome (bind (l, Ret a) f) = outcome (f a).
Proof. unfold outcome, bind. destruct (f a). reflexivity. Qed.

End Computations.

(** ** Tokens minted by [src/unnamed/part_001] *)

Section Part001Tokens.
Import Eff Value.

Variable env : Node.env_t.
Variables now_iat now_exp : Z.
Variables userId openid : string.

Lemma part001_generateToken_eq :
  Part001.generateToken env now_iat now_exp userId openid
  = ([HmacSha256 (Part001.JWT_SECRET env)
        (part001_header +:+ "." +:+ part001_payload now_iat now_exp userId openid)],
     Ret (part001_header
          +:+ "." +:+ part001_payload now_iat now_exp userId openid
          +:+ "." +:+ part001_signature env now_iat now_exp userId openid)).
Proof.
  cbv beta iota zeta delta
    [Part001.generateToken Node.createHmac_sha256_base64 bind tell ret app
     part001_header part001_payload part001_signature].
  reflexivity.
Qed.

Lemma part001_split :
  JS.split "." (part001_header
                +:+ "." +:+ part001_payload now_iat now_exp userId openid
                +:+ "." +:+ part001_signature env now_iat now_exp userId openid)
  = [part001_header;
     part001_payload now_iat now_exp userId openid;
     part001_signature env now_iat now_exp userId openid].
Proof.
  change (JS.split "."
            (part001_header
             +:+ String "." (part001_payload now_iat now_exp userId openid
                             +:+ String "." (part001_signature env now_iat now_exp
                                               userId openid)))
          = [part001_header;
             part001_payload now_iat now_exp userId openid;
             part001_signature env now_iat now_exp userId openid]).
  apply split_three; apply encode_no_dot.
Qed.

End Part001Tokens.

(** A token of three sections whose third is not the expected signature is
    refused after the one HMAC computation. *)
Lemma verifyToken_bad_signature (env : Node.env_t) (now : Z)
    (token header payload signature : string) :
  JS.split "." token = [header; payload; signature] ->
  String.eqb signature (Spec.expected_signature env header payload) = false ->
  Auth.verifyToken env now token
  = ([Eff.HmacSha256 (Auth.JWT_SECRET env) (header +:+ "." +:+ payload)], Eff.Ret None).
Proof.
  intros Hsplit Hsig. unfold Auth.verifyToken. rewrite Hsplit.
  cbn [List.length Nat.eqb negb nth].
  unfold Node.createHmac_sha256_base64.
  cbn [Eff.bind Eff.tell Eff.ret app].
  unfold Spec.expected_signature in Hsig. rewrite Hsig.
  reflexivity.
Qed.

(** C1 (evaluation of the code at every input): a token minted by
    [generateToken] of [src/unnamed/part_001] is refused by [verifyToken] of
    [src/lib/auth.ts], whatever the identity, the secret and the times of
    minting and verification: the minted signature is standard base64 with
    its padding, the verifier compares it with the stripped URL-safe text. *)
Theorem part001_token_refused_by_shared_verifyToken
    (env : Node.env_t) (now_iat now_exp now : Z) (userId openid : string) :
  Eff.outcome
    (let* token := Part001.generateToken env now_iat now_exp userId openid in
     Auth.verifyToken env now token)
  = Eff.Ret None.
Proof.
  rewrite part001_generateToken_eq, outcome_bind_ret.
  erewrite verifyToken_bad_signature.
  - reflexivity.
  - apply part001_split.
  - apply digest_text_not_url_safe.
Qed.

(** C4 (evaluation of the code at every input): the token minted by
    [generateToken] of [src/unnamed/part_001] has exactly three sections
    between dots, over the standard base64 alphabet, and its third section
    always holds the padding character [=]. *)
Theorem part001_token_sections_padded
    (env : Node.env_t) (now_iat now_exp : Z) (userId openid : string) :
  exists token header payload signature,
    Eff.outcome (Part001.generateToken env now_iat now_exp userId openid) = Eff.Ret token
    /\ JS.split "." token = [header; payload; signature]
    /\ Spec.all_chars Spec.standard_base64 header = true
    /\ Spec.all_chars Spec.standard_base64 payload = true
    /\ Spec.all_chars Spec.standard_base64 signature = true
    /\ Spec.occurs "=" signature = true.
Proof.
  eexists _, _, _, _. rewrite part001_generateToken_eq.
  split; [reflexivity|]. split; [apply part001_split|].
  repeat split; try apply encode_standard.
  apply digest_text_padded.
Qed.

(** The input named for C1 and C4: the token itself. *)
Example part001_token_u1 :
  Eff.outcome (Part001.generateToken ∅ 1000 1000 "u1" "o1")
  = Eff.Ret ("eyJhbGciOiJIUzI1NiIsInR5cCI6IkpXVCJ9"
             +:+ ".eyJzdWIiOiJ1MSIsIm9wZW5pZCI6Im8xIiwiaWF0IjoxMDAwLCJleHAiOjYwNDgwMTAwMH0="
             +:+ ".pJA6LHxo3Tp5LGr+gHASbEvzpDeA5fQygcP5NbyCa7s=").
Proof. vm_compute. reflexivity. Qed.

(** ** [verifyToken] of [src/lib/auth.ts], step by step *)

Section VerifyToken.
Import Spec Eff Value.

Variable env : Node.env_t.
Variable now : Z.

Lemma verifyToken_three_parts (token header payload signature : string) :
  JS.split "." token = [header; payload; signature] ->
  outcome (Auth.verifyToken env now token)
  = if String.eqb signature (expected_signature env header payload)
    then after_signature now payload else Ret None.
Proof.
  intros Hsplit. unfold Auth.verifyToken. rewrite Hsplit.
  cbn [List.length Nat.eqb negb nth].
  unfold Node.createHmac_sha256_base64, Node.Buffer_from_base64, Node.JSON_parse.
  cbn [bind tell ret app].
  fold (expected_signature env header payload).
  destruct (String.eqb signature _); [|reflexivity].
  cbn [negb bind tell ret app]. unfold after_signature.
  destruct (JSON.parse _) as [decoded|]; [|reflexivity].
  cbn [bind ret lift throw app].
  destruct (Coerce.Get decoded "exp") as [ex|]; [|reflexivity].
  cbn [bind ret lift app].
  destruct (Coerce.lessThan ex now) as [[|]|]; try reflexivity.
  cbn [bind ret lift app].
  destruct (Coerce.Get decoded "sub") as [sub|]; [|reflexivity].
  cbn [bind ret lift app].
  destruct (Coerce.Get decoded "openid") as [oid|]; reflexivity.
Qed.

(** The calls made before the split decides. *)
Lemma verifyToken_other_parts (token : string) :
  List.length (JS.split "." token) <> 3%nat ->
  Auth.verifyToken env now token = ([], Ret None).
Proof.
  intros Hlen. unfold Auth.verifyToken.
  destruct (Nat.eqb_spec (List.length (JS.split "." token)) 3) as [E|_];
    [contradiction|reflexivity].
Qed.

(** A property read that succeeds once succeeds for every name. *)
Lemma Get_defined (d : jsval) (name name' : string) (v : jsval) :
  Coerce.Get d name = Ret v -> exists v', Coerce.Get d name' = Ret v'.
Proof.
  destruct d; simpl; try discriminate; intros _; eauto.
  destruct (own name' l); eauto.
Qed.

End VerifyToken.

(** ** Claims about [verifyToken] *)

(** C8: an input that does not split on the dot into exactly three parts is
    refused with [null], and the run makes no call at all: no signature is
    recomputed, nothing is decoded or parsed. *)
Theorem verifyToken_refuses_other_part_counts
    (env : Node.env_t) (now : Z) (token : string) :
  List.length (JS.split "." token) <> 3%nat ->
  Eff.outcome (Auth.verifyToken env now token) = Eff.Ret None
  /\ Eff.calls (Auth.verifyToken env now token) = [].
Proof.
  intros Hlen. rewrite (verifyToken_other_parts env now token Hlen).
  split; reflexivity.
Qed.

(** C8 at the two-part input [header.payload]. *)
Lemma verifyToken_refuses_other_part_counts_witness :
  List.length (JS.split "." "header.payload") <> 3%nat
  /\ (Eff.outcome (Auth.verifyToken ∅ 0 "header.payload") = Eff.Ret None
      /\ Eff.calls (Auth.verifyToken ∅ 0 "header.payload") = []).
Proof.
  split.
  - simpl. discriminate.
  - apply (verifyToken_refuses_other_part_counts ∅ 0 "header.payload").
    simpl. discriminate.
Defined.

(** C10, as stated, fails: for a correctly signed payload without [sub] and
    [openid] the value returned is neither [null] nor a [TokenPayload]; its
    two fields are [undefined]. *)
Lemma verifyToken_returns_undefined_fields :
  Spec.well_signed ∅ token_empty_object = true
  /\ Spec.payload_of token_empty_object = Some (Value.JObj [])
  /\ Eff.outcome (Auth.verifyToken ∅ 0 token_empty_object)
     = Eff.Ret (Some (Auth.mkTokenPayload Value.JUndefined Value.JUndefined))
  /\ Spec.is_TokenPayload (Auth.mkTokenPayload Value.JUndefined Value.JUndefined) = false.
Proof. vm_compute. repeat split; reflexivity. Qed.

(** A correctly signed payload that is a JSON string: [decoded.sub] is then
    the method [String.prototype.sub]. *)
Example verifyToken_string_payload :
  Eff.outcome
    (Auth.verifyToken ∅ 0
       ("eyJhbGciOiJIUzI1NiIsInR5cCI6IkpXVCJ9.ImhlbGxvIg"
        +:+ ".K8hJcRn_4YS4gn0zTUqVPEd9DIkjXre3c55FnZqc0I0"))
  = Eff.Ret (Some (Auth.mkTokenPayload (Value.JFun "sub") Value.JUndefined)).
Proof. vm_compute. reflexivity. Qed.

(** C10, amended: for every input string, every environment and every
    current time, [verifyToken] returns without throwing; the value is
    [null] or an object whose [userId] and [openid] are what the decoded
    payload of a correctly signed token holds under [sub] and [openid]
    (strings, other JSON values, or [undefined]). *)
Theorem verifyToken_never_throws
    (env : Node.env_t) (now : Z) (token : string) :
  exists r : option Auth.TokenPayload,
    Eff.outcome (Auth.verifyToken env now token) = Eff.Ret r
    /\ forall p, r = Some p ->
         Spec.well_signed env token = true
         /\ exists decoded,
              Spec.payload_of token = Some decoded
              /\ Coerce.Get decoded "sub" = Eff.Ret (Auth.userId p)
              /\ Coerce.Get decoded "openid" = Eff.Ret (Auth.openid p).
Proof.
  unfold Spec.well_signed, Spec.payload_of.
  destruct (JS.split "." token) as [|h [|pl [|sg [|x rest]]]] eqn:Hsplit;
    try (exists None; split;
         [ rewrite verifyToken_other_parts by (rewrite Hsplit; simpl; lia);
           reflexivity
         | discriminate ]).
  rewrite (verifyToken_three_parts env now token h pl sg Hsplit).
  destruct (String.eqb sg _); [|exists None; split; [reflexivity|discriminate]].
  unfold after_signature.
  destruct (JSON.parse _) as [decoded|] eqn:Hparse;
    [|exists None; split; [reflexivity|discriminate]].
  destruct (Coerce.Get decoded "exp") as [ex|];
    [|exists None; split; [reflexivity|discriminate]].
  destruct (Coerce.lessThan ex now) as [[|]|];
    try (exists None; split; [reflexivity|discriminate]).
  destruct (Coerce.Get decoded "sub") as [sub|] eqn:Hsub;
    [|exists None; split; [reflexivity|discriminate]].
  destruct (Coerce.Get decoded "openid") as [oid|] eqn:Hoid;
    [|exists None; split; [reflexivity|discriminate]].
  eexists. split; [reflexivity|].
  intros p [= <-]. split; [reflexivity|].
  exists decoded. repeat split; assumption.
Qed.

(** C3, as stated, fails at the boundary: a well-formed, correctly signed
    token whose [exp] is 1000 (and whose [iat] is 1000 as well) is accepted
    when the current time is 1000. *)
Lemma verifyToken_accepts_at_expiry :
  Spec.well_signed ∅ token_expiring_at_1000 = true
  /\ Spec.payload_of token_expiring_at_1000
     = Some (Value.JObj [("sub", Value.JStr "u1"); ("openid", Value.JStr "o1");
                         ("iat", Value.JNum (Value.int 1000));
                         ("exp", Value.JNum (Value.int 1000))])
  /\ 1000 >= 1000
  /\ Eff.outcome (Auth.verifyToken ∅ 1000 token_expiring_at_1000)
     = Eff.Ret (Some (Auth.mkTokenPayload (Value.JStr "u1") (Value.JStr "o1"))).
Proof. vm_compute. repeat split; try reflexivity. discriminate. Qed.

(** C3, amended: for a well-formed, correctly signed token whose payload
    carries an integer [exp], [verifyToken] fails exactly when the current
    time is strictly greater than [exp]; at [now = exp] the token is still
    accepted. *)
Theorem verifyToken_fails_iff_strictly_after_expiry
    (env : Node.env_t) (now : Z) (token : string)
    (decoded : Value.jsval) (exp : Z) :
  Spec.well_signed env token = true ->
  Spec.payload_of token = Some decoded ->
  Coerce.Get decoded "exp" = Eff.Ret (Value.JNum (Value.int exp)) ->
  (Eff.outcome (Auth.verifyToken env now token) = Eff.Ret None <-> exp < now).
Proof.
  unfold Spec.well_signed, Spec.payload_of.
  destruct (JS.split "." token) as [|h [|pl [|sg [|x rest]]]] eqn:Hsplit;
    try discriminate.
  intros Hsig Hpayload Hexp.
  rewrite (verifyToken_three_parts env now token h pl sg Hsplit), Hsig.
  unfold after_signature. rewrite Hpayload, Hexp.
  destruct (Get_defined decoded "exp" "sub" _ Hexp) as [sub ->].
  destruct (Get_defined decoded "exp" "openid" _ Hexp) as [oid ->].
  unfold Coerce.lessThan, Value.int. cbn [Coerce.ToNumber Value.lt_int].
  change (0 <=? 0) with true. cbn iota.
  rewrite Z.pow_0_r, Z.mul_1_r.
  destruct (Z.ltb_spec exp now) as [Hlt|Hge].
  - split; [intros _; exact Hlt|reflexivity].
  - split; [discriminate|lia].
Qed.

(** C3, amended, at the token expiring at 1000, read at 1001. *)
Lemma verifyToken_fails_iff_strictly_after_expiry_witness :
  Spec.well_signed ∅ token_expiring_at_1000 = true
  /\ Spec.payload_of token_expiring_at_1000
     = Some (Value.JObj [("sub", Value.JStr "u1"); ("openid", Value.JStr "o1");
                         ("iat", Value.JNum (Value.int 1000));
                         ("exp", Value.JNum (Value.int 1000))])
  /\ (Eff.outcome (Auth.verifyToken ∅ 1001 token_expiring_at_1000) = Eff.Ret None
      <-> 1000 < 1001).
Proof.
  split; [vm_compute; reflexivity|].
  split; [vm_compute; reflexivity|].
  apply (verifyToken_fails_iff_strictly_after_expiry ∅ 1001 token_expiring_at_1000
           (Value.JObj [("sub", Value.JStr "u1"); ("openid", Value.JStr "o1");
                        ("iat", Value.JNum (Value.int 1000));
                        ("exp", Value.JNum (Value.int 1000))]) 1000);
    vm_compute; reflexivity.
Defined.

(** ** The signing secret *)

(** The first call of a run on a three-part token is the HMAC under
    [JWT_SECRET]. *)
Lemma verifyToken_first_call (env : Node.env_t) (now : Z)
    (token header payload signature : string) :
  JS.split "." token = [header; payload; signature] ->
  exists rest,
    Eff.calls (Auth.verifyToken env now token)
    = Eff.HmacSha256 (Auth.JWT_SECRET env) (header +:+ "." +:+ payload) :: rest.
Proof.
  intros Hsplit. unfold Auth.verifyToken. rewrite Hsplit.
  cbn [List.length Nat.eqb negb nth].
  unfold Node.createHmac_sha256_base64.
  cbn [Eff.bind Eff.tell Eff.ret app].
  match goal with
  | |- context [Eff.try_catch (let '(l, r) := ?k in _) _] =>
      destruct k as [l [a|e]]
  end; simpl; eauto.
Qed.

(** C2, as stated, fails: with no [JWT_SECRET] in the environment the
    service runs; minting signs with the built-in text and verification
    accepts a token signed with it. *)
Lemma token_service_runs_on_built_in_secret :
  (∅ : Node.env_t) !! "JWT_SECRET" = None
  /\ Eff.calls (Part001.generateToken ∅ 1000 1000 "u1" "o1")
     = [Eff.HmacSha256 "default-secret-change-in-production"
          ("eyJhbGciOiJIUzI1NiIsInR5cCI6IkpXVCJ9"
           +:+ ".eyJzdWIiOiJ1MSIsIm9wZW5pZCI6Im8xIiwiaWF0IjoxMDAwLCJleHAiOjYwNDgwMTAwMH0=")]
  /\ Eff.outcome (Auth.verifyToken ∅ 1000 token_expiring_at_1000)
     = Eff.Ret (Some (Auth.mkTokenPayload (Value.JStr "u1") (Value.JStr "o1"))).
Proof. vm_compute. repeat split; reflexivity. Qed.

(** C2, amended: when [JWT_SECRET] is absent from the environment (or
    empty), the token service starts all the same and uses the built-in text
    [default-secret-change-in-production] as its key, in [src/lib/auth.ts]
    and in [src/unnamed/part_001] alike: minting signs with it, and
    verification of any three-part token recomputes the signature with it. *)
Theorem absent_secret_falls_back_to_built_in (env : Node.env_t) :
  env !! "JWT_SECRET" = None \/ env !! "JWT_SECRET" = Some EmptyString ->
  Auth.JWT_SECRET env = built_in_secret
  /\ Part001.JWT_SECRET env = built_in_secret
  /\ (forall now_iat now_exp userId openid,
        exists data,
          Eff.calls (Part001.generateToken env now_iat now_exp userId openid)
          = [Eff.HmacSha256 built_in_secret data])
  /\ (forall now token,
        List.length (JS.split "." token) = 3%nat ->
        exists data rest,
          Eff.calls (Auth.verifyToken env now token)
          = Eff.HmacSha256 built_in_secret data :: rest).
Proof.
  intros Habsent.
  assert (Hkey : Auth.JWT_SECRET env = built_in_secret).
  { unfold Auth.JWT_SECRET, Node.env_or. destruct Habsent as [-> | ->]; reflexivity. }
  split; [exact Hkey|]. split; [exact Hkey|]. split.
  - intros. eexists. rewrite part001_generateToken_eq.
    unfold Part001.JWT_SECRET. fold (Auth.JWT_SECRET env). rewrite Hkey. reflexivity.
  - intros now token Hlen.
    destruct (JS.split "." token) as [|h [|pl [|sg [|x rest]]]] eqn:Hsplit;
      try discriminate.
    destruct (verifyToken_first_call env now token h pl sg Hsplit) as [rest Hcalls].
    exists (h +:+ "." +:+ pl), rest. rewrite Hcalls, Hkey. reflexivity.
Qed.

(** C2, amended, at the empty environment. *)
Lemma absent_secret_falls_back_to_built_in_witness :
  ((∅ : Node.env_t) !! "JWT_SECRET" = None
   \/ (∅ : Node.env_t) !! "JWT_SECRET" = Some EmptyString)
  /\ Auth.JWT_SECRET ∅ = built_in_secret.
Proof.
  split.
  - left. reflexivity.
  - apply (absent_secret_falls_back_to_built_in ∅). left. reflexivity.
Defined.

(** ** The gateway middleware *)

Section Gateway.
Import Eff Http Middleware.

Variable getClientIP : NextRequest -> result string.
Variable checkRateLimit : string -> result LimitResult.

Lemma middleware_rate_limited (req : NextRequest) :
  rate_limited req = true ->
  middleware getClientIP checkRateLimit req
  = try_catch
      (let* clientIP := (run! tell GetClientIP in lift (getClientIP req)) in
       let* limitResult :=
         (run! tell (CheckRateLimit clientIP) in lift (checkRateLimit clientIP)) in
       if negb (success limitResult) then
         ret (rate_limit_headers limitResult
                (json (Value.JObj
                         [("error", Value.JStr (or_default (error limitResult) "请求太频繁"));
                          ("resetTime", Value.JNum (Value.int (resetTime limitResult)));
                          ("limit", Value.JNum (Value.int (limit limitResult)))])
                      429))
       else ret (rate_limit_headers limitResult next))
      (fun _ =>
         run! tell (ConsoleError "中间件错误:") in
         ret (json (Value.JObj [("error", Value.JStr "服务暂时不可用，请稍后重试")]) 503)).
Proof.
  unfold rate_limited, middleware. intros [Hua Hpath]%andb_prop.
  rewrite Hua, Hpath. reflexivity.
Qed.

Lemma rate_limit_headers_get (l : LimitResult) (r : NextResponse) :
  get_header (rate_limit_headers l r) "X-RateLimit-Limit" = Some (JS.Z_toString (limit l))
  /\ get_header (rate_limit_headers l r) "X-RateLimit-Remaining"
     = Some (JS.Z_toString (remaining l))
  /\ get_header (rate_limit_headers l r) "X-RateLimit-Reset"
     = Some (JS.Z_toString (resetTime l)).
Proof.
  unfold get_header, rate_limit_headers, set_header. cbn [response_headers].
  change (lower "X-RateLimit-Limit") with "x-ratelimit-limit".
  change (lower "X-RateLimit-Remaining") with "x-ratelimit-remaining".
  change (lower "X-RateLimit-Reset") with "x-ratelimit-reset".
  repeat split.
  - rewrite lookup_insert_ne by discriminate.
    rewrite lookup_insert_ne by discriminate.
    apply lookup_insert_eq.
  - rewrite lookup_insert_ne by discriminate.
    apply lookup_insert_eq.
  - apply lookup_insert_eq.
Qed.

End Gateway.

(** C5: on a rate-limited request, when [getClientIP] or the rate-limit
    check throws (the store round trip failed), the middleware answers 503
    and does not forward the request. *)
Theorem middleware_fails_closed
    (getClientIP : Http.NextRequest -> Eff.result string)
    (checkRateLimit : string -> Eff.result Middleware.LimitResult)
    (req : Http.NextRequest) :
  rate_limited req = true ->
  (exists e, getClientIP req = Eff.Throw e)
  \/ (exists ip e, getClientIP req = Eff.Ret ip /\ checkRateLimit ip = Eff.Throw e) ->
  exists response,
    Eff.outcome (Middleware.middleware getClientIP checkRateLimit req) = Eff.Ret response
    /\ Http.status_of response = Some 503
    /\ Http.forwarded response = false.
Proof.
  intros Hrl Hfail. rewrite (middleware_rate_limited _ _ _ Hrl).
  destruct Hfail as [[e Hip] | (ip & e & Hip & Hcheck)].
  - rewrite Hip. eexists. repeat split.
  - rewrite Hip. cbn [Eff.bind Eff.tell Eff.lift Eff.ret app].
    rewrite Hcheck. eexists. repeat split.
Qed.

(** C5 at a blessing request whose store refuses the connection. *)
Lemma middleware_fails_closed_witness :
  rate_limited blessing_request = true
  /\ exists response,
       Eff.outcome (Middleware.middleware
                      (fun _ => Eff.Ret "203.0.113.5")
                      (fun _ => Eff.Throw (Eff.Failure "ECONNREFUSED"))
                      blessing_request) = Eff.Ret response
       /\ Http.status_of response = Some 503
       /\ Http.forwarded response = false.
Proof.
  split; [vm_compute; reflexivity|].
  apply (middleware_fails_closed
           (fun _ => Eff.Ret "203.0.113.5")
           (fun _ => Eff.Throw (Eff.Failure "ECONNREFUSED"))
           blessing_request).
  - vm_compute. reflexivity.
  - right. exists "203.0.113.5", (Eff.Failure "ECONNREFUSED"). split; reflexivity.
Defined.

(** C9: on a rate-limited request on which the rate-limit check completes,
    the response carries [X-RateLimit-Limit], [X-RateLimit-Remaining] and
    [X-RateLimit-Reset] with the values of the check, whether the request is
    forwarded (check passed) or answered 429 (check failed). *)
Theorem middleware_surfaces_rate_limit_headers
    (getClientIP : Http.NextRequest -> Eff.result string)
    (checkRateLimit : string -> Eff.result Middleware.LimitResult)
    (req : Http.NextRequest) (ip : string) (l : Middleware.LimitResult) :
  rate_limited req = true ->
  getClientIP req = Eff.Ret ip ->
  checkRateLimit ip = Eff.Ret l ->
  exists response,
    Eff.outcome (Middleware.middleware getClientIP checkRateLimit req) = Eff.Ret response
    /\ Http.get_header response "X-RateLimit-Limit"
       = Some (JS.Z_toString (Middleware.limit l))
    /\ Http.get_header response "X-RateLimit-Remaining"
       = Some (JS.Z_toString (Middleware.remaining l))
    /\ Http.get_header response "X-RateLimit-Reset"
       = Some (JS.Z_toString (Middleware.resetTime l))
    /\ (if Middleware.success l
        then Http.forwarded response = true
        else Http.status_of response = Some 429).
Proof.
  intros Hrl Hip Hcheck. rewrite (middleware_rate_limited _ _ _ Hrl).
  rewrite Hip. cbn [Eff.bind Eff.tell Eff.lift Eff.ret app].
  rewrite Hcheck. cbn [Eff.bind Eff.tell Eff.lift Eff.ret app].
  destruct (Middleware.success l) eqn:Hs; cbn [negb];
    (eexists; split; [reflexivity|]);
    pose proof (rate_limit_headers_get l) as Hh.
  - destruct (Hh Http.next) as (H1 & H2 & H3). repeat split; assumption.
  - match goal with
    | |- context [rate_limit_headers l ?r] =>
        destruct (Hh r) as (H1 & H2 & H3)
    end.
    repeat split; assumption.
Qed.

(** C9 at a blessing request over the ceiling. *)
Lemma middleware_surfaces_rate_limit_headers_witness :
  rate_limited blessing_request = true
  /\ exists response,
       Eff.outcome (Middleware.middleware
                      (fun _ => Eff.Ret "203.0.113.5") (fun _ => Eff.Ret denied_result)
                      blessing_request) = Eff.Ret response
       /\ Http.get_header response "X-RateLimit-Limit" = Some "5"
       /\ Http.get_header response "X-RateLimit-Remaining" = Some "0"
       /\ Http.get_header response "X-RateLimit-Reset" = Some "1730000060000"
       /\ Http.status_of response = Some 429.
Proof.
  split; [vm_compute; reflexivity|].
  apply (middleware_surfaces_rate_limit_headers
           (fun _ => Eff.Ret "203.0.113.5") (fun _ => Eff.Ret denied_result)
           blessing_request "203.0.113.5" denied_result);
    [vm_compute; reflexivity | reflexivity | reflexivity].
Defined.

(** C7: a request whose [User-Agent] does not name the WeChat client is
    answered 403 by the middleware, whatever cookies, headers and path it
    carries, and the run makes no call: neither the rate limiter nor the
    token service is consulted. The route handler of
    [src/app/api/blessing/route.ts] repeats the check before it reads the
    token, with the same answer. *)
Theorem unsupported_client_is_forbidden_first
    (getClientIP : Http.NextRequest -> Eff.result string)
    (checkRateLimit : string -> Eff.result Middleware.LimitResult)
    (env : Node.env_t)
    (generate : Http.NextRequest -> Auth.TokenPayload -> Eff.M Http.NextResponse)
    (now : Z) (req : Http.NextRequest) :
  Middleware.isWeChatMiniProgram
    (Http.or_default (Http.header req "user-agent") EmptyString) = false ->
  (exists response,
     Middleware.middleware getClientIP checkRateLimit req = ([], Eff.Ret response)
     /\ Http.status_of response = Some 403
     /\ Http.forwarded response = false)
  /\ (exists response,
        BlessingRoute.POST env generate now req = ([], Eff.Ret response)
        /\ Http.status_of response = Some 403).
Proof.
  intros Hua. split.
  - unfold Middleware.middleware. rewrite Hua. cbn [negb].
    eexists. repeat split.
  - unfold BlessingRoute.POST.
    unfold Middleware.isWeChatMiniProgram in Hua. rewrite Hua. cbn [negb].
    eexists. repeat split.
Qed.

(** C7 at a desktop browser holding a valid token. *)
Lemma unsupported_client_is_forbidden_first_witness :
  Middleware.isWeChatMiniProgram
    (Http.or_default (Http.header browser_request "user-agent") EmptyString) = false
  /\ exists response,
       Middleware.middleware (fun _ => Eff.Ret "203.0.113.5")
         (fun _ => Eff.Ret allowed_result)
         browser_request = ([], Eff.Ret response)
       /\ Http.status_of response = Some 403
       /\ Http.forwarded response = false.
Proof.
  split; [vm_compute; reflexivity|].
  apply (unsupported_client_is_forbidden_first
           (fun _ => Eff.Ret "203.0.113.5")
           (fun _ => Eff.Ret allowed_result)
           ∅ (fun _ _ => Eff.ret Http.next) 1000 browser_request).
  vm_compute. reflexivity.
Defined.

(** ** Base64: decoding what was encoded *)

Section Base64RoundTrip.

Lemma below_forall (P : Z -> bool) (n : nat) :
  forallb P (below n) = true ->
  forall i, 0 <= i < Z.of_nat n -> P i = true.
Proof.
  intros Hall i Hi. rewrite forallb_forall in Hall. apply Hall.
  unfold below. apply in_map_iff. exists (Z.to_nat i). split; [lia|].
  apply in_seq. lia.
Qed.

Lemma sextet_checked (i : Z) : 0 <= i < 64 -> sextet_check i = true.
Proof. apply (below_forall sextet_check 64). vm_compute. reflexivity. Qed.

Lemma unbase64_enc (i : Z) : Base64.unbase64 (Base64.enc i) = Some (i mod 64).
Proof.
  assert (Hr : 0 <= i mod 64 < 64) by (apply Z.mod_pos_bound; lia).
  pose proof (sextet_checked _ Hr) as H. unfold sextet_check in H.
  assert (He : Base64.enc (i mod 64) = Base64.enc i).
  { unfold Base64.enc. rewrite Z.mod_mod by lia. reflexivity. }
  rewrite He in H. destruct (Base64.unbase64 (Base64.enc i)) as [v|]; [|discriminate].
  apply andb_prop in H as [Hv _]. apply Z.eqb_eq in Hv. congruence.
Qed.

Lemma enc_not_pad (i : Z) : Ascii.eqb (Base64.enc i) "=" = false.
Proof.
  assert (Hr : 0 <= i mod 64 < 64) by (apply Z.mod_pos_bound; lia).
  pose proof (sextet_checked _ Hr) as H. unfold sextet_check in H.
  assert (He : Base64.enc (i mod 64) = Base64.enc i).
  { unfold Base64.enc. rewrite Z.mod_mod by lia. reflexivity. }
  rewrite He in H. destruct (Base64.unbase64 (Base64.enc i)); [|discriminate].
  apply andb_prop in H as [_ Hp]. apply negb_true_iff in Hp. exact Hp.
Qed.

Lemma group_checked (a b : Z) :
  0 <= a < 256 -> 0 <= b < 256 -> group_check a b = true.
Proof.
  intros Ha Hb.
  assert (H : forallb (fun a => forallb (group_check a) (below 256)) (below 256) = true)
    by (vm_compute; reflexivity).
  pose proof (below_forall _ 256 H a Ha) as Hrow.
  exact (below_forall _ 256 Hrow b Hb).
Qed.

(** The sextets of a text are those of its URL-safe form put back. *)
Lemma sextets_pad (s : string) (k : nat) :
  Base64.sextets (s +:+ JS.repeat "=" k) = Base64.sextets s.
Proof.
  induction s as [|c s IH]; simpl.
  - destruct k; reflexivity.
  - rewrite IH. reflexivity.
Qed.

Lemma sextets_replace (c r : ascii) (s : string) :
  Ascii.eqb c "=" = false -> Ascii.eqb r "=" = false ->
  Base64.unbase64 c = Base64.unbase64 r ->
  Base64.sextets (JS.replaceAll c (String r EmptyString) s) = Base64.sextets s.
Proof.
  intros Hc Hr Hcr. induction s as [|a s IH]; simpl; [reflexivity|].
  destruct (Ascii.eqb a c) eqn:E.
  - apply Ascii.eqb_eq in E. subst a. simpl.
    change (EmptyString +:+ JS.replaceAll c (String r EmptyString) s)
      with (JS.replaceAll c (String r EmptyString) s).
    rewrite Hc, Hr, Hcr, IH. reflexivity.
  - simpl. rewrite IH. reflexivity.
Qed.

Lemma sextets_fromBase64Url (s : string) :
  Base64.sextets (Auth.fromBase64Url s) = Base64.sextets s.
Proof.
  unfold Auth.fromBase64Url. rewrite sextets_pad.
  rewrite (sextets_replace "_" "/") by reflexivity.
  apply (sextets_replace "-" "+"); reflexivity.
Qed.

(** One character of encoded text through the URL-safe conversion. *)
Lemma sextets_toUrlSafe_enc (i : Z) (s : string) :
  Base64.sextets (Auth.toUrlSafe (String (Base64.enc i) s))
  = i mod 64 :: Base64.sextets (Auth.toUrlSafe s).
Proof.
  pose proof (unbase64_enc i) as Hu. pose proof (enc_not_pad i) as Hp.
  unfold Auth.toUrlSafe. cbn [JS.replaceAll].
  destruct (Ascii.eqb (Base64.enc i) "+") eqn:Eplus.
  - apply Ascii.eqb_eq in Eplus. rewrite Eplus in Hu. injection Hu as <-. reflexivity.
  - cbn [JS.replaceAll]. destruct (Ascii.eqb (Base64.enc i) "/") eqn:Eslash.
    + apply Ascii.eqb_eq in Eslash. rewrite Eslash in Hu. injection Hu as <-. reflexivity.
    + cbn [JS.replaceAll]. rewrite Hp. cbn [Base64.sextets]. rewrite Hp, Hu. reflexivity.
Qed.

Lemma decode_encode_url_safe (l : list Z) :
  Forall (fun b => 0 <= b < 256) l ->
  Base64.bytes_of_sextets (Base64.sextets (Auth.toUrlSafe (Base64.encode l))) = l.
Proof.
  induction l as [|a|a b|a b c l IH] using list_ind3; intros Hl.
  - reflexivity.
  - apply Forall_cons_iff in Hl as [Ha _].
    cbn [Base64.encode]. rewrite !sextets_toUrlSafe_enc.
    change (Base64.sextets (Auth.toUrlSafe "==")) with (@nil Z).
    cbn [Base64.bytes_of_sextets].
    pose proof (group_checked a a Ha Ha) as H. unfold group_check in H.
    repeat (apply andb_prop in H as [H ?]).
    f_equal. apply Z.eqb_eq. assumption.
  - apply Forall_cons_iff in Hl as [Ha Hl]. apply Forall_cons_iff in Hl as [Hb _].
    cbn [Base64.encode]. rewrite !sextets_toUrlSafe_enc.
    change (Base64.sextets (Auth.toUrlSafe "=")) with (@nil Z).
    cbn [Base64.bytes_of_sextets].
    pose proof (group_checked a b Ha Hb) as H. unfold group_check in H.
    repeat (apply andb_prop in H as [H ?]).
    pose proof (group_checked b b Hb Hb) as H'. unfold group_check in H'.
    repeat (apply andb_prop in H' as [H' ?]).
    repeat match goal with E : (_ =? _) = true |- _ => apply Z.eqb_eq in E end.
    f_equal; [assumption|]. f_equal. congruence.
  - apply Forall_cons_iff in Hl as [Ha Hl]. apply Forall_cons_iff in Hl as [Hb Hl].
    apply Forall_cons_iff in Hl as [Hc Hl].
    cbn [Base64.encode]. rewrite !sextets_toUrlSafe_enc.
    cbn [Base64.bytes_of_sextets]. rewrite (IH Hl).
    pose proof (group_checked a b Ha Hb) as H. unfold group_check in H.
    repeat (apply andb_prop in H as [H ?]).
    pose proof (group_checked b c Hb Hc) as H'. unfold group_check in H'.
    repeat (apply andb_prop in H' as [H' ?]).
    repeat match goal with E : (_ =? _) = true |- _ => apply Z.eqb_eq in E end.
    f_equal; [assumption|]. f_equal; [congruence|]. f_equal. assumption.
Qed.

Lemma code_range (c : ascii) : 0 <= JS.code c < 256.
Proof.
  unfold JS.code. pose proof (N_ascii_bounded c). lia.
Qed.

Lemma bytes_of_string_range (s : string) :
  Forall (fun b => 0 <= b < 256) (JS.bytes_of_string s).
Proof.
  unfold JS.bytes_of_string. apply Forall_map, Forall_forall.
  intros c _. apply code_range.
Qed.

(** The payload section decodes to the text it was made from. *)
Lemma decode_toBase64Url (text : string) :
  Base64.decode (Auth.fromBase64Url (LoginRoute.toBase64Url text))
  = JS.bytes_of_string text.
Proof.
  unfold Base64.decode. rewrite sextets_fromBase64Url.
  apply (decode_encode_url_safe (JS.bytes_of_string text)), bytes_of_string_range.
Qed.

End Base64RoundTrip.

(** ** Strings and their bytes *)

Section StringBytes.

Lemma string_app_assoc (a b c : string) : (a +:+ b) +:+ c = a +:+ (b +:+ c).
Proof.
  induction a as [|x a IH]; [reflexivity|].
  change (String x ((a +:+ b) +:+ c) = String x (a +:+ (b +:+ c))).
  rewrite IH. reflexivity.
Qed.

Lemma string_app_nil_r (a : string) : a +:+ EmptyString = a.
Proof.
  induction a as [|x a IH]; [reflexivity|].
  change (String x (a +:+ EmptyString) = String x a).
  rewrite IH. reflexivity.
Qed.

Lemma chr_code (c : ascii) : JS.chr (JS.code c) = c.
Proof.
  unfold JS.chr. rewrite Z.mod_small by apply code_range.
  unfold JS.code. rewrite N2Z.id. apply ascii_N_embedding.
Qed.

Lemma string_of_bytes_of_string (s : string) :
  JS.string_of_bytes (JS.bytes_of_string s) = s.
Proof.
  unfold JS.string_of_bytes, JS.bytes_of_string. rewrite map_map.
  rewrite (map_ext _ (fun c => c)) by apply chr_code.
  rewrite map_id. apply string_of_list_ascii_of_string.
Qed.

Lemma join_surrogates_other (b : Z) (l : list Z) :
  b <> 237 -> Utf8.join_surrogates (b :: l) = b :: Utf8.join_surrogates l.
Proof.
  intros Hb. apply Z.eqb_neq in Hb.
  destruct l as [|a1 [|a2 [|b' [|c1 [|c2 rest]]]]]; try reflexivity.
  cbn [Utf8.join_surrogates]. rewrite Hb. reflexivity.
Qed.

End StringBytes.

(** ** Well-formed UTF-8 through [Buffer] and back *)

Section WellFormedText.

Lemma bytes_of_string_app (a b : string) :
  JS.bytes_of_string (a +:+ b) = JS.bytes_of_string a ++ JS.bytes_of_string b.
Proof.
  induction a as [|c a IH]; [reflexivity|].
  change (JS.bytes_of_string (String c a +:+ b))
    with (JS.code c :: JS.bytes_of_string (a +:+ b)).
  rewrite IH. reflexivity.
Qed.

(** What a lead byte starts. *)
Lemma start_cases (b : Z) :
  (b <= 127 /\ Utf8.start b = ([b], Utf8.Idle))
  \/ (exists n lower upper,
        Utf8.start b = ([], Utf8.Pending [b] n lower upper)
        /\ 194 <= b /\ 128 <= lower /\ upper <= 191
        /\ (b = 237 -> upper = 159))
  \/ (127 < b /\ Utf8.start b = (Utf8.replacement, Utf8.Idle)).
Proof.
  unfold Utf8.start.
  repeat match goal with
         | |- context [if ?c then _ else _] =>
             let E := fresh "E" in destruct c eqn:E
         end;
    repeat match goal with
           | H : (_ && _) = true |- _ => apply andb_prop in H as [? ?]
           | H : (_ <=? _) = true |- _ => apply Z.leb_le in H
           | H : (_ <=? _) = false |- _ => apply Z.leb_gt in H
           | H : (_ =? _) = true |- _ => apply Z.eqb_eq in H
           | H : (_ =? _) = false |- _ => apply Z.eqb_neq in H
           end;
    try (left; split; [lia|reflexivity]);
    try (right; left; eexists _, _, _; split; [reflexivity|]; lia);
    right; right; split; [lia|reflexivity].
Qed.

Lemma step_good (st : Utf8.state) (b : Z) :
  good_state st -> good_state (snd (Utf8.step st b)).
Proof.
  intros Hst. destruct st as [|seen needed lower upper]; cbn [Utf8.step].
  - destruct (start_cases b) as [[_ ->] | [(n & lo & hi & -> & H) | [_ ->]]];
      cbn; try exact I. lia.
  - destruct ((lower <=? b) && (b <=? upper)).
    + destruct needed as [|[|n]]; cbn; try exact I. lia.
    + destruct (start_cases b) as [[_ E] | [(n & lo & hi & E & H) | [_ E]]];
        rewrite E; cbn; try exact I. lia.
Qed.

(** On well-formed bytes the decoder writes what it reads. *)
Lemma run_well_formed (l : list Z) (st : Utf8.state) :
  well_formed_from st l = true -> Utf8.run st l = pending_bytes st ++ l.
Proof.
  revert st. induction l as [|b l IH]; intros st.
  - destruct st; [reflexivity|discriminate].
  - cbn [well_formed_from Utf8.run]. intros [Hb Hl]%andb_prop.
    specialize (IH _ Hl). revert Hb IH.
    destruct st as [|seen needed lower upper]; cbn [clean Utf8.step pending_bytes].
    + destruct (start_cases b) as [[_ E] | [(n & lo & hi & E & H) | [Hgt E]]];
        rewrite E; cbn [fst snd pending_bytes].
      * intros _ ->. reflexivity.
      * intros _ ->. reflexivity.
      * intros [_ H]%andb_prop. apply orb_prop in H as [H|H]; [|discriminate].
        apply Z.leb_le in H. lia.
    + intros ->. destruct needed as [|[|n]]; cbn [fst snd pending_bytes];
        intros ->; rewrite <- ?app_assoc; reflexivity.
Qed.

Lemma toString_well_formed (s : string) :
  well_formed s = true -> Utf8.toString (Utf8.fromString s) = s.
Proof.
  intros Hs. unfold Utf8.toString, Utf8.fromString.
  rewrite (run_well_formed _ _ Hs). apply string_of_bytes_of_string.
Qed.

(** The lead byte [0xED] of well-formed bytes is never followed by the
    second byte of a surrogate. *)
Lemma join_surrogates_ED (a1 : Z) (l : list Z) :
  a1 <= 159 ->
  Utf8.join_surrogates (237 :: a1 :: l) = 237 :: Utf8.join_surrogates (a1 :: l).
Proof.
  intros Ha. destruct l as [|a2 [|b' [|c1 [|c2 rest]]]]; try reflexivity.
  cbn [Utf8.join_surrogates].
  destruct (Z.leb_spec 160 a1); [lia|]. reflexivity.
Qed.

Lemma join_surrogates_well_formed (l : list Z) (st : Utf8.state) :
  good_state st -> well_formed_from st l = true -> Utf8.join_surrogates l = l.
Proof.
  revert st. induction l as [|b l IH]; intros st Hst; [reflexivity|].
  cbn [well_formed_from]. intros [Hb Hl]%andb_prop.
  pose proof (IH _ (step_good st b Hst) Hl) as IHl.
  destruct (Z.eq_dec b 237) as [->|Hne].
  - destruct st as [|seen needed lower upper].
    + cbn [Utf8.step] in Hl.
      change (snd (Utf8.start 237)) with (Utf8.Pending [237] 2 128 159) in Hl.
      destruct l as [|a1 l]; [discriminate|].
      cbn [well_formed_from clean] in Hl.
      apply andb_prop in Hl as [Ha1 _]. apply andb_prop in Ha1 as [_ Ha1].
      apply Z.leb_le in Ha1.
      rewrite (join_surrogates_ED a1 l Ha1), IHl. reflexivity.
    + cbn [clean] in Hb. cbn [good_state] in Hst.
      apply andb_prop in Hb as [_ Hb]. apply Z.leb_le in Hb. lia.
  - rewrite (join_surrogates_other b l Hne), IHl. reflexivity.
Qed.

(** Bytes below [0x80] leave the decoder where it was, between
    characters. *)
Lemma well_formed_ascii_prefix (a : string) (l : list Z) :
  is_ascii a = true ->
  well_formed_from Utf8.Idle (JS.bytes_of_string a ++ l) = well_formed_from Utf8.Idle l.
Proof.
  induction a as [|c a IH]; [reflexivity|].
  intros [Hc Ha]%andb_prop. apply Z.ltb_lt in Hc.
  change (JS.bytes_of_string (String c a)) with (JS.code c :: JS.bytes_of_string a).
  cbn [app well_formed_from clean Utf8.step].
  pose proof (code_range c) as Hr.
  destruct (start_cases (JS.code c)) as [[_ E] | [(n & lo & hi & E & H) | [Hgt E]]];
    [|lia|lia].
  rewrite E. cbn [snd].
  destruct (Z.leb_spec 0 (JS.code c)); [|lia].
  destruct (Z.leb_spec (JS.code c) 127); [|lia].
  cbn [andb orb]. apply IH, Ha.
Qed.

Lemma is_ascii_well_formed (s : string) : is_ascii s = true -> well_formed s = true.
Proof.
  intros Hs. unfold well_formed.
  rewrite <- (app_nil_r (JS.bytes_of_string s)).
  rewrite (well_formed_ascii_prefix s [] Hs). reflexivity.
Qed.

Lemma well_formed_app (a b : list Z) (st : Utf8.state) :
  well_formed_from st a = true ->
  well_formed_from st (a ++ b) = well_formed_from Utf8.Idle b.
Proof.
  revert st. induction a as [|x a IH]; intros st.
  - destruct st; [reflexivity|discriminate].
  - cbn [app well_formed_from]. intros [Hx Ha]%andb_prop.
    rewrite Hx, (IH _ Ha). reflexivity.
Qed.

Lemma quote_char_ascii (c : ascii) :
  (JS.code c <? 128) = true -> is_ascii (JSON.quote_char c) = true.
Proof.
  destruct c as [[] [] [] [] [] [] [] []]; try discriminate; reflexivity.
Qed.

Lemma quote_char_above (c : ascii) :
  128 <= JS.code c -> JSON.quote_char c = String c EmptyString.
Proof.
  destruct c as [[] [] [] [] [] [] [] []]; try reflexivity;
    intros H; vm_compute in H; exfalso; apply H; reflexivity.
Qed.

(** Escaping keeps the bytes well formed: it rewrites characters below
    [0x80] into characters below [0x80] and leaves the others alone. *)
Lemma quote_body_well_formed (s : string) (st : Utf8.state) :
  good_state st ->
  well_formed_from st (JS.bytes_of_string s) = true ->
  well_formed_from st (JS.bytes_of_string (JSON.quote_body s)) = true.
Proof.
  revert st. induction s as [|c s IH]; intros st Hst; [intros H; exact H|].
  change (JS.bytes_of_string (String c s)) with (JS.code c :: JS.bytes_of_string s).
  change (JSON.quote_body (String c s)) with (JSON.quote_char c +:+ JSON.quote_body s).
  rewrite bytes_of_string_app.
  cbn [well_formed_from]. intros [Hc Hs]%andb_prop.
  pose proof (IH _ (step_good st _ Hst) Hs) as IHs.
  destruct (Z.lt_ge_cases (JS.code c) 128) as [Hlow|Hhigh].
  - destruct st as [|seen needed lower upper].
    + assert (Hq : is_ascii (JSON.quote_char c) = true)
        by (apply quote_char_ascii, Z.ltb_lt, Hlow).
      rewrite (well_formed_ascii_prefix _ _ Hq).
      cbn [Utf8.step] in IHs.
      destruct (start_cases (JS.code c)) as [[_ E] | [(n & lo & hi & E & H) | [Hgt E]]];
        [|lia|lia].
      rewrite E in IHs. exact IHs.
    + cbn [clean] in Hc. cbn [good_state] in Hst.
      apply andb_prop in Hc as [Hc _]. apply Z.leb_le in Hc. lia.
  - rewrite (quote_char_above c Hhigh).
    change (JS.bytes_of_string (String c EmptyString)) with [JS.code c].
    cbn [app well_formed_from]. rewrite Hc, IHs. reflexivity.
Qed.

Lemma quote_well_formed (s : string) :
  well_formed s = true -> well_formed (JSON.quote s) = true.
Proof.
  intros Hs. unfold well_formed, JSON.quote.
  change (String JS.dquote (JSON.quote_body s) +:+ String JS.dquote EmptyString)
    with (String JS.dquote EmptyString
          +:+ (JSON.quote_body s +:+ String JS.dquote EmptyString)).
  rewrite !bytes_of_string_app.
  rewrite well_formed_ascii_prefix by reflexivity.
  rewrite well_formed_app by (apply quote_body_well_formed; [exact I|exact Hs]).
  reflexivity.
Qed.

Lemma well_formed_string_app (a b : string) :
  well_formed a = true -> well_formed (a +:+ b) = well_formed b.
Proof.
  intros Ha. unfold well_formed. rewrite bytes_of_string_app.
  apply well_formed_app, Ha.
Qed.

End WellFormedText.

(** ** Lexing what [JSON.stringify] wrote *)

Section Lexing.
Import JSON.

Lemma option_map_app_nil {A : Type} (o : option (list A)) :
  option_map (app []) o = o.
Proof. destruct o; reflexivity. Qed.

(** One step of the lexer on a known character. *)
Ltac lex_char :=
  match goal with
  | |- context [lex ?m (String ?c ?s)] =>
      change (lex m (String c s))
        with (match lex_step m c with
              | None => None
              | Some (ts, m') => option_map (app ts) (lex m' s)
              end);
      let r := eval cbv in (lex_step m c) in
      change (lex_step m c) with r;
      cbv beta iota
  end.

(** An escaped character reads back as the character. *)
Lemma lex_quote_char (c : ascii) (acc : list Z) (tail : string) :
  lex (InStr acc) (quote_char c +:+ tail) = lex (InStr (JS.code c :: acc)) tail.
Proof.
  destruct c as [[] [] [] [] [] [] [] []];
    match goal with
    | |- context [quote_char ?c] =>
        let q := eval vm_compute in (quote_char c) in
        change (quote_char c) with q;
        let n := eval vm_compute in (JS.code c) in
        change (JS.code c) with n
    end;
    cbv beta iota delta [String.append];
    repeat (lex_char; rewrite ?option_map_app_nil);
    reflexivity.
Qed.

Lemma lex_quote_body (s : string) (acc : list Z) (tail : string) :
  lex (InStr acc) (quote_body s +:+ tail)
  = lex (InStr (rev (JS.bytes_of_string s) ++ acc)) tail.
Proof.
  revert acc. induction s as [|c s IH]; intros acc; [reflexivity|].
  change (quote_body (String c s)) with (quote_char c +:+ quote_body s).
  rewrite string_app_assoc, lex_quote_char, IH.
  change (JS.bytes_of_string (String c s)) with (JS.code c :: JS.bytes_of_string s).
  cbn [rev]. rewrite <- app_assoc. reflexivity.
Qed.

(** A quoted well-formed string is one string token. *)
Lemma lex_quoted (s rest : string) :
  well_formed s = true ->
  lex Idle (quote s +:+ rest) = option_map (cons (TString s)) (lex Idle rest).
Proof.
  intros Hs. unfold quote.
  change (String JS.dquote (quote_body s) +:+ String JS.dquote EmptyString)
    with (String JS.dquote (quote_body s +:+ String JS.dquote EmptyString)).
  change (String JS.dquote (quote_body s +:+ String JS.dquote EmptyString) +:+ rest)
    with (String JS.dquote ((quote_body s +:+ String JS.dquote EmptyString) +:+ rest)).
  rewrite string_app_assoc.
  change (String JS.dquote EmptyString +:+ rest) with (String JS.dquote rest).
  lex_char. rewrite option_map_app_nil, lex_quote_body.
  change (lex (InStr (rev (JS.bytes_of_string s) ++ [])) (String JS.dquote rest))
    with (option_map (app [string_token (rev (JS.bytes_of_string s) ++ [])])
            (lex Idle rest)).
  unfold string_token. rewrite app_nil_r, rev_involutive.
  rewrite (join_surrogates_well_formed _ Utf8.Idle I Hs), string_of_bytes_of_string.
  reflexivity.
Qed.

Lemma lex_punctuation (rest : string) :
  lex Idle ("{" +:+ rest) = option_map (cons TLBrace) (lex Idle rest)
  /\ lex Idle ("}" +:+ rest) = option_map (cons TRBrace) (lex Idle rest)
  /\ lex Idle (":" +:+ rest) = option_map (cons TColon) (lex Idle rest)
  /\ lex Idle ("," +:+ rest) = option_map (cons TComma) (lex Idle rest).
Proof. repeat split. Qed.

(** *** Decimal digits *)

Lemma digit_checked (r : Z) :
  0 <= r < 10 ->
  Scan.is_digit (JS.chr (48 + r)) = true
  /\ Scan.digit_value (JS.chr (48 + r)) = r
  /\ (1 <= r -> Ascii.eqb (JS.chr (48 + r)) "0" = false).
Proof.
  intros Hr.
  assert (H : forallb (fun r => Scan.is_digit (JS.chr (48 + r))
                                && (Scan.digit_value (JS.chr (48 + r)) =? r)
                                && ((r <? 1) || negb (Ascii.eqb (JS.chr (48 + r)) "0")))
                      (below 10) = true) by (vm_compute; reflexivity).
  pose proof (below_forall _ 10 H r Hr) as Hc. cbv beta in Hc.
  apply andb_prop in Hc as [Hc H3]. apply andb_prop in Hc as [H1 H2].
  apply Z.eqb_eq in H2. repeat split; try assumption.
  intros Hge. destruct (Z.ltb_spec r 1); [lia|].
  apply negb_true_iff. exact H3.
Qed.

Lemma digits_pos_all_digits (fuel : nat) (n : Z) (acc : string) :
  all_chars Scan.is_digit acc = true ->
  all_chars Scan.is_digit (JS.digits_pos fuel n acc) = true.
Proof.
  revert n acc. induction fuel as [|fuel IH]; intros n acc Hacc; [exact Hacc|].
  cbn [JS.digits_pos].
  assert (Hd : all_chars Scan.is_digit (String (JS.chr (48 + n mod 10)) acc) = true).
  { cbn [all_chars]. rewrite Hacc.
    destruct (digit_checked (n mod 10)) as [-> _]; [apply Z.mod_pos_bound; lia|].
    reflexivity. }
  destruct (n <? 10); [exact Hd|]. apply IH, Hd.
Qed.

(** The digits written for [n] in front of [acc] read as [n] followed by
    [acc]. *)
Lemma digits_pos_value (fuel : nat) (n : Z) (acc : string) :
  0 <= n < 2 ^ Z.of_nat fuel ->
  Scan.value_from 10 0 (JS.digits_pos fuel n acc) = Scan.value_from 10 n acc.
Proof.
  revert n acc. induction fuel as [|fuel IH]; intros n acc Hn.
  - change (2 ^ Z.of_nat 0) with 1 in Hn. assert (n = 0) as -> by lia. reflexivity.
  - cbn [JS.digits_pos].
    assert (Hmod : 0 <= n mod 10 < 10) by (apply Z.mod_pos_bound; lia).
    destruct (digit_checked (n mod 10) Hmod) as (_ & Hv & _).
    destruct (Z.ltb_spec n 10) as [Hlt|Hge].
    + cbn [Scan.value_from]. rewrite Hv, Z.mod_small by lia.
      f_equal; lia.
    + rewrite IH.
      * cbn [Scan.value_from]. rewrite Hv. f_equal.
        pose proof (Z.div_mod n 10). lia.
      * rewrite Nat2Z.inj_succ, Z.pow_succ_r in Hn by lia.
        split; [apply Z.div_pos; lia|].
        apply Z.div_lt_upper_bound; lia.
Qed.

(** Above zero the first digit written is not [0]. *)
Lemma digits_pos_lead (fuel : nat) (n : Z) (acc : string) :
  1 <= n < 2 ^ Z.of_nat fuel ->
  exists c rest,
    JS.digits_pos fuel n acc = String c rest
    /\ Scan.is_digit c = true /\ Ascii.eqb c "0" = false.
Proof.
  revert n acc. induction fuel as [|fuel IH]; intros n acc Hn.
  - change (2 ^ Z.of_nat 0) with 1 in Hn. lia.
  - cbn [JS.digits_pos].
    destruct (Z.ltb_spec n 10) as [Hlt|Hge].
    + exists (JS.chr (48 + n mod 10)), acc.
      destruct (digit_checked (n mod 10)) as (H1 & _ & H3);
        [apply Z.mod_pos_bound; lia|].
      repeat split; [exact H1|]. apply H3. rewrite Z.mod_small; lia.
    + apply IH.
      rewrite Nat2Z.inj_succ, Z.pow_succ_r in Hn by lia.
      split; [apply Z.div_le_lower_bound; lia|].
      apply Z.div_lt_upper_bound; lia.
Qed.

Lemma fuel_suffices (n : Z) :
  0 <= n -> n < 2 ^ Z.of_nat (Z.to_nat (Z.log2 n) + 1).
Proof.
  intros Hn. rewrite Nat2Z.inj_add, Z2Nat.id by apply Z.log2_nonneg.
  change (Z.of_nat 1) with 1.
  destruct (Z.eq_dec n 0) as [->|Hne]; [reflexivity|].
  apply Z.log2_spec. lia.
Qed.

Lemma span_all (p : ascii -> bool) (s : string) :
  all_chars p s = true -> Scan.span p s = (s, EmptyString).
Proof.
  induction s as [|c s IH]; [reflexivity|].
  intros [Hc Hs]%andb_prop. cbn [Scan.span]. rewrite Hc, (IH Hs). reflexivity.
Qed.

Lemma digit_lead_facts (c : ascii) (s : string) :
  Scan.is_digit c = true ->
  split_minus (String c s) = (false, String c s)
  /\ (Ascii.eqb c "0" = false -> int_part_ok (String c s) = true)
  /\ idle_step c = Some ([], InNum [c])
  /\ is_num_char c = true.
Proof.
  destruct c as [[] [] [] [] [] [] [] []]; try discriminate; intros _;
    repeat split; try reflexivity; discriminate.
Qed.

(** The text of a natural number is a JSON number denoting it. *)
Lemma number_of_text_Z_toString (n : Z) :
  0 <= n -> number_of_text (JS.Z_toString n) = Some (Value.Dec n 0).
Proof.
  intros Hn. unfold JS.Z_toString.
  destruct (Z.ltb_spec n 0) as [Hneg|_]; [lia|].
  set (fuel := (Z.to_nat (Z.log2 n) + 1)%nat).
  pose proof (fuel_suffices n Hn) as Hfuel. fold fuel in Hfuel.
  pose proof (digits_pos_all_digits fuel n EmptyString eq_refl) as Hdigits.
  pose proof (digits_pos_value fuel n EmptyString (conj Hn Hfuel)) as Hvalue.
  assert (Hok : exists c rest, JS.digits_pos fuel n EmptyString = String c rest
                               /\ Scan.is_digit c = true
                               /\ int_part_ok (String c rest) = true).
  { destruct (Z.eq_dec n 0) as [->|Hne].
    - exists "0"%char, EmptyString. repeat split.
    - destruct (digits_pos_lead fuel n EmptyString) as (c & rest & E & Hd & Hz); [lia|].
      exists c, rest. repeat split; try assumption.
      apply (digit_lead_facts c rest Hd), Hz. }
  destruct Hok as (c & rest & E & Hd & Hint).
  rewrite E in *. unfold number_of_text.
  destruct (digit_lead_facts c rest Hd) as (-> & _).
  unfold Scan.scan_decimal. rewrite (span_all _ _ Hdigits).
  cbn [Scan.scan_exp Scan.d_int Scan.d_dot Scan.d_frac Scan.d_exp Scan.d_rest
       Scan.exp_ok Scan.nonempty negb orb andb].
  rewrite Hint. cbn [andb]. unfold Scan.decimal_number.
  cbn [Scan.d_int Scan.d_frac Scan.d_exp String.length].
  rewrite string_app_nil_r. unfold Scan.value. rewrite Hvalue.
  reflexivity.
Qed.

Lemma lex_digits (ds : string) (acc : list ascii) (tail : string) :
  all_chars Scan.is_digit ds = true ->
  lex (InNum acc) (ds +:+ tail)
  = lex (InNum (rev (list_ascii_of_string ds) ++ acc)) tail.
Proof.
  revert acc. induction ds as [|c ds IH]; intros acc; [reflexivity|].
  intros [Hc Hds]%andb_prop.
  change (String c ds +:+ tail) with (String c (ds +:+ tail)).
  change (lex (InNum acc) (String c (ds +:+ tail)))
    with (match lex_step (InNum acc) c with
          | None => None
          | Some (ts, m') => option_map (app ts) (lex m' (ds +:+ tail))
          end).
  cbn [lex_step]. destruct (digit_lead_facts c EmptyString Hc) as (_ & _ & _ & ->).
  rewrite option_map_app_nil, (IH _ Hds).
  cbn [list_ascii_of_string rev]. rewrite <- app_assoc. reflexivity.
Qed.

(** A natural number followed by a comma or a closing brace. *)
Lemma lex_number (n : Z) (rest : string) :
  0 <= n ->
  lex Idle (JS.Z_toString n +:+ "," +:+ rest)
  = option_map (fun ts => TNumber (Value.Dec n 0) :: TComma :: ts) (lex Idle rest)
  /\ lex Idle (JS.Z_toString n +:+ "}" +:+ rest)
     = option_map (fun ts => TNumber (Value.Dec n 0) :: TRBrace :: ts) (lex Idle rest).
Proof.
  intros Hn. pose proof (number_of_text_Z_toString n Hn) as Hnum.
  assert (Hdigits : all_chars Scan.is_digit (JS.Z_toString n) = true).
  { unfold JS.Z_toString. destruct (Z.ltb_spec n 0); [lia|].
    apply digits_pos_all_digits. reflexivity. }
  destruct (JS.Z_toString n) as [|c ds] eqn:E; [discriminate|].
  apply andb_prop in Hdigits as [Hc Hds].
  destruct (digit_lead_facts c ds Hc) as (_ & _ & Hidle & _).
  assert (Htext : text_of (rev (list_ascii_of_string ds) ++ [c]) = String c ds).
  { unfold text_of. rewrite rev_app_distr, rev_involutive.
    cbn [rev app string_of_list_ascii]. rewrite string_of_list_ascii_of_string.
    reflexivity. }
  split.
  - change (String c ds +:+ "," +:+ rest) with (String c (ds +:+ String "," rest)).
    change (lex Idle (String c (ds +:+ String "," rest)))
      with (match lex_step Idle c with
            | None => None
            | Some (ts, m') => option_map (app ts) (lex m' (ds +:+ String "," rest))
            end).
    cbn [lex_step]. rewrite Hidle, option_map_app_nil, (lex_digits _ _ _ Hds).
    change (lex (InNum (rev (list_ascii_of_string ds) ++ [c])) (String "," rest))
      with (match close_run (option_map TNumber
                     (number_of_text (text_of (rev (list_ascii_of_string ds) ++ [c]))))
                   ","
            with
            | None => None
            | Some (ts, m') => option_map (app ts) (lex m' rest)
            end).
    rewrite Htext, Hnum. cbn [option_map close_run].
    change (idle_step ",") with (Some ([TComma], Idle)).
    cbv beta iota. destruct (lex Idle rest); reflexivity.
  - change (String c ds +:+ "}" +:+ rest) with (String c (ds +:+ String "}" rest)).
    change (lex Idle (String c (ds +:+ String "}" rest)))
      with (match lex_step Idle c with
            | None => None
            | Some (ts, m') => option_map (app ts) (lex m' (ds +:+ String "}" rest))
            end).
    cbn [lex_step]. rewrite Hidle, option_map_app_nil, (lex_digits _ _ _ Hds).
    change (lex (InNum (rev (list_ascii_of_string ds) ++ [c])) (String "}" rest))
      with (match close_run (option_map TNumber
                     (number_of_text (text_of (rev (list_ascii_of_string ds) ++ [c]))))
                   "}"
            with
            | None => None
            | Some (ts, m') => option_map (app ts) (lex m' rest)
            end).
    rewrite Htext, Hnum. cbn [option_map close_run].
    change (idle_step "}") with (Some ([TRBrace], Idle)).
    cbv beta iota. destruct (lex Idle rest); reflexivity.
Qed.

End Lexing.

(** ** The login route: minting, then verifying *)

Section LoginRoundTrip.
Import Value Eff.

Variable env : Node.env_t.
Variables now_iat now_exp : Z.
Variables userId openid : string.

Lemma toUrlSafe_encode_url_safe (l : list Z) :
  all_chars url_safe (Auth.toUrlSafe (Base64.encode l)) = true.
Proof.
  unfold Auth.toUrlSafe.
  apply replaceAll_all_chars; [reflexivity|].
  apply replaceAll_all_chars; [reflexivity|].
  apply replaceAll_all_chars; [reflexivity|].
  apply encode_all_chars; reflexivity.
Qed.

Lemma url_safe_no_dot (s : string) :
  all_chars url_safe s = true -> all_chars (is_not ".") s = true.
Proof.
  apply all_chars_weaken. intros c.
  destruct c as [[] [] [] [] [] [] [] []]; try discriminate; reflexivity.
Qed.

Lemma login_generateToken_eq :
  LoginRoute.generateToken env now_iat now_exp userId openid
  = ([HmacSha256 (Auth.JWT_SECRET env)
        (login_header +:+ "." +:+ login_payload now_iat now_exp userId openid)],
     Ret (login_header
          +:+ "." +:+ login_payload now_iat now_exp userId openid
          +:+ "." +:+ login_signature env now_iat now_exp userId openid)).
Proof.
  cbv beta iota zeta delta
    [LoginRoute.generateToken Node.createHmac_sha256_base64 bind tell ret app
     login_header login_payload login_signature expected_signature
     Auth.JWT_SECRET Auth.toUrlSafe payload_text].
  reflexivity.
Qed.

Lemma login_split :
  JS.split "." (login_header
                +:+ "." +:+ login_payload now_iat now_exp userId openid
                +:+ "." +:+ login_signature env now_iat now_exp userId openid)
  = [login_header;
     login_payload now_iat now_exp userId openid;
     login_signature env now_iat now_exp userId openid].
Proof.
  change (JS.split "."
            (login_header
             +:+ String "." (login_payload now_iat now_exp userId openid
                             +:+ String "." (login_signature env now_iat now_exp
                                               userId openid)))
          = [login_header;
             login_payload now_iat now_exp userId openid;
             login_signature env now_iat now_exp userId openid]).
  apply split_three; apply url_safe_no_dot, toUrlSafe_encode_url_safe.
Qed.

Lemma payload_text_eq :
  payload_text now_iat (now_exp + LoginRoute.seven_days) userId openid
  = "{" +:+ JSON.quote "sub" +:+ ":" +:+ JSON.quote userId
    +:+ "," +:+ JSON.quote "openid" +:+ ":" +:+ JSON.quote openid
    +:+ "," +:+ JSON.quote "iat" +:+ ":" +:+ JS.Z_toString now_iat
    +:+ "," +:+ JSON.quote "exp" +:+ ":"
    +:+ JS.Z_toString (now_exp + LoginRoute.seven_days) +:+ "}".
Proof.
  unfold payload_text, JSON.stringify, Value.int.
  cbn [JSON.stringify_opt flat_map fst snd app JSON.join JSON.number_text default].
  rewrite !string_app_assoc. reflexivity.
Qed.

Lemma Z_toString_ascii (n : Z) : 0 <= n -> is_ascii (JS.Z_toString n) = true.
Proof.
  intros Hn. unfold JS.Z_toString. destruct (Z.ltb_spec n 0); [lia|].
  apply (all_chars_weaken Scan.is_digit).
  - intros c. destruct c as [[] [] [] [] [] [] [] []]; try discriminate; reflexivity.
  - apply digits_pos_all_digits. reflexivity.
Qed.

Hypothesis userId_well_formed : well_formed userId = true.
Hypothesis openid_well_formed : well_formed openid = true.
Hypothesis now_iat_nonneg : 0 <= now_iat.
Hypothesis now_exp_nonneg : 0 <= now_exp.

Lemma payload_text_well_formed :
  well_formed (payload_text now_iat (now_exp + LoginRoute.seven_days) userId openid)
  = true.
Proof.
  rewrite payload_text_eq.
  rewrite !well_formed_string_app
    by first [ reflexivity
             | apply quote_well_formed; assumption
             | apply is_ascii_well_formed, Z_toString_ascii;
               unfold LoginRoute.seven_days; lia ].
  reflexivity.
Qed.

Lemma parse_payload_text :
  JSON.parse (payload_text now_iat (now_exp + LoginRoute.seven_days) userId openid)
  = Some (JObj [("sub", JStr userId); ("openid", JStr openid);
                ("iat", JNum (int now_iat));
                ("exp", JNum (int (now_exp + LoginRoute.seven_days)))]).
Proof.
  unfold JSON.parse. rewrite payload_text_eq.
  rewrite (proj1 (lex_punctuation _)).
  rewrite lex_quoted by reflexivity.
  rewrite (proj1 (proj2 (proj2 (lex_punctuation _)))).
  rewrite lex_quoted by assumption.
  rewrite (proj2 (proj2 (proj2 (lex_punctuation _)))).
  rewrite lex_quoted by reflexivity.
  rewrite (proj1 (proj2 (proj2 (lex_punctuation _)))).
  rewrite lex_quoted by assumption.
  rewrite (proj2 (proj2 (proj2 (lex_punctuation _)))).
  rewrite lex_quoted by reflexivity.
  rewrite (proj1 (proj2 (proj2 (lex_punctuation _)))).
  rewrite (proj1 (lex_number _ _ now_iat_nonneg)).
  rewrite lex_quoted by reflexivity.
  rewrite (proj1 (proj2 (proj2 (lex_punctuation _)))).
  assert (Hexp : 0 <= now_exp + LoginRoute.seven_days)
    by (unfold LoginRoute.seven_days; lia).
  replace (JS.Z_toString (now_exp + LoginRoute.seven_days) +:+ "}")
    with (JS.Z_toString (now_exp + LoginRoute.seven_days) +:+ "}" +:+ EmptyString)
    by reflexivity.
  rewrite (proj2 (lex_number _ _ Hexp)).
  reflexivity.
Qed.

(** What [verifyToken] of [src/lib/auth.ts] answers for the token of the
    login route at any later time. *)
Lemma login_route_verify (now : Z) :
  outcome
    (let* token := LoginRoute.generateToken env now_iat now_exp userId openid in
     Auth.verifyToken env now token)
  = if now_exp + LoginRoute.seven_days <? now then Ret None
    else Ret (Some (Auth.mkTokenPayload (JStr userId) (JStr openid))).
Proof.
  rewrite login_generateToken_eq, outcome_bind_ret.
  rewrite (verifyToken_three_parts env now _ _ _ _ login_split).
  unfold login_signature at 1. rewrite String.eqb_refl.
  unfold after_signature, login_payload.
  rewrite decode_toBase64Url.
  change (JS.bytes_of_string ?t) with (Utf8.fromString t).
  rewrite (toString_well_formed _ payload_text_well_formed), parse_payload_text.
  change (Coerce.Get _ "exp")
    with (Ret (JNum (int (now_exp + LoginRoute.seven_days)))).
  change (Coerce.Get _ "sub") with (Ret (JStr userId)).
  change (Coerce.Get _ "openid") with (Ret (JStr openid)).
  unfold Coerce.lessThan, int. cbn [Coerce.ToNumber lt_int].
  change (0 <=? 0) with true. cbv iota.
  rewrite Z.pow_0_r, Z.mul_1_r.
  destruct (now_exp + LoginRoute.seven_days <? now); reflexivity.
Qed.

(** X1: the token of the login route passes [verifyToken] of
    [src/lib/auth.ts] up to and including the instant of its expiry, seven
    days after it was minted, and gives back the identity it was minted
    for. *)
Theorem login_route_round_trip (now : Z) :
  now <= now_exp + LoginRoute.seven_days ->
  outcome
    (let* token := LoginRoute.generateToken env now_iat now_exp userId openid in
     Auth.verifyToken env now token)
  = Ret (Some (Auth.mkTokenPayload (JStr userId) (JStr openid))).
Proof.
  intros Hnow. rewrite login_route_verify.
  destruct (Z.ltb_spec (now_exp + LoginRoute.seven_days) now); [lia|reflexivity].
Qed.

(** X2: after the instant of its expiry the token of the login route is
    refused by [verifyToken] of [src/lib/auth.ts]. *)
Theorem login_route_token_expires (now : Z) :
  now_exp + LoginRoute.seven_days < now ->
  outcome
    (let* token := LoginRoute.generateToken env now_iat now_exp userId openid in
     Auth.verifyToken env now token)
  = Ret None.
Proof.
  intros Hnow. rewrite login_route_verify.
  destruct (Z.ltb_spec (now_exp + LoginRoute.seven_days) now); [reflexivity|lia].
Qed.

(** X3: the token of the login route has exactly three sections between
    dots, each over the URL-safe alphabet (letters, digits, [-] and [_]),
    without padding. *)
Theorem login_route_token_url_safe :
  exists token header payload signature,
    outcome (LoginRoute.generateToken env now_iat now_exp userId openid) = Ret token
    /\ JS.split "." token = [header; payload; signature]
    /\ all_chars url_safe header = true
    /\ all_chars url_safe payload = true
    /\ all_chars url_safe signature = true.
Proof.
  eexists _, _, _, _. rewrite login_generateToken_eq.
  split; [reflexivity|]. split; [apply login_split|].
  repeat split; apply toUrlSafe_encode_url_safe.
Qed.

End LoginRoundTrip.

(** The token of the sibling [generateToken] is accepted by [verifyToken]
    of [src/lib/auth.ts] and gives back the identity. *)
Example login_route_round_trip_example :
  Eff.outcome
    (let* token := LoginRoute.generateToken ∅ 1000 1000 "u1" "o1" in
     Auth.verifyToken ∅ 1000 token)
  = Eff.Ret (Some (Auth.mkTokenPayload (Value.JStr "u1") (Value.JStr "o1"))).
Proof. vm_compute. reflexivity. Qed.

(** * Further properties *)

Import Vocabulary.

(** ** The token of the login route, at a concrete identity *)

(** X1 at the identity [u1], [o1], minted and read at time 1000. *)
Lemma login_route_round_trip_witness :
  Eff.outcome
    (let* token := LoginRoute.generateToken ∅ 1000 1000 "u1" "o1" in
     Auth.verifyToken ∅ 1000 token)
  = Eff.Ret (Some (Auth.mkTokenPayload (Value.JStr "u1") (Value.JStr "o1"))).
Proof.
  apply (login_route_round_trip ∅ 1000 1000 "u1" "o1");
    [ vm_compute; reflexivity | vm_compute; reflexivity | lia | lia
    | unfold LoginRoute.seven_days; lia ].
Defined.

(** X2 at the same token, read one millisecond after its expiry. *)
Lemma login_route_token_expires_witness :
  Eff.outcome
    (let* token := LoginRoute.generateToken ∅ 1000 1000 "u1" "o1" in
     Auth.verifyToken ∅ 604801001 token)
  = Eff.Ret None.
Proof.
  apply (login_route_token_expires ∅ 1000 1000 "u1" "o1");
    [ vm_compute; reflexivity | vm_compute; reflexivity | lia | lia
    | unfold LoginRoute.seven_days; lia ].
Defined.

(** ** The two base64url helpers *)

(** X4: [fromBase64Url] of [src/lib/auth.ts] undoes [toBase64Url] of the
    login route: a text without unpaired surrogates, encoded by the one,
    then restored by the other, decoded by [Buffer] and read as UTF-8, is
    the text again. *)
Theorem base64url_text_round_trip (text : string) :
  well_formed text = true ->
  Utf8.toString (Base64.decode (Auth.fromBase64Url (LoginRoute.toBase64Url text))) = text.
Proof.
  intros Htext. rewrite decode_toBase64Url.
  apply (toString_well_formed text Htext).
Qed.

(** X4 at a text whose standard base64 form has [+], [/] and padding. *)
Lemma base64url_text_round_trip_witness :
  well_formed "{'k':'>>>???'}" = true
  /\ Utf8.toString
       (Base64.decode (Auth.fromBase64Url (LoginRoute.toBase64Url "{'k':'>>>???'}")))
     = "{'k':'>>>???'}".
Proof.
  split; [vm_compute; reflexivity|].
  apply (base64url_text_round_trip "{'k':'>>>???'}"). vm_compute. reflexivity.
Defined.

(** ** Standard base64, and the self-contained token service of
    [src/unnamed/part_001] *)

Section StandardBase64.

Lemma sextets_enc (i : Z) (s : string) :
  Base64.sextets (String (Base64.enc i) s) = i mod 64 :: Base64.sextets s.
Proof. cbn [Base64.sextets]. rewrite enc_not_pad, unbase64_enc. reflexivity. Qed.

Lemma decode_encode (l : list Z) :
  Forall (fun b => 0 <= b < 256) l -> Base64.decode (Base64.encode l) = l.
Proof.
  unfold Base64.decode.
  induction l as [|a|a b|a b c l IH] using list_ind3; intros Hl.
  - reflexivity.
  - apply Forall_cons_iff in Hl as [Ha _].
    cbn [Base64.encode]. rewrite !sextets_enc.
    change (Base64.sextets "==") with (@nil Z).
    cbn [Base64.bytes_of_sextets].
    pose proof (group_checked a a Ha Ha) as H. unfold group_check in H.
    repeat (apply andb_prop in H as [H ?]).
    f_equal. apply Z.eqb_eq. assumption.
  - apply Forall_cons_iff in Hl as [Ha Hl]. apply Forall_cons_iff in Hl as [Hb _].
    cbn [Base64.encode]. rewrite !sextets_enc.
    change (Base64.sextets "=") with (@nil Z).
    cbn [Base64.bytes_of_sextets].
    pose proof (group_checked a b Ha Hb) as H. unfold group_check in H.
    repeat (apply andb_prop in H as [H ?]).
    pose proof (group_checked b b Hb Hb) as H'. unfold group_check in H'.
    repeat (apply andb_prop in H' as [H' ?]).
    repeat match goal with E : (_ =? _) = true |- _ => apply Z.eqb_eq in E end.
    f_equal; [assumption|]. f_equal. congruence.
  - apply Forall_cons_iff in Hl as [Ha Hl]. apply Forall_cons_iff in Hl as [Hb Hl].
    apply Forall_cons_iff in Hl as [Hc Hl].
    cbn [Base64.encode]. rewrite !sextets_enc.
    cbn [Base64.bytes_of_sextets]. rewrite (IH Hl).
    pose proof (group_checked a b Ha Hb) as H. unfold group_check in H.
    repeat (apply andb_prop in H as [H ?]).
    pose proof (group_checked b c Hb Hc) as H'. unfold group_check in H'.
    repeat (apply andb_prop in H' as [H' ?]).
    repeat match goal with E : (_ =? _) = true |- _ => apply Z.eqb_eq in E end.
    f_equal; [assumption|]. f_equal; [congruence|]. f_equal. assumption.
Qed.

End StandardBase64.

(** X5: within [src/unnamed/part_001] the token service is consistent:
    the token its [generateToken] mints is accepted by its own
    [verifyToken], with the identity it was minted for, up to and including
    the instant of expiry seven days later, and refused after it. *)
Theorem part001_own_round_trip
    (env : Node.env_t) (now_iat now_exp now : Z) (userId openid : string) :
  well_formed userId = true ->
  well_formed openid = true ->
  0 <= now_iat ->
  0 <= now_exp ->
  Eff.outcome
    (let* token := Part001.generateToken env now_iat now_exp userId openid in
     Part001.verifyToken env now token)
  = if now_exp + Part001.seven_days <? now then Eff.Ret None
    else Eff.Ret (Some (Auth.mkTokenPayload (Value.JStr userId) (Value.JStr openid))).
Proof.
  intros Hu Ho Hiat Hexp.
  rewrite part001_generateToken_eq, outcome_bind_ret.
  unfold Part001.verifyToken. rewrite part001_split.
  cbn [List.length Nat.eqb negb nth].
  unfold Node.createHmac_sha256_base64, Node.Buffer_from_base64, Node.JSON_parse.
  cbn [Eff.bind Eff.tell Eff.ret app].
  fold (part001_signature env now_iat now_exp userId openid).
  rewrite String.eqb_refl. cbn [negb Eff.bind Eff.tell Eff.ret app].
  unfold part001_payload, Node.base64_of_string.
  rewrite decode_encode by apply bytes_of_string_range.
  change (JSON.stringify (Value.JObj _))
    with (payload_text now_iat (now_exp + LoginRoute.seven_days) userId openid).
  rewrite (toString_well_formed _
             (payload_text_well_formed now_iat now_exp userId openid Hu Ho Hiat Hexp)).
  rewrite (parse_payload_text now_iat now_exp userId openid Hu Ho Hiat Hexp).
  cbn [Eff.bind Eff.ret Eff.lift app].
  change (Coerce.Get _ "exp")
    with (Eff.Ret (Value.JNum (Value.int (now_exp + Part001.seven_days)))).
  cbn [Eff.bind Eff.ret Eff.lift app].
  unfold Coerce.lessThan, Value.int. cbn [Coerce.ToNumber Value.lt_int].
  change (0 <=? 0) with true. cbv iota.
  rewrite Z.pow_0_r, Z.mul_1_r.
  destruct (now_exp + Part001.seven_days <? now); reflexivity.
Qed.

(** X5 at the identity [u1], [o1], minted at time 1000 and read at the
    instant of expiry. *)
Lemma part001_own_round_trip_witness :
  Eff.outcome
    (let* token := Part001.generateToken ∅ 1000 1000 "u1" "o1" in
     Part001.verifyToken ∅ 604801000 token)
  = Eff.Ret (Some (Auth.mkTokenPayload (Value.JStr "u1") (Value.JStr "o1"))).
Proof.
  apply (part001_own_round_trip ∅ 1000 1000 604801000 "u1" "o1");
    [ vm_compute; reflexivity | vm_compute; reflexivity | lia | lia ].
Defined.

(** ** What [verifyToken] of [src/lib/auth.ts] does with the payload *)

Section PayloadReading.
Import Eff.

(** With the expected signature, the payload section is handed to the
    base64 decoder right after the HMAC. *)
Lemma verifyToken_good_signature (env : Node.env_t) (now : Z)
    (token header payload signature : string) :
  JS.split "." token = [header; payload; signature] ->
  String.eqb signature (expected_signature env header payload) = true ->
  exists rest,
    calls (Auth.verifyToken env now token)
    = HmacSha256 (Auth.JWT_SECRET env) (header +:+ "." +:+ payload)
      :: Base64Decode (Auth.fromBase64Url payload) :: rest.
Proof.
  intros Hsplit Hsig. unfold Auth.verifyToken. rewrite Hsplit.
  cbn [List.length Nat.eqb negb nth].
  unfold Node.createHmac_sha256_base64, Node.Buffer_from_base64.
  cbn [bind tell ret app].
  unfold expected_signature in Hsig. rewrite Hsig. cbn [negb bind tell ret app].
  match goal with
  | |- context [try_catch (let '(l1, r1) := (let '(l2, r2) := ?k in _) in _) _] =>
      destruct k as [l [a|e]]
  end; simpl; eauto.
Qed.

End PayloadReading.

(** X6: [verifyToken] reads the payload section (hands it to the base64
    decoder or to [JSON.parse]) exactly when the token has three sections
    and the third is the expected signature: nothing of an unsigned or
    wrongly signed token is ever decoded or parsed. *)
Theorem verifyToken_reads_payload_iff_well_signed
    (env : Node.env_t) (now : Z) (token : string) :
  existsb reads_payload (Eff.calls (Auth.verifyToken env now token))
  = well_signed env token.
Proof.
  unfold well_signed.
  destruct (JS.split "." token) as [|h [|pl [|sg [|x rest]]]] eqn:Hsplit;
    try (rewrite verifyToken_other_parts by (rewrite Hsplit; simpl; lia);
         reflexivity).
  destruct (String.eqb sg (expected_signature env h pl)) eqn:Hsig.
  - destruct (verifyToken_good_signature env now token h pl sg Hsplit Hsig)
      as [rest ->].
    reflexivity.
  - rewrite (verifyToken_bad_signature env now token h pl sg Hsplit Hsig).
    reflexivity.
Qed.

(** X7: a correctly signed token whose payload is an object without an
    [exp] member never expires: [verifyToken] accepts it at every time. *)
Theorem token_without_exp_never_expires
    (env : Node.env_t) (token : string) (members : list (string * Value.jsval)) :
  well_signed env token = true ->
  payload_of token = Some (Value.JObj members) ->
  Value.own "exp" members = None ->
  forall now : Z,
    exists p, Eff.outcome (Auth.verifyToken env now token) = Eff.Ret (Some p).
Proof.
  unfold well_signed, payload_of.
  destruct (JS.split "." token) as [|h [|pl [|sg [|x rest]]]] eqn:Hsplit;
    try discriminate.
  intros Hsig Hpayload Hexp now.
  rewrite (verifyToken_three_parts env now token h pl sg Hsplit), Hsig.
  unfold after_signature. rewrite Hpayload.
  cbn [Coerce.Get]. rewrite Hexp.
  cbn [Coerce.inherited Coerce.lessThan Coerce.ToNumber Value.lt_int].
  destruct (Value.own "sub" members), (Value.own "openid" members); eauto.
Qed.

(** X7 at the token whose payload is the empty object, at time 0. *)
Lemma token_without_exp_never_expires_witness :
  well_signed ∅ token_empty_object = true
  /\ payload_of token_empty_object = Some (Value.JObj [])
  /\ exists p, Eff.outcome (Auth.verifyToken ∅ 0 token_empty_object) = Eff.Ret (Some p).
Proof.
  split; [vm_compute; reflexivity|].
  split; [vm_compute; reflexivity|].
  apply (token_without_exp_never_expires ∅ token_empty_object []);
    vm_compute; reflexivity.
Defined.

(** X8: a correctly signed token whose payload section does not decode to
    JSON text, or decodes to [null], is refused with [null]; the exception
    of [JSON.parse] or of the property read does not leave [verifyToken]. *)
Theorem verifyToken_refuses_unreadable_payload
    (env : Node.env_t) (now : Z) (token : string) :
  well_signed env token = true ->
  payload_of token = None \/ payload_of token = Some Value.JNull ->
  Eff.outcome (Auth.verifyToken env now token) = Eff.Ret None.
Proof.
  unfold well_signed, payload_of.
  destruct (JS.split "." token) as [|h [|pl [|sg [|x rest]]]] eqn:Hsplit;
    try discriminate.
  intros Hsig Hpayload.
  rewrite (verifyToken_three_parts env now token h pl sg Hsplit), Hsig.
  unfold after_signature. destruct Hpayload as [-> | ->]; reflexivity.
Qed.

(** X8 at the token whose payload is the text [not json]. *)
Lemma verifyToken_refuses_unreadable_payload_witness :
  well_signed ∅ token_not_json = true
  /\ payload_of token_not_json = None
  /\ Eff.outcome (Auth.verifyToken ∅ 1000 token_not_json) = Eff.Ret None.
Proof.
  split; [vm_compute; reflexivity|].
  split; [vm_compute; reflexivity|].
  apply (verifyToken_refuses_unreadable_payload ∅ 1000 token_not_json);
    [vm_compute; reflexivity | left; vm_compute; reflexivity].
Defined.

(** The same for the payload [null]. *)
Example verifyToken_null_payload :
  well_signed ∅ token_null_payload = true
  /\ payload_of token_null_payload = Some Value.JNull
  /\ Eff.outcome (Auth.verifyToken ∅ 1000 token_null_payload) = Eff.Ret None.
Proof. vm_compute. repeat split; reflexivity. Qed.

(** ** More on the gateway middleware *)

(** X9: the middleware answers every request, whatever the two functions
    of the rate limiter do: it never throws, and its answer is either the
    forwarded request or a reply with status 403, 429 or 503. *)
Theorem middleware_always_answers
    (getClientIP : Http.NextRequest -> Eff.result string)
    (checkRateLimit : string -> Eff.result Middleware.LimitResult)
    (req : Http.NextRequest) :
  exists response,
    Eff.outcome (Middleware.middleware getClientIP checkRateLimit req) = Eff.Ret response
    /\ match Http.status_of response with
       | None => Http.forwarded response = true
       | Some st => middleware_status st = true
       end.
Proof.
  unfold Middleware.middleware.
  destruct (Middleware.isWeChatMiniProgram _); cbn [negb];
    [|eexists; split; reflexivity].
  destruct (JS.startsWith _ _); cbn [negb];
    [|eexists; split; reflexivity].
  destruct (getClientIP req) as [ip|e];
    [|eexists; split; reflexivity].
  cbn [Eff.bind Eff.tell Eff.lift Eff.ret app].
  destruct (checkRateLimit ip) as [l|e];
    [|eexists; split; reflexivity].
  cbn [Eff.bind Eff.tell Eff.lift Eff.ret app].
  destruct (Middleware.success l); cbn [negb]; eexists; split; reflexivity.
Qed.

(** X10: a request to the limited path is forwarded only after the
    rate-limit check, asked about the address [getClientIP] returned,
    completed with [success]; the run then consists of these two calls. *)
Theorem middleware_forwards_only_after_passed_check
    (getClientIP : Http.NextRequest -> Eff.result string)
    (checkRateLimit : string -> Eff.result Middleware.LimitResult)
    (req : Http.NextRequest) (response : Http.NextResponse) :
  rate_limited req = true ->
  Eff.outcome (Middleware.middleware getClientIP checkRateLimit req) = Eff.Ret response ->
  Http.forwarded response = true ->
  exists ip l,
    getClientIP req = Eff.Ret ip
    /\ checkRateLimit ip = Eff.Ret l
    /\ Middleware.success l = true
    /\ Eff.calls (Middleware.middleware getClientIP checkRateLimit req)
       = [Eff.GetClientIP; Eff.CheckRateLimit ip].
Proof.
  intros Hrl. rewrite (middleware_rate_limited _ _ _ Hrl).
  destruct (getClientIP req) as [ip|e]; [|intros [= <-]; discriminate].
  cbn [Eff.bind Eff.tell Eff.lift Eff.ret app].
  destruct (checkRateLimit ip) as [l|e] eqn:Hcheck.
  - cbn [Eff.bind Eff.tell Eff.lift Eff.ret app].
    destruct (Middleware.success l) eqn:Hs; cbn [negb].
    + intros _ _. exists ip, l. repeat split; assumption.
    + intros [= <-]; discriminate.
  - intros [= <-]; discriminate.
Qed.

(** X10 at a blessing request under the ceiling. *)
Lemma middleware_forwards_only_after_passed_check_witness :
  rate_limited blessing_request = true
  /\ exists ip l,
       (fun _ : Http.NextRequest => Eff.Ret "203.0.113.5") blessing_request = Eff.Ret ip
       /\ (fun _ : string => Eff.Ret allowed_result) ip = Eff.Ret l
       /\ Middleware.success l = true
       /\ Eff.calls (Middleware.middleware
                       (fun _ => Eff.Ret "203.0.113.5") (fun _ => Eff.Ret allowed_result)
                       blessing_request)
          = [Eff.GetClientIP; Eff.CheckRateLimit ip].
Proof.
  split; [vm_compute; reflexivity|].
  apply (middleware_forwards_only_after_passed_check
           (fun _ => Eff.Ret "203.0.113.5") (fun _ => Eff.Ret allowed_result)
           blessing_request
           (rate_limit_headers allowed_result Http.next));
    vm_compute; reflexivity.
Defined.

(** X11: the rate limiter is consulted exactly for the requests of the
    WeChat client to a path that starts with [/api/blessing]; for every
    other request the run of the middleware makes no call at all. *)
Theorem middleware_consults_limiter_iff_rate_limited
    (getClientIP : Http.NextRequest -> Eff.result string)
    (checkRateLimit : string -> Eff.result Middleware.LimitResult)
    (req : Http.NextRequest) :
  if rate_limited req
  then exists rest,
         Eff.calls (Middleware.middleware getClientIP checkRateLimit req)
         = Eff.GetClientIP :: rest
  else Eff.calls (Middleware.middleware getClientIP checkRateLimit req) = [].
Proof.
  destruct (rate_limited req) eqn:Hrl.
  - rewrite (middleware_rate_limited _ _ _ Hrl).
    destruct (getClientIP req) as [ip|e]; [|eexists; reflexivity].
    cbn [Eff.bind Eff.tell Eff.lift Eff.ret app].
    destruct (checkRateLimit ip) as [l|e]; [|eexists; reflexivity].
    cbn [Eff.bind Eff.tell Eff.lift Eff.ret app].
    destruct (Middleware.success l); eexists; reflexivity.
  - unfold rate_limited in Hrl. unfold Middleware.middleware.
    destruct (Middleware.isWeChatMiniProgram _); [|reflexivity].
    cbn [andb] in Hrl. rewrite Hrl. reflexivity.
Qed.

(** ** The admission steps of the blessing route *)

Section BlessingAdmission.
Import Eff Http.

Lemma outcome_try_catch_ret_none {A : Type} (m : M (option A)) :
  exists r, outcome (try_catch m (fun _ => ret None)) = Ret r.
Proof. destruct m as [l [a|e]]; eexists; reflexivity. Qed.

Lemma verifyToken_returns (env : Node.env_t) (now : Z) (token : string) :
  exists r, outcome (Auth.verifyToken env now token) = Ret r.
Proof. apply outcome_try_catch_ret_none. Qed.

Variable env : Node.env_t.
Variable generate : NextRequest -> Auth.TokenPayload -> M NextResponse.

(** What [POST] does once the client is the supported one and a
    non-empty token was presented. *)
Lemma POST_with_token (now : Z) (req : NextRequest) (c : ascii) (t : string) :
  JS.includes "MicroMessenger" (or_default (header req "user-agent") EmptyString) = true ->
  presented_token req = Some (String c t) ->
  BlessingRoute.POST env generate now req
  = let* decoded :=
      (run! tell (VerifyToken (String c t)) in Auth.verifyToken env now (String c t)) in
    match decoded with
    | None => ret (json (Value.JObj [("error", Value.JStr "登录已过期")]) 401)
    | Some decoded => generate req decoded
    end.
Proof.
  intros Hua Htoken. unfold BlessingRoute.POST. rewrite Hua. cbn [negb].
  unfold presented_token in Htoken. rewrite Htoken. reflexivity.
Qed.

Lemma POST_accepted (now : Z) (req : NextRequest) (c : ascii) (t : string)
    (p : Auth.TokenPayload) :
  JS.includes "MicroMessenger" (or_default (header req "user-agent") EmptyString) = true ->
  presented_token req = Some (String c t) ->
  outcome (Auth.verifyToken env now (String c t)) = Ret (Some p) ->
  outcome (BlessingRoute.POST env generate now req) = outcome (generate req p).
Proof.
  intros Hua Htoken Hverify. rewrite (POST_with_token now req c t Hua Htoken).
  destruct (Auth.verifyToken env now (String c t)) as [l r].
  cbn [outcome snd] in Hverify. subst r.
  cbn [bind tell ret app]. destruct (generate req p). reflexivity.
Qed.

End BlessingAdmission.

(** X12: [POST] of the blessing route reaches validation and generation
    only with a token that [verifyToken] accepts, and then with the
    identity of that token. Otherwise it answers 403 or 401, and the run
    is the same whatever the rest of the handler would do. *)
Theorem blessing_POST_admits_only_accepted_tokens
    (env : Node.env_t)
    (generate : Http.NextRequest -> Auth.TokenPayload -> Eff.M Http.NextResponse)
    (now : Z) (req : Http.NextRequest) :
  (exists response,
     Eff.outcome (BlessingRoute.POST env generate now req) = Eff.Ret response
     /\ (Http.status_of response = Some 403 \/ Http.status_of response = Some 401)
     /\ forall generate', BlessingRoute.POST env generate' now req
                          = BlessingRoute.POST env generate now req)
  \/ (exists token p,
        presented_token req = Some token
        /\ Eff.outcome (Auth.verifyToken env now token) = Eff.Ret (Some p)
        /\ Eff.outcome (BlessingRoute.POST env generate now req)
           = Eff.outcome (generate req p)).
Proof.
  destruct (JS.includes "MicroMessenger"
              (Http.or_default (Http.header req "user-agent") EmptyString)) eqn:Hua.
  - destruct (presented_token req) as [[|c t]|] eqn:Htoken.
    + left. unfold BlessingRoute.POST. rewrite Hua. cbn [negb].
      unfold presented_token in Htoken. rewrite Htoken.
      eexists. split; [reflexivity|]. split; [right; reflexivity|reflexivity].
    + destruct (verifyToken_returns env now (String c t)) as [[p|] Hverify].
      * right. exists (String c t), p. split; [reflexivity|]. split; [exact Hverify|].
        apply (POST_accepted env generate now req c t p Hua Htoken Hverify).
      * left. assert (Hall : forall g, BlessingRoute.POST env g now req
                      = (Eff.VerifyToken (String c t)
                           :: Eff.calls (Auth.verifyToken env now (String c t)),
                         Eff.Ret (Http.json
                                    (Value.JObj [("error", Value.JStr "登录已过期")]) 401))).
        { intros g. rewrite (POST_with_token env g now req c t Hua Htoken).
          destruct (Auth.verifyToken env now (String c t)) as [l r].
          cbn [Eff.outcome snd] in Hverify. subst r.
          cbn [Eff.bind Eff.tell Eff.ret app Eff.calls fst]. rewrite app_nil_r.
          reflexivity. }
        eexists. rewrite Hall. split; [reflexivity|].
        split; [right; reflexivity|]. intros g. apply Hall.
    + left. unfold BlessingRoute.POST. rewrite Hua. cbn [negb].
      unfold presented_token in Htoken. rewrite Htoken.
      eexists. split; [reflexivity|]. split; [right; reflexivity|reflexivity].
  - left. unfold BlessingRoute.POST. rewrite Hua. cbn [negb].
    eexists. split; [reflexivity|]. split; [left; reflexivity|reflexivity].
Qed.

Section LoginThenBlessing.
Import Eff Http.

Lemma login_token_nonempty (env : Node.env_t) (now_iat now_exp : Z)
    (userId openid token : string) :
  outcome (LoginRoute.generateToken env now_iat now_exp userId openid) = Ret token ->
  exists c t, token = String c t.
Proof.
  rewrite login_generateToken_eq. intros [= <-].
  assert (Hh : exists c t, login_header = String c t)
    by (vm_compute; eauto).
  destruct Hh as (c & t & ->). eexists _, _. reflexivity.
Qed.

Lemma login_token_verifies (env : Node.env_t) (now_iat now_exp now : Z)
    (userId openid token : string) :
  well_formed userId = true ->
  well_formed openid = true ->
  0 <= now_iat ->
  0 <= now_exp ->
  now <= now_exp + LoginRoute.seven_days ->
  Eff.outcome (LoginRoute.generateToken env now_iat now_exp userId openid) = Eff.Ret token ->
  Eff.outcome (Auth.verifyToken env now token)
  = Eff.Ret (Some (Auth.mkTokenPayload (Value.JStr userId) (Value.JStr openid))).
Proof.
  intros Hu Ho Hiat Hexp Hnow Htoken.
  pose proof (login_route_verify env now_iat now_exp userId openid Hu Ho Hiat Hexp now)
    as H.
  destruct (LoginRoute.generateToken env now_iat now_exp userId openid) as [l r].
  cbn [Eff.outcome snd] in Htoken. subst r.
  rewrite outcome_bind_ret in H. rewrite H.
  destruct (Z.ltb_spec (now_exp + LoginRoute.seven_days) now); [lia|reflexivity].
Qed.

Lemma replaceFirst_Bearer (token : string) :
  JS.replaceFirst "Bearer " EmptyString ("Bearer " +:+ token) = token.
Proof. destruct token; reflexivity. Qed.

End LoginThenBlessing.

(** X13: the login route and the blessing route fit together. A token
    minted by [generateToken] of the login route, presented by the WeChat
    client in the [auth_token] cookie or, without that cookie, in the
    [Authorization] header after [Bearer ], passes the admission steps of
    [POST] up to and including the instant of its expiry, and the rest of
    the handler runs with the identity the token was minted for. *)
Theorem login_token_admitted_by_blessing_POST
    (env : Node.env_t)
    (generate : Http.NextRequest -> Auth.TokenPayload -> Eff.M Http.NextResponse)
    (now_iat now_exp now : Z) (userId openid token : string)
    (req : Http.NextRequest) :
  well_formed userId = true ->
  well_formed openid = true ->
  0 <= now_iat ->
  0 <= now_exp ->
  now <= now_exp + LoginRoute.seven_days ->
  Eff.outcome (LoginRoute.generateToken env now_iat now_exp userId openid)
  = Eff.Ret token ->
  JS.includes "MicroMessenger"
    (Http.or_default (Http.header req "user-agent") EmptyString) = true ->
  Http.cookies req !! "auth_token" = Some token
  \/ (Http.cookies req !! "auth_token" = None
      /\ Http.header req "Authorization" = Some ("Bearer " +:+ token)) ->
  Eff.outcome (BlessingRoute.POST env generate now req)
  = Eff.outcome (generate req (Auth.mkTokenPayload (Value.JStr userId)
                                                   (Value.JStr openid))).
Proof.
  intros Hu Ho Hiat Hexp Hnow Htoken Hua Hpresented.
  destruct (login_token_nonempty _ _ _ _ _ _ Htoken) as (c & t & Hct).
  pose proof (login_token_verifies env now_iat now_exp now userId openid token
                Hu Ho Hiat Hexp Hnow Htoken) as Hverify.
  subst token.
  apply (POST_accepted env generate now req c t _ Hua); [|exact Hverify].
  unfold presented_token.
  destruct Hpresented as [-> | [-> ->]]; [reflexivity|].
  cbn [Http.or_else option_map]. rewrite replaceFirst_Bearer. reflexivity.
Qed.

(** X13 at the token of [u1], [o1] in the cookie of a WeChat request. *)
Lemma login_token_admitted_by_blessing_POST_witness :
  Eff.outcome
    (BlessingRoute.POST ∅ (fun _ p => Eff.ret (Http.json (Auth.userId p) 200)) 1000
       (cookie_request login_token_u1))
  = Eff.Ret (Http.json (Value.JStr "u1") 200).
Proof.
  apply (login_token_admitted_by_blessing_POST ∅
           (fun _ p => Eff.ret (Http.json (Auth.userId p) 200))
           1000 1000 1000 "u1" "o1" login_token_u1 (cookie_request login_token_u1));
    [ vm_compute; reflexivity | vm_compute; reflexivity | lia | lia
    | unfold LoginRoute.seven_days; lia
    | vm_compute; reflexivity
    | vm_compute; reflexivity
    | left; vm_compute; reflexivity ].
Defined.

(** ** Computations of the handlers *)

Section IoComputations.
Import Io.

Lemma outcome_bind {A B : Type} (m : M A) (f : A -> M B) :
  outcome (bind m f)
  = match outcome m with
    | Ret a => outcome (f a)
    | Throw e => Throw e
    end.
Proof.
  destruct m as [l [a|e]]; [|reflexivity].
  unfold outcome, bind. cbn [snd]. destruct (f a). reflexivity.
Qed.

Lemma events_bind {A B : Type} (m : M A) (f : A -> M B) :
  events (bind m f)
  = events m ++ match outcome m with
                | Ret a => events (f a)
                | Throw _ => []
                end.
Proof.
  destruct m as [l [a|e]]; unfold events, outcome, bind; cbn [fst snd].
  - destruct (f a). reflexivity.
  - symmetry. apply app_nil_r.
Qed.

Lemma outcome_try_catch {A : Type} (m : M A) (h : exn -> M A) :
  outcome (try_catch m h)
  = match outcome m with
    | Ret a => Ret a
    | Throw e => outcome (h e)
    end.
Proof.
  destruct m as [l [a|e]]; [reflexivity|].
  unfold outcome, try_catch. cbn [snd]. destruct (h e). reflexivity.
Qed.

Lemma events_try_catch {A : Type} (m : M A) (h : exn -> M A) :
  events (try_catch m h)
  = events m ++ match outcome m with
                | Ret _ => []
                | Throw e => events (h e)
                end.
Proof.
  destruct m as [l [a|e]]; unfold events, outcome, try_catch; cbn [fst snd].
  - symmetry. apply app_nil_r.
  - destruct (h e). reflexivity.
Qed.

(** A computation is its events and its outcome. *)
Lemma run_eq {A : Type} (m : M A) (l : list event) (r : result A) :
  events m = l -> outcome m = r -> m = (l, r).
Proof. destruct m. cbn [events outcome fst snd]. congruence. Qed.

End IoComputations.

(** One step of a run: the outcome or the events of a sequence are those
    of its first part and, when that returns, of the rest. *)
Ltac io_outcome1 :=
  first
    [ match goal with
      | |- context [Io.outcome (Io.bind ?m ?f)] => rewrite (outcome_bind m f)
      | |- context [Io.outcome (Io.ret ?a)] =>
          change (Io.outcome (Io.ret a)) with (Io.Ret a)
      | |- context [Io.outcome (Io.throw ?e)] =>
          change (Io.outcome (@Io.throw ?A e)) with (@Io.Throw A e)
      | |- context [Io.outcome (Io.tell ?ev)] =>
          change (Io.outcome (Io.tell ev)) with (Io.Ret tt)
      | |- context [Io.outcome (Io.lift ?r)] =>
          change (Io.outcome (Io.lift r)) with r
      | |- context [Io.outcome (Io.get ?v ?name)] =>
          change (Io.outcome (Io.get v name)) with (Io.of_result (Coerce.Get v name))
      | |- context [Io.outcome (Io.get_opt ?v ?name)] =>
          change (Io.outcome (Io.get_opt v name)) with (Io.of_result (Js.get_opt v name))
      end
    | progress cbn beta iota
    | match goal with
      | |- context [match Io.of_result ?r with _ => _ end] =>
          destruct r; cbn [Io.of_result]
      | |- context [match ?r with Io.Ret _ => _ | Io.Throw _ => _ end] =>
          lazymatch r with
          | match _ with _ => _ end => fail
          | Io.outcome (match ?x with _ => _ end) => destruct x
          | Io.outcome (Io.bind _ _) => fail
          | _ => destruct r
          end
      | |- context [if ?b then _ else _] =>
          lazymatch b with
          | match _ with _ => _ end => fail
          | _ => destruct b
          end
      end ].
Ltac io_outcome := repeat io_outcome1.


(** ** [updateUser] of the two versions of the database module *)

Section ObjectProperties.
Import Value.

Lemma own_app (name : string) (l1 l2 : list (string * jsval)) :
  own name (l1 ++ l2)
  = match own name l2 with
    | Some v => Some v
    | None => own name l1
    end.
Proof.
  induction l1 as [|[k v] l1 IH]; cbn [app own].
  - destruct (own name l2); reflexivity.
  - rewrite IH. destruct (own name l2); reflexivity.
Qed.

Lemma own_delete (name name' : string) (l : list (string * jsval)) :
  own name' (Js.delete name l)
  = if String.eqb name' name then None else own name' l.
Proof.
  unfold Js.delete.
  induction l as [|[k v] l IH]; cbn [List.filter own fst].
  - destruct (String.eqb name' name); reflexivity.
  - destruct (String.eqb_spec k name) as [->|Hk]; cbn [negb].
    + rewrite IH.
      destruct (String.eqb_spec name' name) as [->|Hn]; [reflexivity|].
      destruct (own name' l); reflexivity.
    + cbn [own]. rewrite IH.
      destruct (String.eqb_spec name' name) as [->|Hn]; [|reflexivity].
      destruct (String.eqb_spec name k) as [->|]; [contradiction|reflexivity].
Qed.

Lemma own_set_map (name name' : string) (v : jsval) (l : list (string * jsval)) :
  own name'
    (map (fun kv : string * jsval =>
            if String.eqb (fst kv) name then (fst kv, v) else kv) l)
  = if String.eqb name' name
    then match own name' l with Some _ => Some v | None => None end
    else own name' l.
Proof.
  induction l as [|[k x] l IH]; cbn [map own fst].
  - destruct (String.eqb name' name); reflexivity.
  - destruct (String.eqb_spec k name) as [->|Hk]; cbn [own]; rewrite IH.
    + destruct (String.eqb_spec name' name) as [->|Hn].
      * destruct (own name l); reflexivity.
      * destruct (own name' l); reflexivity.
    + destruct (String.eqb_spec name' name) as [->|Hn]; [|reflexivity].
      destruct (own name l); [reflexivity|].
      destruct (String.eqb_spec name k) as [->|]; [contradiction|reflexivity].
Qed.

Lemma own_set (name name' : string) (v : jsval) (l : list (string * jsval)) :
  own name' (Js.set name v l) = if String.eqb name' name then Some v else own name' l.
Proof.
  unfold Js.set, Coerce.has_own.
  destruct (own name l) as [x|] eqn:Hown.
  - rewrite own_set_map.
    destruct (String.eqb_spec name' name) as [->|]; [rewrite Hown|]; reflexivity.
  - rewrite own_app. cbn [own].
    destruct (String.eqb_spec name' name) as [->|]; [reflexivity|].
    reflexivity.
Qed.

Lemma own_copy (name k : string) (c : bool) (v x : jsval)
    (l : list (string * jsval)) :
  own name (if c then l else Js.set k v l) = Some x ->
  name = k \/ own name l = Some x.
Proof.
  destruct c; [auto|].
  rewrite own_set. destruct (String.eqb_spec name k); auto.
Qed.

End ObjectProperties.

(** X14: [userDb.updateUser] of [src/lib/supabase.ts] does not store the
    time of the login. Asked with a truthy [last_login_at], as the login
    route asks, it sends one statement whose changes have no
    [last_login_at] at all (the member is assigned, then deleted); every
    other member of [updates] is sent as it came. *)
Theorem lib_updateUser_drops_last_login
    (client : Query.query -> Io.result Query.reply) (iso_now : string)
    (openid : Value.jsval) (updates : list (string * Value.jsval)) :
  Js.truthy (Js.prop updates "last_login_at") = true ->
  exists changes,
    Io.events (Supabase.updateUser client iso_now openid updates)
    = [Io.Ask [Query.From "users"; Query.Update (Value.JObj changes);
               Query.Eq "openid" openid; Query.Select None; Query.Single]]
    /\ Value.own "last_login_at" changes = None
    /\ forall name, name <> "last_login_at" ->
         Value.own name changes = Value.own name updates.
Proof.
  intros Hlast. unfold Supabase.updateUser, Supabase.ask. rewrite Hlast.
  eexists. split; [|split].
  - rewrite events_bind, events_bind.
    cbn [Io.events Io.tell Io.lift fst Io.outcome snd app].
    match goal with
    | |- context [match ?r with Io.Ret _ => _ | Io.Throw _ => _ end] => destruct r
    end; [|reflexivity].
    match goal with
    | |- context [if Js.truthy (Query.error ?r) then _ else _] =>
        destruct (Js.truthy (Query.error r))
    end; reflexivity.
  - rewrite own_delete. reflexivity.
  - intros name Hname. rewrite own_delete, own_set.
    destruct (String.eqb_spec name "last_login_at"); [contradiction|reflexivity].
Qed.

(** X14 at the changes the login route asks for. *)
Lemma lib_updateUser_drops_last_login_witness :
  exists changes,
    Io.events (Supabase.updateUser (fun _ => Io.Ret (Query.mkReply Value.JNull Value.JNull
                                                        Value.JUndefined))
                 "2024-01-01T00:00:00.000Z" (Value.JStr "o1")
                 [("nickname", Value.JStr "n"); ("avatar_url", Value.JStr "a");
                  ("last_login_at", Value.JBool true)])
    = [Io.Ask [Query.From "users"; Query.Update (Value.JObj changes);
               Query.Eq "openid" (Value.JStr "o1"); Query.Select None; Query.Single]]
    /\ Value.own "last_login_at" changes = None
    /\ forall name, name <> "last_login_at" ->
         Value.own name changes
         = Value.own name [("nickname", Value.JStr "n"); ("avatar_url", Value.JStr "a");
                           ("last_login_at", Value.JBool true)].
Proof.
  apply (lib_updateUser_drops_last_login
           (fun _ => Io.Ret (Query.mkReply Value.JNull Value.JNull Value.JUndefined))
           "2024-01-01T00:00:00.000Z" (Value.JStr "o1")
           [("nickname", Value.JStr "n"); ("avatar_url", Value.JStr "a");
            ("last_login_at", Value.JBool true)]).
  reflexivity.
Defined.

(** X15: [updateUser] of the other version, [src/unnamed/part_006], asked
    the same way, does store it: the changes it sends carry [iso_now] under
    [last_login_at]; and of [updates] it sends only [nickname],
    [avatar_url] and [total_blessings_generated], never a member of
    another name. *)
Theorem part006_updateUser_stamps_last_login
    (env : Node.env_t) (client : Query.query -> Io.result Query.reply)
    (iso_now : string) (openid : Value.jsval) (updates : list (string * Value.jsval)) :
  Js.truthy (Js.prop updates "last_login_at") = true ->
  exists changes,
    Io.events (Part006.updateUser env client true iso_now openid updates)
    = [Io.Ask [Query.From "users"; Query.Update (Value.JObj changes);
               Query.Eq "openid" openid; Query.Select None; Query.Single]]
    /\ Value.own "last_login_at" changes = Some (Value.JStr iso_now)
    /\ forall name v,
         Value.own name changes = Some v ->
         name = "nickname" \/ name = "avatar_url"
         \/ name = "total_blessings_generated" \/ name = "last_login_at".
Proof.
  intros Hlast. unfold Part006.updateUser. rewrite Hlast.
  eexists. split; [|split].
  - rewrite events_bind. cbn [Part006.getSupabaseClient Io.events Io.ret fst Io.outcome snd app].
    rewrite events_bind, events_bind.
    cbn [Io.events Io.tell Io.lift fst Io.outcome snd app].
    match goal with
    | |- context [match ?r with Io.Ret _ => _ | Io.Throw _ => _ end] => destruct r
    end; [|reflexivity].
    match goal with
    | |- context [if Js.truthy (Query.error ?r) then _ else _] =>
        destruct (Js.truthy (Query.error r))
    end; reflexivity.
  - rewrite own_set. reflexivity.
  - intros name v. rewrite own_set.
    destruct (String.eqb_spec name "last_login_at") as [->|_]; [auto|].
    intros H.
    apply own_copy in H as [->|H]; [auto|].
    apply own_copy in H as [->|H]; [auto|].
    apply own_copy in H as [->|H]; [auto|].
    discriminate.
Qed.

(** X15 at the changes the login route asks for. *)
Lemma part006_updateUser_stamps_last_login_witness :
  exists changes,
    Io.events (Part006.updateUser ∅
                 (fun _ => Io.Ret (Query.mkReply Value.JNull Value.JNull Value.JUndefined))
                 true "2024-01-01T00:00:00.000Z" (Value.JStr "o1")
                 [("nickname", Value.JStr "n"); ("avatar_url", Value.JStr "a");
                  ("last_login_at", Value.JBool true)])
    = [Io.Ask [Query.From "users"; Query.Update (Value.JObj changes);
               Query.Eq "openid" (Value.JStr "o1"); Query.Select None; Query.Single]]
    /\ Value.own "last_login_at" changes = Some (Value.JStr "2024-01-01T00:00:00.000Z")
    /\ forall name v,
         Value.own name changes = Some v ->
         name = "nickname" \/ name = "avatar_url"
         \/ name = "total_blessings_generated" \/ name = "last_login_at".
Proof.
  apply (part006_updateUser_stamps_last_login ∅
           (fun _ => Io.Ret (Query.mkReply Value.JNull Value.JNull Value.JUndefined))
           "2024-01-01T00:00:00.000Z" (Value.JStr "o1")
           [("nickname", Value.JStr "n"); ("avatar_url", Value.JStr "a");
            ("last_login_at", Value.JBool true)]).
  reflexivity.
Defined.

(** ** The handlers of the login route *)

Section IoEvents.
Import Io.

Lemma in_events_bind {A B : Type} (ev : event) (m : M A) (f : A -> M B) :
  In ev (events (bind m f)) ->
  In ev (events m) \/ exists a, outcome m = Ret a /\ In ev (events (f a)).
Proof.
  rewrite events_bind. intros [H|H]%in_app_or; [left; exact H|].
  destruct (outcome m) as [a|e]; [|destruct H].
  right. exists a. split; [reflexivity|exact H].
Qed.

Lemma in_events_try_catch {A : Type} (ev : event) (m : M A) (h : exn -> M A) :
  In ev (events (try_catch m h)) ->
  In ev (events m) \/ exists e, outcome m = Throw e /\ In ev (events (h e)).
Proof.
  rewrite events_try_catch. intros [H|H]%in_app_or; [left; exact H|].
  destruct (outcome m) as [a|e]; [destruct H|].
  right. exists e. split; [reflexivity|exact H].
Qed.

Lemma in_events_of_eff {A : Type} (q : Query.query) (m : Eff.M A) :
  ~ In (Ask q) (events (of_eff m)).
Proof.
  unfold events, of_eff. cbn [fst]. intros H. apply in_map_iff in H as (c & Hc & _).
  discriminate.
Qed.

End IoEvents.

(** The events of a run, taken apart in a hypothesis. *)
Ltac io_in H :=
  repeat match type of H with
    | In _ (Io.events (Io.bind _ _)) =>
        apply in_events_bind in H as [H | (? & ? & H)]
    | In _ (Io.events (Io.try_catch _ _)) =>
        apply in_events_try_catch in H as [H | (? & ? & H)]
    | In _ (Io.events (if ?b then _ else _)) => destruct b eqn:?
    | In _ (Io.events (match ?x with _ => _ end)) => destruct x eqn:?
    | In _ (Io.events (Io.ret _)) => destruct H
    | In _ (Io.events (Io.throw _)) => destruct H
    | In _ (Io.events (Io.lift _)) => destruct H
    | In _ (Io.events (Io.get _ _)) => destruct H
    | In _ (Io.events (Io.get_opt _ _)) => destruct H
    | In _ (Io.events (Io.tell _)) => destruct H as [H | []]
    | In (Io.Ask _) (Io.events (Io.of_eff _)) => apply in_events_of_eff in H; destruct H
    end.

Section SupabaseEvents.
Import Value Query Io.

Variable client : query -> result reply.

Lemma ask_events (q q' : query) :
  In (Ask q) (events (Supabase.ask client q')) -> q = q'.
Proof.
  unfold Supabase.ask. intros H. io_in H. congruence.
Qed.

Lemma getUserByOpenid_events (q : query) (openid : jsval) :
  In (Ask q) (events (Supabase.getUserByOpenid client openid)) ->
  q = [From "users"; Select (Some "*"); Eq "openid" openid; Single].
Proof.
  unfold Supabase.getUserByOpenid. intros H. io_in H.
  apply ask_events in H. exact H.
Qed.

Lemma createUser_events (q : query) (userData : jsval) :
  In (Ask q) (events (Supabase.createUser client userData)) ->
  exists row, q = [From "users"; Insert row; Select None; Single].
Proof.
  unfold Supabase.createUser. intros H. io_in H.
  apply ask_events in H. eauto.
Qed.

Lemma updateUser_events (q : query) (iso_now : string) (openid : jsval)
    (updates : list (string * jsval)) :
  Js.truthy (Js.prop updates "last_login_at") = true ->
  In (Ask q) (events (Supabase.updateUser client iso_now openid updates)) ->
  exists changes,
    q = [From "users"; Update (JObj changes); Eq "openid" openid; Select None; Single]
    /\ own "last_login_at" changes = None
    /\ forall name, name <> "last_login_at" -> own name changes = own name updates.
Proof.
  intros Hlast. unfold Supabase.updateUser. rewrite Hlast. intros H. io_in H.
  apply ask_events in H. eexists. split; [exact H|]. split.
  - rewrite own_delete. reflexivity.
  - intros name Hname. rewrite own_delete, own_set.
    destruct (String.eqb_spec name "last_login_at"); [contradiction|reflexivity].
Qed.

End SupabaseEvents.

Section LoginPost.
Import Value Query Io Http.

Variable env : Node.env_t.
Variable ToString : jsval -> result string.
Variable request_json : result jsval.
Variable fetch_json : string -> result jsval.
Variable client : query -> result reply.
Variable iso_now : string.

Lemma generateToken_strings (now_iat now_exp : Z) (userId openid : string) :
  LoginHandlers.generateToken env now_iat now_exp (JStr userId) (JStr openid)
  = LoginRoute.generateToken env now_iat now_exp userId openid.
Proof. reflexivity. Qed.

End LoginPost.

(** X16: [POST] of the login route answers every request, whatever the
    body, the WeChat API and the database do: it never throws, and its
    status is 200, 400 or 500. *)
Theorem login_POST_always_answers
    (env : Node.env_t) (ToString : Value.jsval -> Io.result string)
    (request_json : Io.result Value.jsval)
    (fetch_json : string -> Io.result Value.jsval)
    (client : Query.query -> Io.result Query.reply) (iso_now : string)
    (now_iat now_exp : Z) :
  exists response,
    Io.outcome (LoginHandlers.POST env ToString request_json fetch_json client iso_now
                  now_iat now_exp) = Io.Ret response
    /\ (Http.status_of response = Some 200 \/ Http.status_of response = Some 400
        \/ Http.status_of response = Some 500).
Proof.
  unfold LoginHandlers.POST. rewrite outcome_try_catch.
  io_outcome; eexists; (split; [reflexivity|]); cbn; auto.
Qed.

(** X17: without a [code] in the body (absent, empty, [null], zero or
    [false]) [POST] answers 400 having only read the body: the WeChat API
    is not called, the database is not queried, no token is minted. *)
Theorem login_POST_without_code
    (env : Node.env_t) (ToString : Value.jsval -> Io.result string)
    (request_json : Io.result Value.jsval)
    (fetch_json : string -> Io.result Value.jsval)
    (client : Query.query -> Io.result Query.reply) (iso_now : string)
    (now_iat now_exp : Z) (body code : Value.jsval) :
  request_json = Io.Ret body ->
  Coerce.Get body "code" = Eff.Ret code ->
  Js.truthy code = false ->
  exists response,
    LoginHandlers.POST env ToString request_json fetch_json client iso_now now_iat now_exp
    = ([Io.RequestJson], Io.Ret response)
    /\ Http.status_of response = Some 400.
Proof.
  intros Hbody Hcode Hfalsy.
  destruct (Get_defined body "code" "userInfo" code Hcode) as [userInfo HuserInfo].
  unfold LoginHandlers.POST, Io.get. rewrite Hbody.
  cbn [Io.bind Io.tell Io.lift Io.of_result fst snd app]. rewrite Hcode.
  cbn [Io.bind Io.tell Io.lift Io.of_result fst snd app]. rewrite HuserInfo.
  cbn [Io.bind Io.tell Io.lift Io.of_result fst snd app]. rewrite Hfalsy.
  eexists. split; reflexivity.
Qed.

(** X17 at the empty object as body. *)
Lemma login_POST_without_code_witness :
  exists response,
    LoginHandlers.POST ∅ (fun _ => Io.Ret "undefined") (Io.Ret (Value.JObj []))
      (fun _ => Io.Throw (Io.Native (Eff.Failure "offline")))
      (fun _ => Io.Throw (Io.Native (Eff.Failure "offline")))
      "2024-01-01T00:00:00.000Z" 1000 1000
    = ([Io.RequestJson], Io.Ret response)
    /\ Http.status_of response = Some 400.
Proof.
  apply (login_POST_without_code ∅ (fun _ => Io.Ret "undefined") (Io.Ret (Value.JObj []))
           (fun _ => Io.Throw (Io.Native (Eff.Failure "offline")))
           (fun _ => Io.Throw (Io.Native (Eff.Failure "offline")))
           "2024-01-01T00:00:00.000Z" 1000 1000 (Value.JObj []) Value.JUndefined);
    reflexivity.
Defined.

(** X18: the login route never records the time of a login. Every
    [update] statement a run of [POST] sends changes [nickname] and
    [avatar_url] and nothing else: the [last_login_at: true] it passes to
    [userDb.updateUser] of [src/lib/supabase.ts] is dropped there. *)
Theorem login_POST_never_updates_last_login
    (env : Node.env_t) (ToString : Value.jsval -> Io.result string)
    (request_json : Io.result Value.jsval)
    (fetch_json : string -> Io.result Value.jsval)
    (client : Query.query -> Io.result Query.reply) (iso_now : string)
    (now_iat now_exp : Z) (q : Query.query) (changes : list (string * Value.jsval)) :
  In (Io.Ask q)
     (Io.events (LoginHandlers.POST env ToString request_json fetch_json client iso_now
                   now_iat now_exp)) ->
  In (Query.Update (Value.JObj changes)) q ->
  Value.own "last_login_at" changes = None
  /\ forall name v, Value.own name changes = Some v ->
       name = "nickname" \/ name = "avatar_url".
Proof.
  intros Hq Hupdate. unfold LoginHandlers.POST in Hq. io_in Hq;
    try discriminate;
    try (apply getUserByOpenid_events in Hq; subst q;
         repeat (destruct Hupdate as [Hupdate|Hupdate]; try discriminate);
         destruct Hupdate);
    try (apply createUser_events in Hq as [row ->];
         repeat (destruct Hupdate as [Hupdate|Hupdate]; try discriminate);
         destruct Hupdate).
  all: try (unfold LoginHandlers.user_view in Hq; io_in Hq; fail).
  apply updateUser_events in Hq as (changes' & -> & Hlast & Hrest); [|reflexivity].
  repeat (destruct Hupdate as [Hupdate|Hupdate]; try discriminate); [|destruct Hupdate].
  injection Hupdate as <-. split; [exact Hlast|].
  intros name v Hown.
  destruct (String.eqb_spec name "last_login_at") as [->|Hname]; [congruence|].
  rewrite (Hrest name Hname) in Hown. cbn [Value.own] in Hown.
  destruct (String.eqb_spec name "last_login_at"); [contradiction|].
  destruct (String.eqb_spec name "avatar_url"); [auto|].
  destruct (String.eqb_spec name "nickname"); [auto|discriminate].
Qed.

(** The same steps, keeping what each part of the run returned. *)
Ltac io_outcome_eqn1 :=
  first
    [ match goal with
      | |- context [Io.outcome (Io.bind ?m ?f)] => rewrite (outcome_bind m f)
      | |- context [Io.outcome (Io.ret ?a)] =>
          change (Io.outcome (Io.ret a)) with (Io.Ret a)
      | |- context [Io.outcome (Io.tell ?ev)] =>
          change (Io.outcome (Io.tell ev)) with (Io.Ret tt)
      | |- context [Io.outcome (Io.lift ?r)] =>
          change (Io.outcome (Io.lift r)) with r
      | |- context [Io.outcome (Io.get ?v ?name)] =>
          change (Io.outcome (Io.get v name)) with (Io.of_result (Coerce.Get v name))
      | |- context [Io.outcome (Io.get_opt ?v ?name)] =>
          change (Io.outcome (Io.get_opt v name)) with (Io.of_result (Js.get_opt v name))
      end
    | progress cbn beta iota
    | match goal with
      | |- context [match Io.of_result ?r with _ => _ end] =>
          destruct r eqn:?; cbn [Io.of_result]
      | |- context [match ?r with Io.Ret _ => _ | Io.Throw _ => _ end] =>
          lazymatch r with
          | match _ with _ => _ end => fail
          | Io.outcome (match ?x with _ => _ end) => destruct x eqn:?
          | Io.outcome (Io.bind _ _) => fail
          | _ => destruct r eqn:?
          end
      | |- context [if ?b then _ else _] =>
          lazymatch b with
          | match _ with _ => _ end => fail
          | _ => destruct b eqn:?
          end
      end ].
Ltac io_outcome_eqn := repeat io_outcome_eqn1.

Lemma of_eff_outcome {A : Type} (m : Eff.M A) (a : A) :
  Io.outcome (Io.of_eff m) = Io.Ret a -> Eff.outcome m = Eff.Ret a.
Proof.
  unfold Io.outcome, Io.of_eff, Eff.outcome. cbn [snd].
  destruct (snd m); [intros [= ->]; reflexivity|discriminate].
Qed.

(** X19: a successful login hands out one token, twice: the [token] member
    of the body is the token of the [Set-Cookie] header. It was minted by
    [generateToken] for the [openid] the WeChat API returned and the [id]
    of the row found or created for it; and when these two are strings
    without unpaired surrogates, [verifyToken] of [src/lib/auth.ts] accepts
    the token, with that identity, up to and including the instant of its
    expiry. *)
Theorem login_POST_issues_verifiable_token
    (env : Node.env_t) (ToString : Value.jsval -> Io.result string)
    (request_json : Io.result Value.jsval)
    (fetch_json : string -> Io.result Value.jsval)
    (client : Query.query -> Io.result Query.reply) (iso_now : string)
    (now_iat now_exp : Z) (response : Http.NextResponse) :
  Io.outcome (LoginHandlers.POST env ToString request_json fetch_json client iso_now
                now_iat now_exp) = Io.Ret response ->
  Http.status_of response = Some 200 ->
  exists url wechatData openid user id token view expires_text,
    fetch_json url = Io.Ret wechatData
    /\ Coerce.Get wechatData "openid" = Eff.Ret openid
    /\ (Io.outcome (Supabase.getUserByOpenid client openid) = Io.Ret user
        \/ exists userData,
             Io.outcome (Supabase.createUser client userData) = Io.Ret user)
    /\ Coerce.Get user "id" = Eff.Ret id
    /\ Eff.outcome (LoginHandlers.generateToken env now_iat now_exp id openid)
       = Eff.Ret token
    /\ response
       = Http.set_header "Set-Cookie"
           ("auth_token=" +:+ token +:+ "; "
            +:+ "Path=/; HttpOnly; SameSite=Lax; Max-Age=" +:+ expires_text)
           (Http.json (Value.JObj [("success", Value.JBool true); ("user", view);
                                   ("token", Value.JStr token)]) 200)
    /\ forall (u o : string) (now : Z),
         id = Value.JStr u -> openid = Value.JStr o ->
         well_formed u = true -> well_formed o = true ->
         0 <= now_iat -> 0 <= now_exp ->
         now <= now_exp + LoginRoute.seven_days ->
         Eff.outcome (Auth.verifyToken env now token)
         = Eff.Ret (Some (Auth.mkTokenPayload (Value.JStr u) (Value.JStr o))).
Proof.
  unfold LoginHandlers.POST. rewrite outcome_try_catch.
  io_outcome_eqn.
  all: try (intros [= <-]; discriminate).
  all: try (intros; discriminate).
  all: intros [= <-] _.
  all: match goal with
       | Hfetch : _ ?url = Io.Ret ?w,
         Hopenid : Coerce.Get ?w "openid" = Eff.Ret ?o,
         Htoken : Io.outcome (Io.of_eff (LoginHandlers.generateToken _ _ _ ?id ?o))
                  = Io.Ret ?t,
         Hid : Coerce.Get ?user "id" = Eff.Ret ?id |- _ =>
           exists url, w, o, user, id, t; apply of_eff_outcome in Htoken
       end.
  all: eexists _, _.
  all: (split; [eassumption|]); (split; [eassumption|]).
  all: (split; [first [left; eassumption | right; eexists; eassumption]|]).
  all: (split; [eassumption|]); (split; [eassumption|]); (split; [reflexivity|]).
  all: intros u o now -> -> Hu Ho Hiat Hexp Hnow.
  all: apply (login_token_verifies env now_iat now_exp now u o _ Hu Ho Hiat Hexp Hnow).
  all: rewrite <- generateToken_strings; assumption.
Qed.

(** ** Authentication in the profile and history routes *)

Section Authentication.
Import Value Query Io Http Handlers.

Variable env : Node.env_t.

Lemma outcome_verify_step (now : Z) (token : string) :
  outcome (of_eff (run! Eff.tell (Eff.VerifyToken token) in
                   Auth.verifyToken env now token))
  = of_result (Eff.outcome (Auth.verifyToken env now token)).
Proof.
  unfold outcome, of_eff. cbn [snd]. f_equal.
  apply (outcome_bind_ret [Eff.VerifyToken token] tt).
Qed.

Lemma authenticate_outcome (now : Z) (request : NextRequest) :
  outcome (ProfileRoute.authenticate env now request)
  = match presented_token request with
    | None | Some EmptyString =>
        Ret (inl (json (JObj [("error", JStr "用户未登录")]) 401))
    | Some token =>
        match Eff.outcome (Auth.verifyToken env now token) with
        | Eff.Ret None => Ret (inl (json (JObj [("error", JStr "登录已过期")]) 401))
        | Eff.Ret (Some decoded) => Ret (inr decoded)
        | Eff.Throw e => Throw (Native e)
        end
    end.
Proof.
  unfold ProfileRoute.authenticate.
  change (or_else (cookies request !! "auth_token")
            (option_map (JS.replaceFirst "Bearer " EmptyString)
               (header request "authorization")))
    with (presented_token request).
  destruct (presented_token request) as [[|c t]|]; try reflexivity.
  rewrite outcome_bind, outcome_verify_step.
  destruct (Eff.outcome (Auth.verifyToken env now (String c t))) as [[p|]|e];
    reflexivity.
Qed.

Lemma authenticate_events (now : Z) (request : NextRequest) :
  forallb is_lib (events (ProfileRoute.authenticate env now request)) = true.
Proof.
  unfold ProfileRoute.authenticate.
  match goal with
  | |- context [match ?tok with _ => _ end] => destruct tok as [[|c t]|]
  end; try reflexivity.
  rewrite events_bind. rewrite forallb_app. apply andb_true_intro. split.
  - unfold events, of_eff. cbn [fst]. apply forallb_forall.
    intros ev Hev. apply in_map_iff in Hev as (c' & <- & _). reflexivity.
  - destruct (outcome _) as [[p|]|e]; reflexivity.
Qed.

Lemma authenticate_inr (now : Z) (request : NextRequest) (p : Auth.TokenPayload) :
  outcome (ProfileRoute.authenticate env now request) = Ret (inr p) ->
  exists token,
    presented_token request = Some token
    /\ Eff.outcome (Auth.verifyToken env now token) = Eff.Ret (Some p).
Proof.
  rewrite authenticate_outcome.
  destruct (presented_token request) as [[|c t]|]; try discriminate.
  destruct (Eff.outcome (Auth.verifyToken env now (String c t))) as [[p'|]|e] eqn:Hv;
    try discriminate.
  intros [= <-]. exists (String c t). split; [reflexivity|exact Hv].
Qed.

Lemma authenticate_refuses (now : Z) (request : NextRequest) :
  unauthenticated env now request ->
  exists response,
    outcome (ProfileRoute.authenticate env now request) = Ret (inl response)
    /\ status_of response = Some 401.
Proof.
  unfold unauthenticated. rewrite authenticate_outcome.
  destruct (presented_token request) as [[|c t]|].
  - intros _. eexists. split; reflexivity.
  - intros ->. eexists. split; reflexivity.
  - intros _. eexists. split; reflexivity.
Qed.

(** A handler whose first step is [authenticate] stops there when that
    step answers. *)
Lemma refused_at_authenticate (now : Z) (request : NextRequest)
    (k : Auth.TokenPayload -> M NextResponse) (h : exn -> M NextResponse) :
  unauthenticated env now request ->
  refuses
    (try_catch
       (let+ admitted := ProfileRoute.authenticate env now request in
        match admitted with
        | inl response => ret response
        | inr decoded => k decoded
        end) h).
Proof.
  intros Hun. destruct (authenticate_refuses now request Hun) as (r & Hr & Hstatus).
  pose proof (authenticate_events now request) as Hev.
  destruct (ProfileRoute.authenticate env now request) as [l o].
  cbn [outcome snd] in Hr. subst o. cbn [events fst] in Hev.
  exists r. unfold try_catch, bind, ret, outcome, events. cbn [fst snd].
  rewrite app_nil_r. repeat split; assumption.
Qed.

(** [GET] of the login route reads the cookie only. *)
Lemma login_GET_refuses (client : query -> result reply) (now : Z)
    (request : NextRequest) :
  unauthenticated env now request ->
  refuses (LoginHandlers.GET env client now request).
Proof.
  unfold unauthenticated, presented_token, LoginHandlers.GET, refuses.
  destruct (cookies request !! "auth_token") as [[|c t]|] eqn:Hcookie.
  - intros _. eexists. repeat split.
  - cbn [or_else]. intros Hverify.
    exists (json (JObj [("error", JStr "登录已过期")]) 401). split; [|split].
    + rewrite outcome_try_catch, outcome_bind, outcome_verify_step, Hverify.
      reflexivity.
    + reflexivity.
    + rewrite events_try_catch, outcome_bind, outcome_verify_step, Hverify.
      rewrite events_bind, outcome_verify_step, Hverify.
      cbn [of_result]. rewrite !app_nil_r.
      unfold events, of_eff. cbn [fst]. apply forallb_forall.
      intros ev Hev. apply in_map_iff in Hev as (c' & <- & _). reflexivity.
  - intros _. eexists. repeat split.
Qed.

End Authentication.

(** X20: the handlers that serve a logged-in user ([GET] of the login
    route, the profile route, the history route in its two versions) do
    nothing for a request that carries no token in the [auth_token]
    cookie or the [Authorization] header, or whose token [verifyToken]
    refuses: each answers 401, and its run asks nothing of the request
    body, of the database or of the console. *)
Theorem handlers_refuse_unauthenticated
    (env : Node.env_t) (request_json : Io.result Value.jsval)
    (client : Query.query -> Io.result Query.reply)
    (search : string -> option string) (startOfMonth endOfMonth : string)
    (ceil_quotient : Value.jsval -> Value.number -> Io.result Value.number)
    (now : Z) (request : Http.NextRequest) :
  unauthenticated env now request ->
  Forall Handlers.refuses
    [LoginHandlers.GET env client now request;
     ProfileRoute.GET env client now request;
     ProfileRoute.PUT env request_json client now request;
     HistoryRoute.GET env client search startOfMonth endOfMonth ceil_quotient now request;
     HistoryRoute.POST env request_json client now request;
     HistoryRoute.DELETE env client search now request;
     HistoryRoute.GET_part002 env client search now request].
Proof.
  intros Hun.
  constructor; [apply login_GET_refuses; exact Hun|].
  unfold ProfileRoute.GET, ProfileRoute.PUT, HistoryRoute.GET, HistoryRoute.POST,
    HistoryRoute.DELETE, HistoryRoute.GET_part002.
  repeat constructor; apply refused_at_authenticate; exact Hun.
Qed.

(** X20 at a request of the WeChat client without any token. *)
Lemma handlers_refuse_unauthenticated_witness :
  Handlers.refuses (LoginHandlers.GET ∅ Handlers.client_u1 1000 blessing_request).
Proof.
  pose proof (handlers_refuse_unauthenticated ∅ (Io.Ret Value.JNull) Handlers.client_u1
                (fun _ => None) "a" "b" (fun _ _ => Io.Ret Value.NaN) 1000
                blessing_request I) as H.
  exact (Forall_inv H).
Defined.

(** ** The profile route *)

Section ProfileUpdates.
Import Value Query Io Http.

Lemma nickname_accepted (nickname : jsval) :
  ProfileRoute.nickname_refused nickname = false ->
  Js.is_undefined nickname = false ->
  exists s,
    ProfileRoute.trimmed nickname = JStr (Coerce.trim s)
    /\ JS.length (Coerce.trim s) <> 0
    /\ JS.length s <= 100.
Proof.
  destruct nickname; try discriminate. cbn [ProfileRoute.nickname_refused].
  intros [Hempty Hlong]%orb_false_elim _. exists s. split; [reflexivity|].
  split; [apply Z.eqb_neq, Hempty|apply Z.ltb_ge, Hlong].
Qed.

Lemma avatarUrl_accepted (avatarUrl : jsval) :
  ProfileRoute.avatarUrl_refused avatarUrl = false ->
  Js.is_undefined avatarUrl = false ->
  exists s, avatarUrl = JStr s /\ JS.length s <= 500.
Proof.
  destruct avatarUrl; try discriminate. cbn [ProfileRoute.avatarUrl_refused].
  intros Hlong _. exists s. split; [reflexivity|apply Z.ltb_ge, Hlong].
Qed.

End ProfileUpdates.

(** X21: what [PUT] of the profile route writes. Every [update] statement
    of a run is the one statement on [users] for the row whose [openid] is
    that of the accepted token; it changes [nickname] and [avatar_url] and
    nothing else; the nickname it stores is the trimmed text of a string
    of at most 100 code units that is not blank, the avatar a string of at
    most 500. *)
Theorem profile_PUT_stores_checked_fields
    (env : Node.env_t) (request_json : Io.result Value.jsval)
    (client : Query.query -> Io.result Query.reply)
    (now : Z) (request : Http.NextRequest)
    (q : Query.query) (changes : list (string * Value.jsval)) :
  In (Io.Ask q) (Io.events (ProfileRoute.PUT env request_json client now request)) ->
  In (Query.Update (Value.JObj changes)) q ->
  exists token p,
    presented_token request = Some token
    /\ Eff.outcome (Auth.verifyToken env now token) = Eff.Ret (Some p)
    /\ q = [Query.From "users"; Query.Update (Value.JObj changes);
            Query.Eq "openid" (Auth.openid p);
            Query.Select (Some ProfileRoute.columns); Query.Single]
    /\ (forall name v, Value.own name changes = Some v ->
          name = "nickname" \/ name = "avatar_url")
    /\ (forall v, Value.own "nickname" changes = Some v ->
          exists s, v = Value.JStr (Coerce.trim s)
                    /\ JS.length (Coerce.trim s) <> 0 /\ JS.length s <= 100)
    /\ (forall v, Value.own "avatar_url" changes = Some v ->
          exists s, v = Value.JStr s /\ JS.length s <= 500).
Proof.
  intros Hq Hupdate. unfold ProfileRoute.PUT in Hq. io_in Hq; try discriminate.
  - pose proof (authenticate_events env now request) as Hev.
    rewrite forallb_forall in Hev. apply Hev in Hq. discriminate.
  - apply ask_events in Hq. subst q.
    repeat (destruct Hupdate as [Hupdate|Hupdate]; try discriminate);
      [|destruct Hupdate].
    injection Hupdate as <-.
    match goal with
    | Hauth : Io.outcome (ProfileRoute.authenticate _ _ _) = Io.Ret (inr ?p) |- _ =>
        destruct (authenticate_inr env now request p Hauth) as (token & Htoken & Hverify);
        exists token, p
    end.
    split; [exact Htoken|]. split; [exact Hverify|]. split; [reflexivity|].
    repeat match goal with
           | H : Io.outcome (Io.get _ _) = Io.Ret _ |- _ => clear H
           end.
    match goal with
    | Hn : ProfileRoute.nickname_refused ?n = false,
      Ha : ProfileRoute.avatarUrl_refused ?a = false |- _ =>
        pose proof (nickname_accepted n Hn) as Hnick;
        pose proof (avatarUrl_accepted a Ha) as Havatar;
        destruct (Js.is_undefined n) eqn:Hun; destruct (Js.is_undefined a) eqn:Hua
    end.
    + discriminate.
    + destruct (Havatar eq_refl) as (s & -> & Hs).
      split; [|split].
      * intros name v. rewrite own_set. cbn [Value.own].
        destruct (String.eqb_spec name "avatar_url"); [auto|discriminate].
      * intros v. rewrite own_set. cbn [Value.own String.eqb Ascii.eqb Bool.eqb].
        discriminate.
      * intros v. rewrite own_set. cbn [String.eqb Ascii.eqb Bool.eqb].
        intros [= <-]. eauto.
    + destruct (Hnick eq_refl) as (s & -> & Hs1 & Hs2).
      split; [|split].
      * intros name v. rewrite own_set. cbn [Value.own].
        destruct (String.eqb_spec name "nickname"); [auto|discriminate].
      * intros v. rewrite own_set. cbn [String.eqb Ascii.eqb Bool.eqb].
        intros [= <-]. eauto.
      * intros v. rewrite own_set. cbn [Value.own String.eqb Ascii.eqb Bool.eqb].
        discriminate.
    + destruct (Hnick eq_refl) as (s & -> & Hs1 & Hs2).
      destruct (Havatar eq_refl) as (s' & -> & Hs').
      split; [|split].
      * intros name v. rewrite !own_set. cbn [Value.own].
        destruct (String.eqb_spec name "avatar_url"); [auto|].
        destruct (String.eqb_spec name "nickname"); [auto|discriminate].
      * intros v. rewrite !own_set. cbn [String.eqb Ascii.eqb Bool.eqb].
        intros [= <-]. eauto.
      * intros v. rewrite !own_set. cbn [String.eqb Ascii.eqb Bool.eqb].
        intros [= <-]. eauto.
  - unfold ProfileRoute.user_view in Hq. io_in Hq.
Qed.

(** ** The history route *)

Section HistoryListing.
Import Value Query Io Http Handlers.

Lemma Get_truthy (v : jsval) (name : string) :
  Js.truthy v = true -> exists x, Coerce.Get v name = Eff.Ret x.
Proof.
  destruct v; try discriminate; intros _; cbn [Coerce.Get]; eauto.
  destruct (own name l); eauto.
Qed.

Lemma verifyToken_empty (env : Node.env_t) (now : Z) :
  Eff.outcome (Auth.verifyToken env now EmptyString) = Eff.Ret None.
Proof. reflexivity. Qed.

Lemma authenticate_accepts (env : Node.env_t) (now : Z) (request : NextRequest)
    (token : string) (p : Auth.TokenPayload) :
  presented_token request = Some token ->
  Eff.outcome (Auth.verifyToken env now token) = Eff.Ret (Some p) ->
  outcome (ProfileRoute.authenticate env now request) = Ret (inr p).
Proof.
  intros Htoken Hverify. rewrite authenticate_outcome, Htoken.
  destruct token as [|c t]; [rewrite verifyToken_empty in Hverify; discriminate|].
  rewrite Hverify. reflexivity.
Qed.

End HistoryListing.

(** A run whose parts are known, computed forwards. *)
Ltac io_forward :=
  repeat first
    [ rewrite outcome_try_catch
    | rewrite events_try_catch
    | rewrite outcome_bind
    | rewrite events_bind
    | progress cbn beta iota
    | progress change (Io.outcome (Io.ret ?a)) with (Io.Ret a)
    | progress change (Io.outcome (Io.tell ?ev)) with (Io.Ret tt)
    | progress change (Io.outcome (Io.lift ?r)) with r
    | progress change (Io.outcome (Io.get ?v ?name))
        with (Io.of_result (Coerce.Get v name))
    | progress change (Io.events (Io.ret ?a)) with (@nil Io.event)
    | progress change (Io.events (Io.tell ?ev)) with [ev]
    | progress change (Io.events (Io.lift ?r)) with (@nil Io.event)
    | progress change (Io.events (Io.get ?v ?name)) with (@nil Io.event)
    | progress cbn [Io.of_result app orb andb negb] ].

(** X22: the listing of the history route does not work with the
    database module of [src/lib/supabase.ts]. For an accepted token whose
    user exists, and without [stats=true], [GET] of [src/unnamed/part_003]
    always answers 500: [getUserHistory] returns the rows themselves, the
    handler reads a member [data] of them, finds none, and fails on
    [history.map]. The row limit of the one listing query it sends is the
    page number, not the page size. *)
Theorem history_GET_listing_fails
    (env : Node.env_t) (client : Query.query -> Io.result Query.reply)
    (search : string -> option string) (startOfMonth endOfMonth : string)
    (ceil_quotient : Value.jsval -> Value.number -> Io.result Value.number)
    (now : Z) (request : Http.NextRequest)
    (token : string) (p : Auth.TokenPayload) (r : Query.reply) (id : Value.jsval) :
  presented_token request = Some token ->
  Eff.outcome (Auth.verifyToken env now token) = Eff.Ret (Some p) ->
  search "stats" <> Some "true" ->
  client [Query.From "users"; Query.Select (Some "id");
          Query.Eq "openid" (Auth.openid p); Query.Single] = Io.Ret r ->
  Js.truthy (Query.error r) = false ->
  Js.truthy (Query.data r) = true ->
  Coerce.Get (Query.data r) "id" = Eff.Ret id ->
  (forall q r', client q = Io.Ret r' -> In (Query.From "user_history") q ->
                Handlers.rows_or_null (Query.data r') = true) ->
  exists response,
    Io.outcome (HistoryRoute.GET env client search startOfMonth endOfMonth
                  ceil_quotient now request) = Io.Ret response
    /\ Http.status_of response = Some 500
    /\ In (Io.Ask [Query.From "user_history"; Query.Select (Some "*");
                   Query.Eq "user_id" id; Query.Order "created_at" false;
                   Query.Limit (Value.JNum
                                  (Js.parseInt10
                                     (Http.or_default (search "page") "1")))])
          (Io.events (HistoryRoute.GET env client search startOfMonth endOfMonth
                        ceil_quotient now request)).
Proof.
  intros Htoken Hverify Hstats Huser Herror Hdata Hid Hrows.
  pose proof (authenticate_accepts env now request token p Htoken Hverify) as Hauth.
  assert (Hflag : match search "stats" with
                  | Some s => String.eqb s "true"
                  | None => false
                  end = false).
  { destruct (search "stats") as [s|]; [|reflexivity].
    destruct (String.eqb_spec s "true"); [congruence|reflexivity]. }
  unfold HistoryRoute.GET.
  change (HistoryRoute.authenticate env now request)
    with (ProfileRoute.authenticate env now request).
  unfold HistoryRoute.find_user, Supabase.ask, Supabase.getUserHistory, Supabase.ask.
  rewrite Hflag.
  set (page := Js.parseInt10 (Http.or_default (search "page") "1")).
  set (listing := [Query.From "user_history"; Query.Select (Some "*");
                   Query.Eq "user_id" id; Query.Order "created_at" false;
                   Query.Limit (Value.JNum page)]).
  assert (Hlisting :
            match client listing with
            | Io.Ret r' =>
                Js.truthy (Query.error r') = true
                \/ exists rows, Js.or (Query.data r') (Value.JArr []) = Value.JArr rows
            | Io.Throw _ => True
            end).
  { destruct (client listing) as [r'|e] eqn:Hr'; [|exact I].
    right. pose proof (Hrows listing r' Hr' (or_introl eq_refl)) as Hrow.
    destruct (Query.data r'); try discriminate; eexists; reflexivity. }
  eexists. split; [|split].
  - io_forward. rewrite Hauth. io_forward. rewrite Huser. io_forward.
    rewrite Herror, Hdata. io_forward. rewrite Hid. io_forward.
    fold listing. destruct (client listing) as [r'|e]; [|io_forward; reflexivity].
    io_forward. destruct Hlisting as [-> | [rows ->]].
    + io_forward. reflexivity.
    + destruct (Js.truthy (Query.error r')); io_forward; reflexivity.
  - reflexivity.
  - io_forward. rewrite Hauth. io_forward. rewrite Huser. io_forward.
    rewrite Herror, Hdata. io_forward. rewrite Hid. io_forward.
    fold listing.
    apply in_or_app. left. apply in_or_app. right. right. left. reflexivity.
Qed.

Section HistoryRows.
Import Value Query Io Http Handlers.

Variable client : query -> result reply.

Lemma ask_outcome (q : query) : outcome (Supabase.ask client q) = client q.
Proof. unfold Supabase.ask. rewrite outcome_bind. reflexivity. Qed.

Lemma item_view_stored (row : jsval) :
  stored_row row ->
  exists view,
    HistoryRoute.item_view row = ([], Ret view)
    /\ Coerce.Get view "targetPerson" = Eff.Ret JUndefined
    /\ Coerce.Get view "createdAt" = Eff.Ret JUndefined.
Proof.
  intros (members & -> & Htarget & Hcreated).
  unfold HistoryRoute.item_view, get. cbn [Coerce.Get]. rewrite Htarget, Hcreated.
  destruct (own "id" members), (own "blessing" members), (own "occasion" members),
    (own "style" members); eexists; split; try reflexivity; split; reflexivity.
Qed.

Lemma mapM_item_view_stored (rows : list jsval) :
  Forall stored_row rows ->
  exists views,
    HistoryRoute.mapM HistoryRoute.item_view rows = ([], Ret views)
    /\ List.length views = List.length rows
    /\ Forall (fun view => Coerce.Get view "targetPerson" = Eff.Ret JUndefined
                           /\ Coerce.Get view "createdAt" = Eff.Ret JUndefined) views.
Proof.
  induction 1 as [|row rows Hrow Hrows (views & Hviews & Hlen & Hall)].
  - exists []. repeat split. constructor.
  - destruct (item_view_stored row Hrow) as (view & Hview & Htarget & Hcreated).
    exists (view :: views). cbn [HistoryRoute.mapM]. rewrite Hview, Hviews.
    split; [reflexivity|]. split; [cbn [List.length]; congruence|].
    constructor; [split; assumption|assumption].
Qed.

Lemma deleteHistory_events (q : query) (historyId userId : jsval) :
  In (Ask q) (events (Supabase.deleteHistory client historyId userId)) ->
  q = [From "user_history"; Delete; Eq "id" historyId; Eq "user_id" userId].
Proof.
  unfold Supabase.deleteHistory. intros H. io_in H.
  apply ask_events in H. exact H.
Qed.

End HistoryRows.

(** X23: the earlier [GET] of the history route, [src/unnamed/part_002],
    does work with [getUserHistory] of [src/lib/supabase.ts]: for an
    accepted token whose user exists it answers 200 with one entry per row
    found, the row limit being the [limit] parameter, 50 by default. But
    the entries are read under the names [targetPerson] and [createdAt],
    which rows of the table do not have: in every entry these two members
    are [undefined]. *)
Theorem history_GET_part002_lists_rows
    (env : Node.env_t) (client : Query.query -> Io.result Query.reply)
    (search : string -> option string)
    (now : Z) (request : Http.NextRequest)
    (token : string) (p : Auth.TokenPayload) (r r' : Query.reply) (id : Value.jsval)
    (rows : list Value.jsval) :
  presented_token request = Some token ->
  Eff.outcome (Auth.verifyToken env now token) = Eff.Ret (Some p) ->
  client [Query.From "users"; Query.Select (Some "id");
          Query.Eq "openid" (Auth.openid p); Query.Single] = Io.Ret r ->
  Js.truthy (Query.error r) = false ->
  Js.truthy (Query.data r) = true ->
  Coerce.Get (Query.data r) "id" = Eff.Ret id ->
  client [Query.From "user_history"; Query.Select (Some "*");
          Query.Eq "user_id" id; Query.Order "created_at" false;
          Query.Limit (Value.JNum (Js.parseInt10
                                     (Http.or_default (search "limit") "50")))]
  = Io.Ret r' ->
  Js.truthy (Query.error r') = false ->
  Query.data r' = Value.JArr rows ->
  Forall Handlers.stored_row rows ->
  exists views,
    Io.outcome (HistoryRoute.GET_part002 env client search now request)
    = Io.Ret (Http.json (Value.JObj [("success", Value.JBool true);
                                     ("history", Value.JArr views)]) 200)
    /\ List.length views = List.length rows
    /\ Forall (fun view =>
                 Coerce.Get view "targetPerson" = Eff.Ret Value.JUndefined
                 /\ Coerce.Get view "createdAt" = Eff.Ret Value.JUndefined) views.
Proof.
  intros Htoken Hverify Huser Herror Hdata Hid Hlist Herror' Hrows Hstored.
  pose proof (authenticate_accepts env now request token p Htoken Hverify) as Hauth.
  destruct (mapM_item_view_stored rows Hstored) as (views & Hviews & Hlen & Hall).
  exists views. split; [|split; assumption].
  unfold HistoryRoute.GET_part002.
  change (HistoryRoute.authenticate env now request)
    with (ProfileRoute.authenticate env now request).
  unfold HistoryRoute.find_user, Supabase.getUserHistory, Supabase.ask,
    HistoryRoute.map_items.
  io_forward. rewrite Hauth. io_forward. rewrite Huser. io_forward.
  rewrite Herror, Hdata. io_forward. rewrite Hid. io_forward.
  rewrite Hlist. io_forward. rewrite Herror'. io_forward.
  rewrite Hrows. unfold Js.or. cbn [Js.truthy]. io_forward.
  unfold Io.outcome at 1. rewrite Hviews. reflexivity.
Qed.

(** X24: [DELETE] of the history route removes rows of the caller only:
    every [delete] statement of a run is the one on [user_history] for the
    [id] of the request, restricted to the [user_id] of the row of [users]
    whose [openid] is that of the accepted token. *)
Theorem history_DELETE_is_scoped_to_caller
    (env : Node.env_t) (client : Query.query -> Io.result Query.reply)
    (search : string -> option string)
    (now : Z) (request : Http.NextRequest) (q : Query.query) :
  In (Io.Ask q) (Io.events (HistoryRoute.DELETE env client search now request)) ->
  In Query.Delete q ->
  exists token p r id historyId,
    presented_token request = Some token
    /\ Eff.outcome (Auth.verifyToken env now token) = Eff.Ret (Some p)
    /\ client [Query.From "users"; Query.Select (Some "id");
               Query.Eq "openid" (Auth.openid p); Query.Single] = Io.Ret r
    /\ Coerce.Get (Query.data r) "id" = Eff.Ret id
    /\ search "id" = Some historyId
    /\ q = [Query.From "user_history"; Query.Delete;
            Query.Eq "id" (Value.JStr historyId); Query.Eq "user_id" id].
Proof.
  intros Hq Hdelete. unfold HistoryRoute.DELETE in Hq.
  change (HistoryRoute.authenticate env now request)
    with (ProfileRoute.authenticate env now request) in Hq.
  io_in Hq; try discriminate.
  - pose proof (authenticate_events env now request) as Hev.
    rewrite forallb_forall in Hev. apply Hev in Hq. discriminate.
  - unfold HistoryRoute.find_user in Hq. apply ask_events in Hq. subst q.
    repeat (destruct Hdelete as [Hdelete|Hdelete]; try discriminate).
    destruct Hdelete.
  - apply deleteHistory_events in Hq.
    match goal with
    | Hauth : Io.outcome (ProfileRoute.authenticate _ _ _) = Io.Ret (inr ?p),
      Huser : Io.outcome (HistoryRoute.find_user _ ?p) = Io.Ret ?r,
      Hid : Io.outcome (Io.get (Query.data ?r) "id") = Io.Ret ?id,
      Hsearch : search "id" = Some ?h |- _ =>
        destruct (authenticate_inr env now request p Hauth) as (token & Htoken & Hverify);
        exists token, p, r, id, h;
        unfold HistoryRoute.find_user in Huser; rewrite ask_outcome in Huser;
        change (Io.outcome (Io.get (Query.data r) "id"))
          with (Io.of_result (Coerce.Get (Query.data r) "id")) in Hid
    end.
    repeat (split; [assumption|]).
    split; [|split; [reflexivity|exact Hq]].
    match goal with
    | Hid : Io.of_result ?g = Io.Ret _ |- _ =>
        destruct g; [injection Hid as ->; reflexivity|discriminate]
    end.
Qed.

(** ** The statements about handlers, at concrete runs *)

(** X19 at a login of [u1]: the answer carries the token twice. *)
Lemma login_POST_issues_verifiable_token_witness :
  exists token view expires_text,
    Handlers.answer_of Handlers.login_u1
    = Http.set_header "Set-Cookie"
        ("auth_token=" +:+ token +:+ "; "
         +:+ "Path=/; HttpOnly; SameSite=Lax; Max-Age=" +:+ expires_text)
        (Http.json (Value.JObj [("success", Value.JBool true); ("user", view);
                                ("token", Value.JStr token)]) 200).
Proof.
  assert (Hrun : Io.outcome Handlers.login_u1
                 = Io.Ret (Handlers.answer_of Handlers.login_u1))
    by (vm_compute; reflexivity).
  assert (Hstatus : Http.status_of (Handlers.answer_of Handlers.login_u1) = Some 200)
    by (vm_compute; reflexivity).
  destruct (login_POST_issues_verifiable_token _ _ _ _ _ _ _ _ _ Hrun Hstatus)
    as (url & wechatData & openid & user & id & token & view & expires_text
        & _ & _ & _ & _ & _ & Hresponse & _).
  exists token, view, expires_text. exact Hresponse.
Defined.

(** X21 at an update of the nickname of [u1] to [Ann], sent with blanks
    around it. *)
Lemma profile_PUT_stores_checked_fields_witness :
  In (Io.Ask [Query.From "users";
              Query.Update (Value.JObj [("nickname", Value.JStr "Ann")]);
              Query.Eq "openid" (Value.JStr "o1");
              Query.Select (Some ProfileRoute.columns); Query.Single])
     (Io.events (ProfileRoute.PUT ∅
                   (Io.Ret (Value.JObj [("nickname", Value.JStr "  Ann  ")]))
                   Handlers.client_u1 1000 Handlers.request_u1))
  /\ exists s, Value.JStr "Ann" = Value.JStr (Coerce.trim s)
               /\ JS.length (Coerce.trim s) <> 0 /\ JS.length s <= 100.
Proof.
  assert (Hq : In (Io.Ask [Query.From "users";
                           Query.Update (Value.JObj [("nickname", Value.JStr "Ann")]);
                           Query.Eq "openid" (Value.JStr "o1");
                           Query.Select (Some ProfileRoute.columns); Query.Single])
                  (Io.events (ProfileRoute.PUT ∅
                                (Io.Ret (Value.JObj [("nickname", Value.JStr "  Ann  ")]))
                                Handlers.client_u1 1000 Handlers.request_u1)))
    by (vm_compute; repeat (first [left; reflexivity | right])).
  destruct (profile_PUT_stores_checked_fields _ _ _ _ _ _
              [("nickname", Value.JStr "Ann")] Hq
              (or_intror (or_introl eq_refl)))
    as (token & p & _ & _ & _ & _ & Hnickname & _).
  split; [exact Hq|].
  exact (Hnickname _ eq_refl).
Defined.

(** X22 at a request of [u1] for the first page, one row stored. *)
Lemma history_GET_listing_fails_witness :
  exists response,
    Io.outcome (HistoryRoute.GET ∅ (Handlers.client_rows [Handlers.row_h1])
                  (fun _ => None) "2024-01-01T00:00:00.000Z" "2024-01-31T23:59:59.000Z"
                  (fun _ _ => Io.Ret (Value.int 1)) 1000 Handlers.request_u1)
    = Io.Ret response
    /\ Http.status_of response = Some 500.
Proof.
  destruct (history_GET_listing_fails ∅ (Handlers.client_rows [Handlers.row_h1])
              (fun _ => None) "2024-01-01T00:00:00.000Z" "2024-01-31T23:59:59.000Z"
              (fun _ _ => Io.Ret (Value.int 1)) 1000 Handlers.request_u1
              login_token_u1
              (Auth.mkTokenPayload (Value.JStr "u1") (Value.JStr "o1"))
              (Query.mkReply Handlers.user_u1 Value.JNull Value.JUndefined)
              (Value.JStr "u1"))
    as (response & Hrun & Hstatus & _).
  - vm_compute. reflexivity.
  - vm_compute. reflexivity.
  - discriminate.
  - reflexivity.
  - reflexivity.
  - reflexivity.
  - reflexivity.
  - intros q r' Hclient Hin. unfold Handlers.client_rows in Hclient.
    assert (Hon : Handlers.on_history q = true).
    { unfold Handlers.on_history. apply existsb_exists.
      exists (Query.From "user_history"). split; [exact Hin|reflexivity]. }
    rewrite Hon in Hclient. injection Hclient as <-. reflexivity.
  - exists response. split; assumption.
Defined.

(** X23 at the same request and row, through the earlier handler. *)
Lemma history_GET_part002_lists_rows_witness :
  exists views,
    Io.outcome (HistoryRoute.GET_part002 ∅ (Handlers.client_rows [Handlers.row_h1])
                  (fun _ => None) 1000 Handlers.request_u1)
    = Io.Ret (Http.json (Value.JObj [("success", Value.JBool true);
                                     ("history", Value.JArr views)]) 200)
    /\ List.length views = 1%nat
    /\ Forall (fun view =>
                 Coerce.Get view "targetPerson" = Eff.Ret Value.JUndefined
                 /\ Coerce.Get view "createdAt" = Eff.Ret Value.JUndefined) views.
Proof.
  apply (history_GET_part002_lists_rows ∅ (Handlers.client_rows [Handlers.row_h1])
           (fun _ => None) 1000 Handlers.request_u1
           login_token_u1
           (Auth.mkTokenPayload (Value.JStr "u1") (Value.JStr "o1"))
           (Query.mkReply Handlers.user_u1 Value.JNull Value.JUndefined)
           (Query.mkReply (Value.JArr [Handlers.row_h1]) Value.JNull Value.JUndefined)
           (Value.JStr "u1") [Handlers.row_h1]).
  - vm_compute. reflexivity.
  - vm_compute. reflexivity.
  - reflexivity.
  - reflexivity.
  - reflexivity.
  - reflexivity.
  - reflexivity.
  - reflexivity.
  - reflexivity.
  - constructor; [|constructor]. eexists. split; [reflexivity|]. split; reflexivity.
Defined.

(** X24 at a request of [u1] to delete the record [h1]. *)
Lemma history_DELETE_is_scoped_to_caller_witness :
  exists id,
    Coerce.Get Handlers.user_u1 "id" = Eff.Ret id
    /\ [Query.From "user_history"; Query.Delete;
        Query.Eq "id" (Value.JStr "h1"); Query.Eq "user_id" (Value.JStr "u1")]
       = [Query.From "user_history"; Query.Delete;
          Query.Eq "id" (Value.JStr "h1"); Query.Eq "user_id" id].
Proof.
  assert (Hq : In (Io.Ask [Query.From "user_history"; Query.Delete;
                           Query.Eq "id" (Value.JStr "h1");
                           Query.Eq "user_id" (Value.JStr "u1")])
                  (Io.events (HistoryRoute.DELETE ∅ Handlers.client_u1
                                Handlers.search_h1 1000 Handlers.request_u1)))
    by (vm_compute; repeat (first [left; reflexivity | right])).
  destruct (history_DELETE_is_scoped_to_caller _ _ _ _ _ _ Hq
              (or_intror (or_introl eq_refl)))
    as (token & p & r & id & historyId & _ & _ & Hclient & Hid & Hsearch & Hquery).
  injection Hclient as <-. injection Hsearch as <-.
  exists id. split; [exact Hid|exact Hquery].
Defined.

(** X18 at the login of [u1], whose row exists. *)
Lemma login_POST_never_updates_last_login_witness :
  Value.own "last_login_at"
    [("nickname", Value.JStr "n1"); ("avatar_url", Value.JUndefined)] = None.
Proof.
  assert (Hq : In (Io.Ask [Query.From "users";
                           Query.Update
                             (Value.JObj [("nickname", Value.JStr "n1");
                                          ("avatar_url", Value.JUndefined)]);
                           Query.Eq "openid" (Value.JStr "o1");
                           Query.Select None; Query.Single])
                  (Io.events Handlers.login_u1))
    by (vm_compute; repeat (first [left; reflexivity | right])).
  exact (proj1 (login_POST_never_updates_last_login _ _ _ _ _ _ _ _ _ _ Hq
                  (or_intror (or_introl eq_refl)))).
Defined.

(** ** [cleanText] *)

Section CleanText.
Import Texts.

Lemma code_chr (b : Z) : 0 <= b < 256 -> JS.code (JS.chr b) = b.
Proof.
  intros Hb. unfold JS.code, JS.chr. rewrite Z.mod_small by exact Hb.
  rewrite N_ascii_embedding by lia. lia.
Qed.

Lemma remove_controls_kept (s : string) :
  Forall kept_byte (JS.bytes_of_string (Validation.remove_controls s)).
Proof.
  induction s as [|c s IH]; [constructor|].
  cbn [Validation.remove_controls].
  destruct (Validation.is_control c) eqn:Hc; [exact IH|].
  change (Forall kept_byte
            (JS.code c :: JS.bytes_of_string (Validation.remove_controls s))).
  constructor; [|exact IH].
  pose proof (code_range c) as Hr. unfold Validation.is_control in Hc.
  unfold kept_byte. split; [exact Hr|]. lia.
Qed.

Lemma kept_not_white (b : Z) :
  kept_byte b -> Coerce.ws1 b = false -> printable_byte b.
Proof. unfold kept_byte, Coerce.ws1, printable_byte. lia. Qed.

Lemma squeeze_printable (n : nat) :
  forall (l : list Z) (in_run : bool),
    (List.length l <= n)%nat ->
    Forall kept_byte l -> Forall printable_byte (Validation.squeeze in_run l).
Proof.
  assert (Hspace : forall (in_run : bool) rest,
             Forall printable_byte rest ->
             Forall printable_byte (if in_run then rest else 32 :: rest)).
  { intros [] rest Hrest; [exact Hrest|].
    constructor; [unfold printable_byte; lia|exact Hrest]. }
  induction n as [|n IH]; intros l in_run Hlen Hl.
  - destruct l; [constructor|cbn [List.length] in Hlen; lia].
  - destruct l as [|b l1]; [constructor|].
    apply Forall_cons_iff in Hl as [Hb Hl1]. cbn [List.length] in Hlen.
    cbn [Validation.squeeze].
    destruct (Coerce.ws1 b) eqn:Hws1.
    { apply Hspace, IH; [lia|exact Hl1]. }
    pose proof (kept_not_white b Hb Hws1) as Hpb.
    destruct l1 as [|c l2]; [constructor; [exact Hpb|constructor]|].
    pose proof Hl1 as Hl1'.
    apply Forall_cons_iff in Hl1 as [Hc Hl2]. cbn [List.length] in Hlen.
    destruct (Coerce.ws2 b c).
    { apply Hspace, IH; [lia|exact Hl2]. }
    destruct l2 as [|d l3].
    { constructor; [exact Hpb|]. apply IH; [cbn [List.length]; lia|exact Hl1']. }
    apply Forall_cons_iff in Hl2 as [Hd Hl3]. cbn [List.length] in Hlen.
    destruct (Coerce.ws3 b c d).
    { apply Hspace, IH; [lia|exact Hl3]. }
    constructor; [exact Hpb|]. apply IH; [cbn [List.length]; lia|exact Hl1'].
Qed.

Lemma strip_Forall (P : Z -> Prop) (back : bool) (n : nat) :
  forall l : list Z,
    (List.length l <= n)%nat -> Forall P l -> Forall P (Coerce.strip back l).
Proof.
  induction n as [|n IH]; intros l Hlen Hl.
  - destruct l; [constructor|cbn [List.length] in Hlen; lia].
  - destruct l as [|b l1]; [constructor|].
    pose proof Hl as Hl'.
    apply Forall_cons_iff in Hl as [Hb Hl1]. cbn [List.length] in Hlen.
    cbn [Coerce.strip].
    destruct (Coerce.ws1 b); [apply IH; [lia|exact Hl1]|].
    destruct l1 as [|c l2]; [exact Hl'|].
    apply Forall_cons_iff in Hl1 as [Hc Hl2]. cbn [List.length] in Hlen.
    destruct (if back then Coerce.ws2 c b else Coerce.ws2 b c);
      [apply IH; [lia|exact Hl2]|].
    destruct l2 as [|d l3]; [exact Hl'|].
    apply Forall_cons_iff in Hl2 as [Hd Hl3]. cbn [List.length] in Hlen.
    destruct (if back then Coerce.ws3 d c b else Coerce.ws3 b c d);
      [apply IH; [lia|exact Hl3]|exact Hl'].
Qed.

Lemma string_of_bytes_printable (l : list Z) :
  Forall printable_byte l -> all_chars printable (JS.string_of_bytes l) = true.
Proof.
  induction 1 as [|b l [Hb1 Hb2] Hl IH]; [reflexivity|].
  change (printable (JS.chr b) && all_chars printable (JS.string_of_bytes l) = true).
  rewrite IH, andb_true_r. unfold printable. rewrite code_chr by lia.
  apply andb_true_intro. split; [lia|].
  apply negb_true_iff, Z.eqb_neq. exact Hb2.
Qed.

Lemma trim_Forall (P : Z -> Prop) (s : string) :
  Forall P (JS.bytes_of_string s) ->
  exists l, Coerce.trim s = JS.string_of_bytes l /\ Forall P l.
Proof.
  intros Hs. unfold Coerce.trim. eexists. split; [reflexivity|].
  apply Forall_rev. apply (strip_Forall P true _ _ (Nat.le_refl _)).
  apply Forall_rev. apply (strip_Forall P false _ _ (Nat.le_refl _)). exact Hs.
Qed.

Lemma bytes_of_string_of_bytes (l : list Z) :
  Forall (fun b => 0 <= b < 256) l ->
  JS.bytes_of_string (JS.string_of_bytes l) = l.
Proof.
  induction 1 as [|b l Hb Hl IH]; [reflexivity|].
  change (JS.code (JS.chr b) :: JS.bytes_of_string (JS.string_of_bytes l) = b :: l).
  rewrite IH, code_chr by exact Hb. reflexivity.
Qed.

End CleanText.

(** X25: [cleanText] leaves no control character: whatever it is given,
    the text it returns has no character below the space and no DEL. The
    tab and the line breaks, which its first replacement keeps on
    purpose, go in the second one, which turns every run of white space
    into one space: a description of several lines comes out as one
    line. *)
Theorem cleanText_leaves_no_control_character (text : Value.jsval) :
  all_chars Texts.printable (Validation.cleanText text) = true.
Proof.
  destruct text; try reflexivity. unfold Validation.cleanText.
  pose proof (squeeze_printable _ _ false (Nat.le_refl _) (remove_controls_kept s))
    as Hsq.
  destruct (trim_Forall Texts.printable_byte
              (JS.string_of_bytes
                 (Validation.squeeze false
                    (JS.bytes_of_string (Validation.remove_controls s)))))
    as (l & -> & Hl).
  - rewrite bytes_of_string_of_bytes; [exact Hsq|].
    eapply Forall_impl; [exact Hsq|]. cbv beta. unfold Texts.printable_byte. lia.
  - apply string_of_bytes_printable, Hl.
Qed.

(** ** [validateInput] and [createBlessingPrompt] *)

Section Validation.
Import Value Validation.

Variable ToString : jsval -> Eff.result string.

Lemma blocked_false (s : string) (p : pattern) :
  blocked s = false -> In p BLOCKED_PATTERNS -> test p s = false.
Proof.
  intros Hs Hp. destruct (test p s) eqn:Htest; [|reflexivity].
  assert (Hb : blocked s = true).
  { unfold blocked. apply existsb_exists. exists p. split; assumption. }
  congruence.
Qed.

Lemma scan_unblocked (ps : list pattern) (scenario targetPerson : string) :
  (forall p, In p ps -> test p scenario = false /\ test p targetPerson = false) ->
  scan ToString ps scenario targetPerson JUndefined JUndefined = Eff.Ret Valid.
Proof.
  induction ps as [|p ps IH]; intros Hps; [reflexivity|].
  cbn [scan]. destruct (Hps p (or_introl eq_refl)) as [-> ->].
  cbn [orb optional_test Js.truthy]. apply IH.
  intros p' Hp'. apply Hps. right. exact Hp'.
Qed.

End Validation.

(** X26: the two readings of [useSmartMode] disagree. [validateInput]
    takes the smart mode for [=== true] only, [createBlessingPrompt] for
    any truthy value. With a [useSmartMode] that is truthy but not [true]
    (the number 1, the text [true]) and an acceptable [scenario] and
    [targetPerson], the description is not validated at all, neither its
    length nor the blocked patterns, and yet it is the description that
    goes into the prompt, as it came. *)
Theorem truthy_mode_description_is_not_validated
    (ToString : Value.jsval -> Eff.result string)
    (members : list (string * Value.jsval)) (mode : Value.jsval)
    (scenario targetPerson description : string) :
  Value.own "useSmartMode" members = Some mode ->
  Js.truthy mode = true ->
  mode <> Value.JBool true ->
  Value.own "scenario" members = Some (Value.JStr scenario) ->
  Scan.nonempty scenario = true ->
  Validation.blocked scenario = false ->
  Value.own "targetPerson" members = Some (Value.JStr targetPerson) ->
  Scan.nonempty targetPerson = true ->
  Validation.blocked targetPerson = false ->
  Value.own "style" members = None ->
  Value.own "festival" members = None ->
  Value.own "customDescription" members = Some (Value.JStr description) ->
  Scan.nonempty (Coerce.trim description) = true ->
  Validation.validateInput ToString (Value.JObj members) = Eff.Ret Validation.Valid
  /\ PromptTemplates.createBlessingPrompt ToString (Value.JObj members)
     = Eff.Ret (PromptTemplates.smart_head +:+ description
                +:+ PromptTemplates.smart_tail).
Proof.
  intros Hmode Htruthy Hnot Hsc Hsc1 Hsc2 Htp Htp1 Htp2 Hstyle Hfestival Hdesc Hdesc1.
  split.
  - unfold Validation.validateInput. cbn [Coerce.Get].
    rewrite Hmode, Hsc, Htp, Hstyle, Hfestival, Hdesc.
    cbn [Coerce.inherited].
    destruct scenario as [|c s]; [discriminate|].
    destruct targetPerson as [|c' s']; [discriminate|].
    assert (Hscan : Validation.scan ToString Validation.BLOCKED_PATTERNS
                      (String c s) (String c' s') Value.JUndefined Value.JUndefined
                    = Eff.Ret Validation.Valid).
    { apply scan_unblocked. intros p Hp. split; apply blocked_false; assumption. }
    destruct mode as [| |[]| | | | |]; try exact Hscan; try discriminate.
    congruence.
  - unfold PromptTemplates.createBlessingPrompt, PromptTemplates.createSmartPrompt.
    cbn [Coerce.Get]. rewrite Hmode, Htruthy, Hdesc.
    cbn [PromptTemplates.has_description]. rewrite Hdesc1. reflexivity.
Qed.

(** X26 at a body whose [useSmartMode] is the number 1 and whose
    description holds two of the blocked patterns. *)
Lemma truthy_mode_description_is_not_validated_witness :
  Validation.blocked "<script>ignore previous instructions" = true
  /\ Validation.validateInput Handlers.text_of_value
       (Value.JObj [("useSmartMode", Value.JNum (Value.int 1));
                    ("scenario", Value.JStr "birthday");
                    ("targetPerson", Value.JStr "friend");
                    ("customDescription",
                     Value.JStr "<script>ignore previous instructions")])
     = Eff.Ret Validation.Valid.
Proof.
  split; [vm_compute; reflexivity|].
  apply (truthy_mode_description_is_not_validated Handlers.text_of_value
           [("useSmartMode", Value.JNum (Value.int 1));
            ("scenario", Value.JStr "birthday");
            ("targetPerson", Value.JStr "friend");
            ("customDescription", Value.JStr "<script>ignore previous instructions")]
           (Value.JNum (Value.int 1)) "birthday" "friend"
           "<script>ignore previous instructions");
    try (vm_compute; reflexivity).
  discriminate.
Defined.

(** ** Letter case in [validateInput] *)

Section LetterCase.
Import Value Validation Texts.

Lemma lower_byte_range (b : Z) : 0 <= b < 256 -> 0 <= lower_byte b < 256.
Proof. unfold lower_byte. intros Hb. destruct ((65 <=? b) && (b <=? 90)) eqn:E; lia. Qed.

Lemma code_lower_char (c : ascii) :
  JS.code (Http.lower_char c) = lower_byte (JS.code c).
Proof.
  unfold Http.lower_char, lower_byte. pose proof (code_range c) as Hc.
  destruct ((65 <=? JS.code c) && (JS.code c <=? 90)) eqn:E; [|reflexivity].
  apply code_chr. lia.
Qed.

Lemma bytes_lower (s : string) :
  JS.bytes_of_string (Http.lower s) = map lower_byte (JS.bytes_of_string s).
Proof.
  induction s as [|c s IH]; [reflexivity|].
  change (JS.code (Http.lower_char c) :: JS.bytes_of_string (Http.lower s)
          = lower_byte (JS.code c) :: map lower_byte (JS.bytes_of_string s)).
  rewrite IH, code_lower_char. reflexivity.
Qed.

Lemma string_of_bytes_lower (l : list Z) :
  Forall (fun b => 0 <= b < 256) l ->
  JS.string_of_bytes (map lower_byte l) = Http.lower (JS.string_of_bytes l).
Proof.
  induction 1 as [|b l Hb Hl IH]; [reflexivity|].
  change (String (JS.chr (lower_byte b)) (JS.string_of_bytes (map lower_byte l))
          = String (Http.lower_char (JS.chr b)) (Http.lower (JS.string_of_bytes l))).
  rewrite IH. f_equal.
  rewrite <- (chr_code (Http.lower_char (JS.chr b))).
  rewrite code_lower_char, code_chr by exact Hb. reflexivity.
Qed.

(** The white space classes do not depend on the case of letters. *)
Lemma eqb_lower (b k : Z) :
  k < 65 \/ 122 < k -> (lower_byte b =? k) = (b =? k).
Proof.
  intros Hk. unfold lower_byte.
  destruct ((65 <=? b) && (b <=? 90)) eqn:E; [|reflexivity].
  apply andb_prop in E as [E1 E2]. apply Z.leb_le in E1, E2.
  transitivity false; [apply Z.eqb_neq; lia|symmetry; apply Z.eqb_neq; lia].
Qed.

Lemma range_lower (b : Z) :
  (128 <=? lower_byte b) && (lower_byte b <=? 138) = (128 <=? b) && (b <=? 138).
Proof.
  unfold lower_byte. destruct ((65 <=? b) && (b <=? 90)) eqn:E; [|reflexivity].
  apply andb_prop in E as [E1 E2]. apply Z.leb_le in E1, E2.
  transitivity false; [|symmetry]; apply andb_false_intro1, Z.leb_gt; lia.
Qed.

Lemma ws1_lower (b : Z) : Coerce.ws1 (lower_byte b) = Coerce.ws1 b.
Proof. unfold Coerce.ws1. rewrite !eqb_lower by lia. reflexivity. Qed.

Lemma ws2_lower (b c : Z) : Coerce.ws2 (lower_byte b) (lower_byte c) = Coerce.ws2 b c.
Proof. unfold Coerce.ws2. rewrite !eqb_lower by lia. reflexivity. Qed.

Lemma ws3_lower (b c d : Z) :
  Coerce.ws3 (lower_byte b) (lower_byte c) (lower_byte d) = Coerce.ws3 b c d.
Proof. unfold Coerce.ws3. rewrite !eqb_lower by lia. rewrite range_lower. reflexivity. Qed.

Lemma strip_lower (back : bool) (n : nat) :
  forall l : list Z,
    (List.length l <= n)%nat ->
    Coerce.strip back (map lower_byte l) = map lower_byte (Coerce.strip back l).
Proof.
  induction n as [|n IH]; intros l Hlen.
  - destruct l; [reflexivity|cbn [List.length] in Hlen; lia].
  - destruct l as [|b l1]; [reflexivity|]. cbn [List.length] in Hlen.
    cbn [map Coerce.strip]. rewrite ws1_lower.
    destruct (Coerce.ws1 b); [apply IH; lia|].
    destruct l1 as [|c l2]; [reflexivity|]. cbn [List.length] in Hlen.
    cbn [map]. cbv iota.
    assert (Hws2 : (if back then Coerce.ws2 (lower_byte c) (lower_byte b)
                    else Coerce.ws2 (lower_byte b) (lower_byte c))
                   = (if back then Coerce.ws2 c b else Coerce.ws2 b c))
      by (destruct back; apply ws2_lower).
    rewrite Hws2.
    destruct (if back then Coerce.ws2 c b else Coerce.ws2 b c); [apply IH; lia|].
    destruct l2 as [|d l3]; [reflexivity|]. cbn [List.length] in Hlen.
    cbn [map]. cbv iota.
    assert (Hws3 : (if back
                    then Coerce.ws3 (lower_byte d) (lower_byte c) (lower_byte b)
                    else Coerce.ws3 (lower_byte b) (lower_byte c) (lower_byte d))
                   = (if back then Coerce.ws3 d c b else Coerce.ws3 b c d))
      by (destruct back; apply ws3_lower).
    rewrite Hws3.
    destruct (if back then Coerce.ws3 d c b else Coerce.ws3 b c d);
      [apply IH; lia|reflexivity].
Qed.

Lemma trim_lower (s : string) : Coerce.trim (Http.lower s) = Http.lower (Coerce.trim s).
Proof.
  unfold Coerce.trim. rewrite bytes_lower.
  rewrite (strip_lower false _ _ (Nat.le_refl _)).
  rewrite <- map_rev.
  rewrite (strip_lower true _ _ (Nat.le_refl _)).
  rewrite <- map_rev. apply string_of_bytes_lower.
  apply Forall_rev. apply (strip_Forall _ true _ _ (Nat.le_refl _)).
  apply Forall_rev. apply (strip_Forall _ false _ _ (Nat.le_refl _)).
  apply bytes_of_string_range.
Qed.

Lemma length_lower (s : string) : JS.length (Http.lower s) = JS.length s.
Proof.
  unfold JS.length. rewrite bytes_lower.
  induction (JS.bytes_of_string s) as [|b l IH]; [reflexivity|].
  cbn [map fold_right]. rewrite IH. f_equal.
  unfold lower_byte.
  destruct ((65 <=? b) && (b <=? 90)) eqn:E; [|reflexivity].
  apply andb_prop in E as [E1 E2]. apply Z.leb_le in E1, E2.
  unfold JS.units_of_byte.
  destruct (Z.leb_spec 128 (b + 32)), (Z.leb_spec 128 b); try lia.
  cbn [andb].
  destruct (Z.leb_spec 240 (b + 32)), (Z.leb_spec 240 b); try lia; reflexivity.
Qed.

Lemma upper_lower_char (c : ascii) :
  upper_char (Http.lower_char c) = upper_char c.
Proof. destruct c as [[] [] [] [] [] [] [] []]; reflexivity. Qed.

Lemma eat_lower (a : atom) (s : string) :
  eat a (Http.lower s) = option_map Http.lower (eat a s).
Proof.
  destruct a as [c|].
  - destruct s as [|b s]; [reflexivity|].
    cbn [Http.lower eat]. rewrite upper_lower_char.
    destruct (Ascii.eqb (upper_char b) (upper_char c)); reflexivity.
  - destruct s as [|b [|c [|d s3]]]; cbn [Http.lower eat];
      rewrite ?code_lower_char, ?ws1_lower, ?ws2_lower, ?ws3_lower.
    + reflexivity.
    + destruct (Coerce.ws1 (JS.code b)); reflexivity.
    + destruct (Coerce.ws1 (JS.code b)); [reflexivity|].
      destruct (Coerce.ws2 (JS.code b) (JS.code c)); reflexivity.
    + destruct (Coerce.ws1 (JS.code b)); [reflexivity|].
      destruct (Coerce.ws2 (JS.code b) (JS.code c)); [reflexivity|].
      destruct (Coerce.ws3 (JS.code b) (JS.code c) (JS.code d)); reflexivity.
Qed.

Lemma string_length_lower (s : string) :
  String.length (Http.lower s) = String.length s.
Proof. induction s as [|c s IH]; [reflexivity|]. cbn [Http.lower String.length]. congruence. Qed.

Lemma star_lower (a : atom) (k : string -> bool) (fuel : nat) :
  (forall s, k (Http.lower s) = k s) ->
  forall s, star fuel a k (Http.lower s) = star fuel a k s.
Proof.
  intros Hk. induction fuel as [|fuel IH]; intros s; cbn [star]; [apply Hk|].
  rewrite eat_lower. destruct (eat a s) as [s'|]; cbn [option_map]; [|apply Hk].
  rewrite IH, Hk. reflexivity.
Qed.

Lemma match_here_lower (p : pattern) :
  forall s, match_here p (Http.lower s) = match_here p s.
Proof.
  induction p as [|[a|a|a] p IH]; intros s; cbn [match_here].
  - reflexivity.
  - rewrite eat_lower. destruct (eat a s); cbn [option_map]; [apply IH|reflexivity].
  - rewrite eat_lower, string_length_lower.
    destruct (eat a s); cbn [option_map]; [|reflexivity].
    apply star_lower, IH.
  - rewrite string_length_lower. apply star_lower, IH.
Qed.

Lemma test_lower (p : pattern) (s : string) : test p (Http.lower s) = test p s.
Proof.
  induction s as [|c s IH].
  - cbn [Http.lower test]. reflexivity.
  - change (Http.lower (String c s)) with (String (Http.lower_char c) (Http.lower s)).
    cbn [test]. rewrite IH. f_equal.
    apply (match_here_lower p (String c s)).
Qed.

Lemma blocked_lower (s : string) : blocked (Http.lower s) = blocked s.
Proof.
  unfold blocked. induction BLOCKED_PATTERNS as [|p ps IH]; [reflexivity|].
  cbn [existsb]. rewrite IH, test_lower. reflexivity.
Qed.

End LetterCase.

(** X27: in smart mode the verdict of [validateInput] does not depend on
    the case of the letters [A-Z] of the description: the text and its
    lower-case form are accepted or refused alike, with the same message.
    The blocked patterns, written in lower case, are found in any mix of
    cases. *)
Theorem validateInput_ignores_letter_case
    (ToString : Value.jsval -> Eff.result string) (description : string) :
  Validation.validateInput ToString (Texts.smart_body (Http.lower description))
  = Validation.validateInput ToString (Texts.smart_body description).
Proof.
  unfold Validation.validateInput, Texts.smart_body. cbn [Coerce.Get Value.own].
  cbn [String.eqb Ascii.eqb Bool.eqb Coerce.inherited].
  destruct description as [|c s]; [reflexivity|].
  change (Http.lower (String c s)) with (String (Http.lower_char c) (Http.lower s)).
  cbv iota.
  change (String (Http.lower_char c) (Http.lower s)) with (Http.lower (String c s)).
  rewrite trim_lower, length_lower, blocked_lower. reflexivity.
Qed.

(** ** The rest of [POST] of the blessing route *)

Section BlessingBody.
Import Value Query Io Http.

Variable ToString : jsval -> Eff.result string.
Variable request_json : result jsval.
Variable validateInput : jsval -> result jsval.
Variable cleanText : jsval -> result jsval.
Variable generateBlessing : string -> result jsval.
Variable client : query -> result reply.
Variable isAxiosError : exn -> bool.
Variable response_status_is : exn -> Z -> bool.
Variable message_includes_429 : exn -> bool.

Lemma errorMessage_fixed (error : exn) :
  In (BlessingRouteBody.errorMessage isAxiosError response_status_is
        message_includes_429 error)
     Texts.error_messages.
Proof.
  unfold BlessingRouteBody.errorMessage, Texts.error_messages.
  destruct (isAxiosError error).
  - destruct (response_status_is error 429); [right; left; reflexivity|].
    destruct (response_status_is error 401 || response_status_is error 403);
      [right; right; left; reflexivity|left; reflexivity].
  - destruct (message_includes_429 error); [right; left; reflexivity|left; reflexivity].
Qed.

End BlessingBody.

(** X28: lines 69-141 of the blessing route answer every admitted
    request, whatever the body, the validation, the generation service and
    the database do: they never throw, and the status is 200, 400 or 500.
    An answer 500 never carries the text of the exception: its [error] is
    one of three fixed messages. *)
Theorem blessing_body_always_answers
    (ToString : Value.jsval -> Eff.result string)
    (request_json : Io.result Value.jsval)
    (validateInput cleanText : Value.jsval -> Io.result Value.jsval)
    (generateBlessing : string -> Io.result Value.jsval)
    (client : Query.query -> Io.result Query.reply)
    (isAxiosError : Io.exn -> bool) (response_status_is : Io.exn -> Z -> bool)
    (message_includes_429 : Io.exn -> bool)
    (decoded : Auth.TokenPayload) :
  exists response,
    Io.outcome (BlessingRouteBody.serve ToString request_json validateInput cleanText
                  generateBlessing client isAxiosError response_status_is
                  message_includes_429 decoded) = Io.Ret response
    /\ (Http.status_of response = Some 200
        \/ Http.status_of response = Some 400
        \/ exists message,
             Http.disp response
             = Http.Reply 500 (Value.JObj [("error", Value.JStr message)])
             /\ In message Texts.error_messages).
Proof.
  assert (Hcatch : forall e,
             exists response,
               Io.outcome
                 (run+ Io.tell (Io.Console Io.Error "生成祝福语失败:") in
                  Io.ret (Http.json
                            (Value.JObj
                               [("error",
                                 Value.JStr
                                   (BlessingRouteBody.errorMessage isAxiosError
                                      response_status_is message_includes_429 e))])
                            500)) = Io.Ret response
               /\ (Http.status_of response = Some 200
                   \/ Http.status_of response = Some 400
                   \/ exists message,
                        Http.disp response
                        = Http.Reply 500 (Value.JObj [("error", Value.JStr message)])
                        /\ In message Texts.error_messages)).
  { intros e. eexists. split; [rewrite outcome_bind; reflexivity|].
    right. right. eexists. split; [reflexivity|]. apply errorMessage_fixed. }
  unfold BlessingRouteBody.serve. rewrite outcome_try_catch.
  unfold BlessingRouteBody.generate, BlessingRouteBody.record.
  repeat first
    [ io_outcome1
    | match goal with
      | |- context [Io.outcome (Io.try_catch ?m ?h)] => rewrite (outcome_try_catch m h)
      | |- context [match ?x with inl _ => _ | inr _ => _ end] => destruct x
      | |- context [let '(_, _) := ?x in _] => destruct x
      end ];
    try apply Hcatch;
    eexists; (split; [reflexivity|]); cbn; auto.
Qed.

(** X29: a failure to store the history record does not fail the request.
    Once the blessing is generated and the lookup of the user resolves,
    with a row or without, lines 92-120 answer 200 with the blessing,
    whatever the insertion into [user_history] does: an error it reports
    or an exception it throws is logged and dropped. *)
Theorem history_failure_does_not_fail_blessing
    (client : Query.query -> Io.result Query.reply)
    (decoded : Auth.TokenPayload) (body blessing : Value.jsval) (r : Query.reply) :
  client [Query.From "users"; Query.Select (Some "id");
          Query.Eq "openid" (Auth.openid decoded); Query.Single] = Io.Ret r ->
  Io.outcome (BlessingRouteBody.record client decoded body blessing)
  = Io.Ret (Http.json (Value.JObj [("blessing", blessing)]) 200).
Proof.
  intros Huser. unfold BlessingRouteBody.record.
  rewrite outcome_bind, ask_outcome, Huser.
  destruct (Js.truthy (Query.error r) || negb (Js.truthy (Query.data r))).
  - rewrite outcome_bind. reflexivity.
  - rewrite outcome_bind, outcome_try_catch.
    destruct (Io.outcome _) as [[]|e]; reflexivity.
Qed.

(** X29 at a client that finds the user and then rejects every insertion. *)
Lemma history_failure_does_not_fail_blessing_witness :
  Io.outcome (BlessingRouteBody.record Handlers.client_insert_fails
                (Auth.mkTokenPayload (Value.JStr "u1") (Value.JStr "o1"))
                (Value.JObj [("occasion", Value.JStr "birthday")]) (Value.JStr "b1"))
  = Io.Ret (Http.json (Value.JObj [("blessing", Value.JStr "b1")]) 200).
Proof.
  apply (history_failure_does_not_fail_blessing Handlers.client_insert_fails
           (Auth.mkTokenPayload (Value.JStr "u1") (Value.JStr "o1"))
           (Value.JObj [("occasion", Value.JStr "birthday")]) (Value.JStr "b1")
           (Query.mkReply Handlers.user_u1 Value.JNull Value.JUndefined)).
  reflexivity.
Defined.

Lemma of_result_ret {A : Type} (r : Eff.result A) (a : A) :
  Io.of_result r = Io.Ret a -> r = Eff.Ret a.
Proof. destruct r; [intros [= ->]; reflexivity|discriminate]. Qed.

(** X30: the generation service is asked only for a body that
    [validateInput] passed, and the prompt it is asked with is the one
    [createBlessingPrompt] of [src/lib/prompt-templates.ts] made. *)
Theorem generation_only_after_validation
    (ToString : Value.jsval -> Eff.result string)
    (request_json : Io.result Value.jsval)
    (validateInput cleanText : Value.jsval -> Io.result Value.jsval)
    (generateBlessing : string -> Io.result Value.jsval)
    (client : Query.query -> Io.result Query.reply)
    (isAxiosError : Io.exn -> bool) (response_status_is : Io.exn -> Z -> bool)
    (message_includes_429 : Io.exn -> bool)
    (decoded : Auth.TokenPayload) (prompt : string) :
  In (Io.GenerateBlessing prompt)
     (Io.events (BlessingRouteBody.serve ToString request_json validateInput cleanText
                   generateBlessing client isAxiosError response_status_is
                   message_includes_429 decoded)) ->
  exists body validation valid options,
    request_json = Io.Ret body
    /\ validateInput body = Io.Ret validation
    /\ Coerce.Get validation "valid" = Eff.Ret valid
    /\ Js.truthy valid = true
    /\ PromptTemplates.createBlessingPrompt ToString options = Eff.Ret prompt.
Proof.
  intros Hev. unfold BlessingRouteBody.serve in Hev.
  io_in Hev; try discriminate.
  - unfold BlessingRouteBody.generate in Hev. io_in Hev; try discriminate.
    injection Hev as <-.
    repeat match goal with
           | H : Io.outcome (Io.bind (Io.tell _) _) = _ |- _ =>
               rewrite outcome_bind in H;
               change (Io.outcome (Io.tell ?ev)) with (Io.Ret tt) in H;
               cbv beta iota in H
           | H : Io.outcome (Io.lift ?r) = _ |- _ =>
               change (Io.outcome (Io.lift r)) with r in H
           | H : Io.outcome (Io.get ?v ?name) = _ |- _ =>
               change (Io.outcome (Io.get v name))
                 with (Io.of_result (Coerce.Get v name)) in H
           | H : Io.of_result ?r = Io.Ret _ |- _ => apply of_result_ret in H
           end.
    match goal with
    | Hbody : request_json = Io.Ret ?body,
      Hvalidation : validateInput ?body = Io.Ret ?validation,
      Hvalid : Coerce.Get ?validation "valid" = Eff.Ret ?valid,
      Hprompt : PromptTemplates.createBlessingPrompt _ ?options = Eff.Ret _ |- _ =>
        exists body, validation, valid, options
    end.
    repeat (split; [assumption|]). split; [|assumption].
    match goal with
    | H : negb (Js.truthy ?v) = false |- Js.truthy ?v = true =>
        apply negb_false_iff, H
    end.
  - unfold BlessingRouteBody.record, Supabase.addHistory, Supabase.ask in Hev.
    io_in Hev; discriminate.
Qed.

(** X30 at a body that the validation passes. *)
Lemma generation_only_after_validation_witness :
  exists body validation valid options,
    Io.Ret (Texts.smart_body "happy birthday") = Io.Ret body
    /\ Handlers.validate_any body = Io.Ret validation
    /\ Coerce.Get validation "valid" = Eff.Ret valid
    /\ Js.truthy valid = true
    /\ PromptTemplates.createBlessingPrompt Handlers.text_of_value options
       = Eff.Ret (PromptTemplates.smart_head +:+ "happy birthday"
                  +:+ PromptTemplates.smart_tail).
Proof.
  apply (generation_only_after_validation Handlers.text_of_value
           (Io.Ret (Texts.smart_body "happy birthday"))
           Handlers.validate_any (fun v => Io.Ret v)
           (fun _ => Io.Ret (Value.JStr "b1")) Handlers.client_u1
           (fun _ => false) (fun _ _ => false) (fun _ => false)
           (Auth.mkTokenPayload (Value.JStr "u1") (Value.JStr "o1"))).
  vm_compute. repeat (first [left; reflexivity | right]).
Defined.
